(** * CleverProfits portal: the report-content pipeline

    A shallow embedding of the pure components of the portal that turn a
    workbook into a report and a report into what is shown:

    - the sheet extractor ([extractCoreSheets], [src/lib/excel.ts]);
    - the number formatter and the row checks ([formatFinancialNumber],
      [isRowTotal], [isRowSubtotal]: the module imported as
      [@/lib/format-financial]);
    - the section parser ([parseReportSections], in the route that
      generates a report);
    - the special-block extractor and the renderer's row check
      ([parseSpecialSections], [isTotalRow],
      [src/components/report-section.tsx]);
    - around them: the sheet preview, the file validation and the payload
      ([previewExtraction], [validateExcelFile], [formatForClaude]), the
      required-sheet gate of the generation route, the section list of the
      system prompt ([buildSystemPrompt]), the title filter of the renderer
      ([removeRedundantTitle], [escapeRegex], run by [MarkdownContent]) and the section choice of the
      viewer ([ReportViewer]);

    followed by the properties the specification states about them, and by
    further properties of the code.

    Conventions of the embedding.

    - A JavaScript string is a [string]: a sequence of 8-bit code units.
      Text outside ASCII is carried as its UTF-8 bytes, so string equality,
      [startsWith], [includes] and [replace] are exact.  Case mapping,
      white space ([trim], [\s]) and line terminators are the ASCII ones;
      the non-ASCII white space and letters JavaScript also knows are
      outside the model, and [length] counts bytes.
    - Regular expressions are terms of [Regex.regex], run by a backtracking
      matcher that follows the ECMAScript rules.
    - A JavaScript number that counts something is a [Z] or a [nat]; the one
      floating-point comparison of the code is done on exact decimals.
    - [null] and [undefined] are [None]. *)

From Stdlib Require Import Bool Arith ZArith NArith Lia List Ascii String DecimalString.
From Stdlib Require Import Permutation Sorted.
Import ListNotations.

Local Open Scope string_scope.
Local Open Scope list_scope.

(** ** JavaScript string primitives *)

Module JsString.

Definition code (c : ascii) : nat := nat_of_ascii c.

Definition is_upper (c : ascii) : bool := (65 <=? code c)%nat && (code c <=? 90)%nat.

Definition is_digit (c : ascii) : bool := (48 <=? code c)%nat && (code c <=? 57)%nat.

(** [\s] on ASCII: TAB, LF, VT, FF, CR and space. *)
Definition is_space (c : ascii) : bool :=
  ((9 <=? code c)%nat && (code c <=? 13)%nat) || (code c =? 32)%nat.

(** Line terminators: LF and CR. *)
Definition is_line_terminator (c : ascii) : bool :=
  (code c =? 10)%nat || (code c =? 13)%nat.

Definition lower_char (c : ascii) : ascii :=
  if is_upper c then ascii_of_nat (code c + 32) else c.

(** [s.toLowerCase()] *)
Fixpoint toLowerCase (s : string) : string :=
  match s with
  | EmptyString => EmptyString
  | String c s' => String (lower_char c) (toLowerCase s')
  end.

(** [s.trimStart()] *)
Fixpoint trimStart (s : string) : string :=
  match s with
  | EmptyString => EmptyString
  | String c s' => if is_space c then trimStart s' else s
  end.

(** [s.trimEnd()] *)
Fixpoint trimEnd (s : string) : string :=
  match s with
  | EmptyString => EmptyString
  | String c s' =>
      match trimEnd s' with
      | EmptyString => if is_space c then EmptyString else String c EmptyString
      | r => String c r
      end
  end.

(** [s.trim()] *)
Definition trim (s : string) : string := trimEnd (trimStart s).

(** [s.startsWith(p)] *)
Definition startsWith (p s : string) : bool := String.prefix p s.

(** [s.includes(n)] *)
Fixpoint includes (n s : string) : bool :=
  String.prefix n s ||
  match s with
  | EmptyString => false
  | String _ s' => includes n s'
  end.

(** [s.endsWith(suf)] *)
Fixpoint endsWith (suf s : string) : bool :=
  String.eqb s suf ||
  match s with
  | EmptyString => false
  | String _ s' => endsWith suf s'
  end.

(** [s.slice(i)] and [s.slice(0, i)] for [0 <= i]. *)
Fixpoint drop (i : nat) (s : string) : string :=
  match i, s with
  | S i', String _ s' => drop i' s'
  | _, _ => s
  end.

Fixpoint take (i : nat) (s : string) : string :=
  match i, s with
  | S i', String c s' => String c (take i' s')
  | _, _ => EmptyString
  end.

(** [s.replace(pat, rep)] with a string pattern: the first occurrence only. *)
Fixpoint replace (pat rep s : string) : string :=
  if String.prefix pat s
  then rep ++ drop (String.length pat) s
  else match s with
       | EmptyString => EmptyString
       | String c s' => String c (replace pat rep s')
       end.

(** [/\d/.test(s)] *)
Fixpoint has_digit (s : string) : bool :=
  match s with
  | EmptyString => false
  | String c s' => is_digit c || has_digit s'
  end.

(** [s.replace(/[^...]/g, '')]: keep the code units of a class. *)
Fixpoint keep (p : ascii -> bool) (s : string) : string :=
  match s with
  | EmptyString => EmptyString
  | String c s' => if p c then String c (keep p s') else keep p s'
  end.

(** [s.indexOf(n)] ([None] for -1). *)
Fixpoint indexOf (n s : string) : option nat :=
  if String.prefix n s then Some 0
  else match s with
       | EmptyString => None
       | String _ s' => option_map S (indexOf n s')
       end.

(** The longest prefix of decimal digits, and what follows it. *)
Fixpoint span_digits (s : string) : string * string :=
  match s with
  | EmptyString => (EmptyString, EmptyString)
  | String c s' =>
      if is_digit c
      then let (d, r) := span_digits s' in (String c d, r)
      else (EmptyString, s)
  end.

Definition nl : string := String (ascii_of_nat 10) EmptyString.

End JsString.
Import JsString.

(** ** Financial number formatting ([@/lib/format-financial]) *)

Module FormatFinancial.

Record FormattedNumber : Type := mkFormatted {
  text : string;
  isNegative : bool;
  isPositive : bool;
  isZero : bool;
  isNA : bool;
}.

(** The unsigned decimal literal [parseFloat] reads at the head of a string
    of digits, dots and minus signs: [d+], [d+.d*] or [.d+]; the integer and
    fraction digits, or [None] when there is none. *)
Definition parse_unsigned (s : string) : option (string * string) :=
  let (ip, r) := span_digits s in
  match r with
  | String c r' =>
      if Ascii.eqb c "."
      then let (fp, _) := span_digits r' in
           if String.eqb ip "" && String.eqb fp "" then None else Some (ip, fp)
      else if String.eqb ip "" then None else Some (ip, EmptyString)
  | EmptyString => if String.eqb ip "" then None else Some (ip, EmptyString)
  end.

Fixpoint N_of_digits (acc : N) (s : string) : N :=
  match s with
  | EmptyString => acc
  | String c s' => N_of_digits (acc * 10 + N.of_nat (code c - 48)) s'
  end.

(** [Math.abs(parseFloat(s))] for a string [s] over [0-9], [.] and [-], as the
    exact decimal [n / 10^k]; [None] is [NaN]. *)
Definition parseFloat_abs (s : string) : option (N * N) :=
  let u := match s with
           | String c r => if Ascii.eqb c "-" then r else s
           | EmptyString => s
           end in
  match parse_unsigned u with
  | None => None
  | Some (ip, fp) => Some (N_of_digits 0 (ip ++ fp), N.of_nat (String.length fp))
  end.

(** [v < 0.01] on IEEE doubles, for the decimal [v = n / 10^k >= 0].  The
    double written [0.01] is [5764607523034235 / 2^59]; a decimal rounds (to
    nearest, ties to even) strictly below it exactly when it is at most the
    midpoint [11529215046068469 / 2^60] to the preceding double. *)
Definition below_one_cent (n k : N) : bool :=
  (n * 2 ^ 60 <=? 11529215046068469 * 10 ^ k)%N.

Definition numeric_chars (c : ascii) : bool :=
  is_digit c || Ascii.eqb c "." || Ascii.eqb c "-".

(** [!isNaN(numericValue) && Math.abs(numericValue) < 0.01] *)
Definition zero_value (strValue : string) : bool :=
  match parseFloat_abs (keep numeric_chars strValue) with
  | None => false
  | Some (n, k) => below_one_cent n k
  end.

(** The test that opens [formatFinancialNumber], on a string value. *)
Definition na_value (v : string) : bool :=
  String.eqb v "" ||
  includes "n/a" (toLowerCase v) ||
  includes "data not provided" (toLowerCase v) ||
  String.eqb (toLowerCase v) "n/m" ||
  String.eqb (toLowerCase v) "nm".

Definition negative_value (strValue : string) : bool :=
  (startsWith "-" strValue && has_digit strValue) ||
  (startsWith "(" strValue && endsWith ")" strValue) ||
  includes "($" strValue ||
  includes "-(" strValue.

Definition positive_value (strValue : string) : bool :=
  startsWith "+" strValue && has_digit strValue.

(** The leading-minus form turned into the parenthesised one. *)
Definition parenthesise (strValue : string) : string :=
  if includes "$" strValue then replace "-$" "($" strValue ++ ")"
  else if includes "%" strValue then "(" ++ replace "-" "" strValue ++ ")"
  else "(" ++ replace "-" "" strValue ++ ")".

Definition em_dash : string := "—".
Definition en_dash : string := "–".

(** A lone dash, em dash or en dash: already formatted as zero. *)
Definition dash_value (strValue : string) : bool :=
  String.eqb strValue "-" || String.eqb strValue em_dash
  || String.eqb strValue en_dash.

Definition formatFinancialNumber (value : option string) : FormattedNumber :=
  match value with
  | None => mkFormatted "N/A" false false false true
  | Some v =>
      if na_value v then mkFormatted "N/A" false false false true
      else
        let strValue := trim v in
        if dash_value strValue
        then mkFormatted em_dash false false true false
        else
          let isNegative := negative_value strValue in
          let isPositive := positive_value strValue in
          let isZero := zero_value strValue in
          if isZero && negb (includes "%" strValue)
          then mkFormatted em_dash false false true false
          else
            let text :=
              if isNegative && startsWith "-" strValue
                 && negb (startsWith "(" strValue)
              then parenthesise strValue
              else strValue in
            mkFormatted text isNegative isPositive isZero false
  end.

(** [isRowTotal] of the formatting library. *)
Definition isRowTotal (label : string) : bool :=
  let lower := trim (toLowerCase label) in
  startsWith "total" lower ||
  startsWith "= " lower ||
  includes "net income" lower ||
  includes "gross profit" lower ||
  includes "ebitda" lower ||
  includes "ebit" lower ||
  String.eqb lower "net cash".

Definition isRowSubtotal (label : string) : bool :=
  let lower := trim (toLowerCase label) in
  startsWith "subtotal" lower || startsWith "sub-total" lower.

Definition isSubItem (label : string) : bool :=
  startsWith "  " label || startsWith (String (ascii_of_nat 9) "") label.

End FormatFinancial.

(** ** The renderer ([src/components/report-section.tsx]), row check *)

Module Renderer.

(** [isTotalRow], the renderer's own copy of the total-row check. *)
Definition isTotalRow (label : string) : bool :=
  let lower := trim (toLowerCase label) in
  startsWith "total" lower ||
  startsWith "= " lower ||
  includes "net income" lower ||
  includes "gross profit" lower ||
  String.eqb lower "ebitda" ||
  String.eqb lower "ebit" ||
  String.eqb lower "net cash".

End Renderer.


(** ** The sheet extractor ([src/lib/excel.ts]) *)

Module Excel.

(** Core sheets, in priority order. *)
Definition CORE_SHEETS : list string :=
  [ "PL - RAW"; "Dynamic PL"; "BS - RAW";
    "Weekly Financial Review"; "Monthly Comparative";
    "Revenue Chart Data"; "COA - RAW";
    "Budget"; "Forecast"; "Annual P&L" ].

(** The alias table, a record keyed by canonical name. *)
Definition alias_table : list (string * list string) :=
  [ ("PL - RAW", ["P&L - RAW"; "PL-RAW"; "P&L RAW"; "Income Statement"; "PL Raw"]);
    ("Dynamic PL", ["Dynamic P&L"; "DynamicPL"; "Formatted PL"; "P&L"]);
    ("BS - RAW", ["BS-RAW"; "BS RAW"; "Balance Sheet"; "BS Raw"]);
    ("Weekly Financial Review", ["Weekly Review"; "Financial Review"; "Dashboard"]);
    ("Monthly Comparative", ["Monthly Comparison"; "MoM Comparative"; "Comparative"]) ].

Fixpoint lookup {A : Type} (k : string) (l : list (string * A)) : option A :=
  match l with
  | [] => None
  | (k', v) :: l' => if String.eqb k' k then Some v else lookup k l'
  end.

(** [SHEET_NAME_ALIASES[targetName]] *)
Definition SHEET_NAME_ALIASES (targetName : string) : option (list string) :=
  lookup targetName alias_table.

(** A workbook as the extractor reads it: its tabs in workbook order, each
    with the CSV text [XLSX.utils.sheet_to_csv] gives for it. *)
Definition WorkBook : Type := list (string * string).

Definition SheetNames (workbook : WorkBook) : list string := map fst workbook.

(** [workbook.Sheets[name]]; every name the extractor asks for comes from
    [SheetNames], so the default (an empty tab) is never used. *)
Definition Sheets (workbook : WorkBook) (name : string) : string :=
  match lookup name workbook with
  | Some sheet => sheet
  | None => EmptyString
  end.

(** [sheetToCsv]: a tab is carried as its CSV text already. *)
Definition sheetToCsv (sheet : string) : string := sheet.

Record ExtractedSheet : Type := mkSheet {
  name : string;
  csv : string;
  estimatedTokens : Z;
}.

Record ExtractionResult : Type := mkResult {
  sheets : list ExtractedSheet;
  totalTokens : Z;
  missingRequiredSheets : list string;
  allSheetNames : list string;
}.

(** The first tab whose lower-cased name equals the lower-cased [wanted]. *)
Definition find_ci (names : list string) (wanted : string) : option string :=
  find (fun sheetName => String.eqb (toLowerCase sheetName) (toLowerCase wanted)) names.

(** The first alias, in table order, that some tab carries. *)
Fixpoint find_alias (names : list string) (aliases : list string) : option string :=
  match aliases with
  | [] => None
  | alias :: rest =>
      match find_ci names alias with
      | Some sheetName => Some sheetName
      | None => find_alias names rest
      end
  end.

Definition findSheetByName (workbook : WorkBook) (targetName : string) : option string :=
  match find_ci (SheetNames workbook) targetName with
  | Some sheetName => Some sheetName
  | None =>
      match SHEET_NAME_ALIASES targetName with
      | Some aliases => find_alias (SheetNames workbook) aliases
      | None => None
      end
  end.

(** [Math.ceil(text.length / 4)] *)
Definition estimateTokens (text : string) : Z :=
  (Z.of_nat (String.length text) + 3) / 4.

(** One turn of the extraction loop on the running [(sheets, totalTokens)].
    [if (actualName)] is a truthiness test: the empty name is skipped. *)
Definition attempt (workbook : WorkBook) (maxTokens : Z)
    (acc : list ExtractedSheet * Z) (targetName : string)
    : list ExtractedSheet * Z :=
  match findSheetByName workbook targetName with
  | None => acc
  | Some actualName =>
      if String.eqb actualName "" then acc
      else
        let text := sheetToCsv (Sheets workbook actualName) in
        let tokens := estimateTokens text in
        if (snd acc + tokens >? maxTokens)%Z then acc
        else (fst acc ++ [mkSheet actualName text tokens], (snd acc + tokens)%Z)
  end.

Definition requiredSheets : list string := ["PL - RAW"; "BS - RAW"].

(** The [found] test of the required-sheet loop; it does not mention the
    required name it is evaluated for. *)
Definition found (admitted : list ExtractedSheet) : bool :=
  existsb (fun s => includes "pl" (toLowerCase (name s))
                    || includes "bs" (toLowerCase (name s))) admitted.

Definition missing (admitted : list ExtractedSheet) : list string :=
  flat_map (fun required => if found admitted then [] else [required])
           requiredSheets.

(** [extractCoreSheets] on the parsed workbook. *)
Definition extractCoreSheets (workbook : WorkBook) (maxTokens : Z) : ExtractionResult :=
  let acc := fold_left (attempt workbook maxTokens) CORE_SHEETS ([], 0%Z) in
  mkResult (fst acc) (snd acc) (missing (fst acc)) (SheetNames workbook).

Definition defaultMaxTokens : Z := 150000.

End Excel.

(** ** Regular expressions, as the source uses them

    A backtracking matcher in continuation-passing style with the
    ECMAScript choices: alternatives are tried left to right, quantifiers
    are greedy, and an iteration of a quantifier that consumes nothing is
    rejected. *)

Module Regex.

Inductive regex : Type :=
| Empty
| Char (p : ascii -> bool)          (* one code unit of a class *)
| Lit (a : ascii)                   (* a literal code unit, under the case flag *)
| Seq (a b : regex)
| Alt (a b : regex)
| Star (a : regex)                  (* greedy [a*] *)
| Group (a : regex)                 (* the capturing group of the pattern *)
| Bol                               (* [^] with the [m] flag *)
| Bos                               (* [^] without the [m] flag *)
| Eos.                              (* [$] without the [m] flag *)

Definition Opt (a : regex) : regex := Alt a Empty.
Definition Plus (a : regex) : regex := Seq a (Star a).
Definition cat (l : list regex) : regex := fold_right Seq Empty l.

(** A literal string. *)
Fixpoint Str (lit : string) : regex :=
  match lit with
  | EmptyString => Empty
  | String a lit' => Seq (Lit a) (Str lit')
  end.

Record mstate : Type := mkState {
  pos : nat;                        (* code units consumed so far *)
  last : option ascii;              (* the code unit before this position *)
  rest : string;                    (* what is left of the subject *)
  cap : option (nat * nat);         (* span of the capturing group *)
}.

(** One code unit consumed. *)
Definition step (c : ascii) (s' : string) (st : mstate) : mstate :=
  mkState (S (pos st)) (Some c) s' (cap st).

(** A position starts a line when it is the first one or follows a line
    terminator. *)
Definition line_start (l : option ascii) : bool :=
  match l with
  | None => true
  | Some c => is_line_terminator c
  end.

Section Matcher.

(** The [i] flag. *)
Variable icase : bool.

Definition canon (c : ascii) : ascii := if icase then lower_char c else c.

Fixpoint rmatch (r : regex) (st : mstate) (k : mstate -> option mstate)
    {struct r} : option mstate :=
  match r with
  | Empty => k st
  | Char p =>
      match rest st with
      | String c s' => if p c then k (step c s' st) else None
      | EmptyString => None
      end
  | Lit a =>
      match rest st with
      | String c s' =>
          if Ascii.eqb (canon a) (canon c) then k (step c s' st) else None
      | EmptyString => None
      end
  | Seq a b => rmatch a st (fun st' => rmatch b st' k)
  | Alt a b =>
      match rmatch a st k with
      | Some res => Some res
      | None => rmatch b st k
      end
  | Star a =>
      (fix loop (fuel : nat) (st : mstate) {struct fuel} : option mstate :=
         match fuel with
         | O => k st
         | S fuel' =>
             match rmatch a st (fun st' =>
                     if (pos st <? pos st')%nat then loop fuel' st' else None) with
             | Some res => Some res
             | None => k st
             end
         end) (S (String.length (rest st))) st
  | Group a =>
      rmatch a st (fun st' =>
        k (mkState (pos st') (last st') (rest st') (Some (pos st, pos st'))))
  | Bol => if line_start (last st) then k st else None
  | Bos => if (pos st =? 0)%nat then k st else None
  | Eos => match rest st with
           | EmptyString => k st
           | _ => None
           end
  end.

(** A match that starts exactly at the given position. *)
Definition match_at (r : regex) (at_ : nat) (l : option ascii) (s : string)
    : option mstate :=
  rmatch r (mkState at_ l s None) Some.

(** The leftmost match at or after the given position: where it starts and
    the state at its end. *)
Fixpoint find (r : regex) (at_ : nat) (l : option ascii) (s : string)
    : option (nat * mstate) :=
  match match_at r at_ l s with
  | Some st' => Some (at_, st')
  | None =>
      match s with
      | EmptyString => None
      | String c s' => find r (S at_) (Some c) s'
      end
  end.

(** [re.test(s)] *)
Definition test (r : regex) (s : string) : bool :=
  match find r 0 None s with
  | Some _ => true
  | None => false
  end.

(** [re.exec(s)] from index 0: the matched text and the text of the group. *)
Definition exec (r : regex) (s : string) : option (string * option string) :=
  match find r 0 None s with
  | None => None
  | Some (start, st') =>
      Some (take (pos st' - start) (drop start s),
            match cap st' with
            | Some (a, b) => Some (take (b - a) (drop a s))
            | None => None
            end)
  end.

(** The successive matches of a [g] pattern over [s], which starts at index
    [at_] of the subject: the text before each match and the match; each
    search resumes where the last match ended (one code unit further after
    an empty match).  [fuel] bounds the number of matches; [S (length s)]
    is enough. *)
Fixpoint scan (fuel : nat) (r : regex) (at_ : nat) (l : option ascii) (s : string)
    : list (string * string) * string :=
  match fuel with
  | O => ([], s)
  | S fuel' =>
      match find r at_ l s with
      | None => ([], s)
      | Some (start, st') =>
          let before := take (start - at_) s in
          let matched := take (pos st' - start) (drop (start - at_) s) in
          if (start <? pos st')%nat
          then let (ms, tail) := scan fuel' r (pos st') (last st') (rest st') in
               ((before, matched) :: ms, tail)
          else match rest st' with
               | EmptyString => ([(before, matched)], EmptyString)
               | String c s' =>
                   let (ms, tail) := scan fuel' r (S (pos st')) (Some c) s' in
                   match ms with
                   | [] => ([(before, matched)], String c tail)
                   | (b, m) :: ms' => ((before, matched) :: (String c b, m) :: ms', tail)
                   end
               end
      end
  end.

(** [s.match(re)] for a [g] pattern: every matched text ([[]] for [null]). *)
Definition matchAll (r : regex) (s : string) : list string :=
  map snd (fst (scan (S (String.length s)) r 0 None s)).

(** [s.replace(re, rep)] for a [g] pattern and a plain replacement. *)
Definition replaceAll (r : regex) (rep s : string) : string :=
  let (ms, tail) := scan (S (String.length s)) r 0 None s in
  fold_right (fun bm acc => (fst bm ++ rep ++ acc)%string) tail ms.

(** [s.replace(re, rep)] without the [g] flag. *)
Definition replaceFirst (r : regex) (rep s : string) : string :=
  match find r 0 None s with
  | None => s
  | Some (start, st') => (take start s ++ rep ++ rest st')%string
  end.

(** [s.split(re)] for a pattern without groups.  [cur] is the part being
    read, [s] what is left from index [q] on.  A match found at [q] ends the
    part, unless it is empty and the part is: then the scan moves on by one
    code unit.  [fuel] bounds the steps; [2 * length s + 2] is enough. *)
Fixpoint split_loop (fuel : nat) (r : regex) (cur : string) (q : nat)
    (l : option ascii) (s : string) : list string :=
  match fuel with
  | O => [(cur ++ s)%string]
  | S fuel' =>
      match s with
      | EmptyString => [cur]
      | String c s' =>
          let advance :=
            split_loop fuel' r (cur ++ String c EmptyString)%string (S q) (Some c) s' in
          match match_at r q l s with
          | None => advance
          | Some st' =>
              if (pos st' =? q)%nat && String.eqb cur EmptyString then advance
              else cur :: split_loop fuel' r EmptyString (pos st') (last st') (rest st')
          end
      end
  end.

Definition split (r : regex) (s : string) : list string :=
  match s with
  | EmptyString =>
      match match_at r 0 None s with
      | Some _ => []
      | None => [EmptyString]
      end
  | _ => split_loop (2 * String.length s + 2) r EmptyString 0 None s
  end.

End Matcher.

(** [s.split(/\n/)] *)
Fixpoint split_lines (s : string) : list string :=
  match s with
  | EmptyString => [EmptyString]
  | String c s' =>
      if Ascii.eqb c (ascii_of_nat 10) then EmptyString :: split_lines s'
      else match split_lines s' with
           | l :: ls => String c l :: ls
           | [] => [String c EmptyString]
           end
  end.

(** Classes and shorthands shared by the patterns. *)
Definition is_char (a : ascii) : regex := Char (Ascii.eqb a).
Definition ws : regex := Char is_space.                       (* [\s] *)
Definition digit : regex := Char is_digit.                    (* [\d] *)
Definition dot : regex := Char (fun c => negb (is_line_terminator c)).  (* [.] *)
Definition newline : regex := Char (Ascii.eqb (ascii_of_nat 10)). (* [\n] *)

End Regex.

(** ** The section parser ([parseReportSections]) *)

Module Sections.
Import Regex.

Record Section : Type := mkSection {
  key : string;
  name : string;
  order : nat;
  content : string;
}.

Record SectionDef : Type := mkDef {
  def_key : string;
  def_pattern : regex;              (* matched under the [i] flag *)
  def_order : nat;
}.

(** [/a\s*b/] *)
Definition words (a b : string) : regex := cat [Str a; Star ws; Str b].

Definition sectionDefinitions : list SectionDef :=
  [ mkDef "executive_snapshot" (words "executive" "snapshot") 1;
    mkDef "revenue_performance" (words "revenue" "performance") 2;
    mkDef "cogs_gross_margin" (Alt (Str "cogs") (words "gross" "margin")) 3;
    mkDef "operating_expenses" (words "operating" "expenses") 4;
    mkDef "profitability_bridges" (Alt (Str "profitability") (Str "bridges")) 5;
    mkDef "variance_performance" (Alt (Str "variance") (Str "performance")) 6;
    mkDef "cash_flow_liquidity" (Alt (words "cash" "flow") (Str "liquidity")) 7;
    mkDef "balance_sheet_health" (words "balance" "sheet") 8;
    mkDef "risk_controls" (Alt (Str "risk") (Str "controls")) 9 ].

(** [/^##\s+/m] *)
Definition headingMarker : regex := cat [Bol; Str "##"; Plus ws].

(** [/^\d+\.\s*/] *)
Definition numbering : regex := cat [Bos; Plus digit; is_char "."; Star ws].

(** [markdown.split(/^##\s+/m)] *)
Definition split_headings (markdown : string) : list string :=
  split false headingMarker markdown.

(** [title] and [content] of one part. *)
Definition part_title (part : string) : string :=
  match indexOf nl part with
  | Some (S i) => trim (take (S i) part)
  | _ => trim part
  end.

Definition part_content (part : string) : string :=
  match indexOf nl part with
  | Some (S i) => trim (drop (S (S i)) part)
  | _ => EmptyString
  end.

(** [`${order}`] *)
Definition string_of_order (n : nat) : string :=
  NilEmpty.string_of_uint (Nat.to_uint n).

(** The section a part gives under the first definition whose pattern
    matches its title, if any. *)
Fixpoint first_match (defs : list SectionDef) (title body : string) : option Section :=
  match defs with
  | [] => None
  | def :: rest =>
      if test true (def_pattern def) title
      then Some (mkSection (def_key def)
                   (string_of_order (def_order def) ++ ". "
                    ++ replaceFirst false numbering "" title)
                   (def_order def)
                   ("## " ++ title ++ nl ++ nl ++ body))
      else first_match rest title body
  end.

Definition section_of_part (part : string) : option Section :=
  first_match sectionDefinitions (part_title part) (part_content part).

(** The sections pushed by the loop over [parts[1..]], in document order. *)
Fixpoint collect (parts : list string) : list Section :=
  match parts with
  | [] => []
  | part :: rest =>
      match section_of_part part with
      | Some sec => sec :: collect rest
      | None => collect rest
      end
  end.

(** [sections.sort((a, b) => a.order - b.order)]: the sort is stable. *)
Fixpoint insert (x : Section) (l : list Section) : list Section :=
  match l with
  | [] => [x]
  | y :: l' => if (order x <=? order y)%nat then x :: l else y :: insert x l'
  end.

Fixpoint sort (l : list Section) : list Section :=
  match l with
  | [] => []
  | x :: l' => insert x (sort l')
  end.

Definition fallback (markdown : string) : Section :=
  mkSection "full_report" "Financial Review" 1 markdown.

Definition parseReportSections (markdown : string) : list Section :=
  let sections := sort (collect (tl (split_headings markdown))) in
  match sections with
  | [] => if String.eqb (trim markdown) "" then [] else [fallback markdown]
  | _ => sections
  end.

End Sections.

(** ** The special-block extractor ([src/components/report-section.tsx]) *)

(** The source patterns are quoted in the comments with a blank put between
    a star and a closing parenthesis that directly follows it. *)

Module SpecialBlocks.
Import Regex.

(** [#{1,4}] *)
Definition hashes : regex :=
  let h := is_char "#" in Seq h (Opt (Seq h (Opt (Seq h (Opt h))))).

(** [[-*•]] and [[-*•?]]; the bullet is three code units. *)
Definition bullet : regex :=
  Alt (Char (fun c => Ascii.eqb c "-" || Ascii.eqb c "*")) (Str "•").
Definition bullet_or_mark : regex :=
  Alt (Char (fun c => Ascii.eqb c "-" || Ascii.eqb c "*" || Ascii.eqb c "?")) (Str "•").

(** [[:\s]*] *)
Definition colons : regex := Star (Char (fun c => Ascii.eqb c ":" || is_space c)).

(** [(?:\([^)]+\))?] and [(?:\([^)]*\))?] *)
Definition not_close : regex := Char (fun c => negb (Ascii.eqb c ")")).
Definition qualifier1 : regex := Opt (cat [is_char "("; Plus not_close; is_char ")"]).
Definition qualifier0 : regex := Opt (cat [is_char "("; Star not_close; is_char ")"]).

(** [(?:\n|$)] *)
Definition line_end : regex := Alt newline Eos.

(** [(?:#{1,4}\s* )?(?:\*\* )?] *)
Definition heading_prefix : list regex :=
  [Opt (Seq hashes (Star ws)); Opt (Str "**")].

(** [/(?:#{1,4}\s* )?(?:\*\* )?(?:\d+\.?\d*\s+)?(?:Top\s+)?Executive\s+(?:Insights?|Summary)(?:\*\* )?[:\s]*(?:\([^)]*\))?\s*\n((?:(?:\d+\.|[-•*])\s+.+(?:\n|$))+)/gi] *)
Definition sectionPattern : regex :=
  cat (heading_prefix ++
       [ Opt (cat [Plus digit; Opt (is_char "."); Star digit; Plus ws]);
         Opt (cat [Str "Top"; Plus ws]);
         Str "Executive"; Plus ws;
         Alt (cat [Str "Insight"; Opt (Str "s")]) (Str "Summary");
         Opt (Str "**"); colons; qualifier0; Star ws; newline;
         Group (Plus (cat [Alt (cat [Plus digit; is_char "."]) bullet;
                           Plus ws; Plus dot; line_end])) ]).

(** [/(?:#{1,4}\s* )?(?:\*\* )?Key\s+Takeaways(?:\*\* )?[:\s]*(?:\([^)]+\))?\s*\n((?:[-*•]\s*.+(?:\n|$))+)/gi] *)
Definition takeawaysPattern : regex :=
  cat (heading_prefix ++
       [ Str "Key"; Plus ws; Str "Takeaways";
         Opt (Str "**"); colons; qualifier1; Star ws; newline;
         Group (Plus (cat [bullet; Star ws; Plus dot; line_end])) ]).

(** [/(?:#{1,4}\s* )?(?:\*\* )?Questions?\s+(?:for\s+)?Management(?:\*\* )?[:\s]*(?:\([^)]+\))?\s*\n((?:[-*•?]\s*.+(?:\n|$))+)/gi] *)
Definition questionsPattern : regex :=
  cat (heading_prefix ++
       [ Str "Question"; Opt (Str "s"); Plus ws;
         Opt (cat [Str "for"; Plus ws]); Str "Management";
         Opt (Str "**"); colons; qualifier1; Star ws; newline;
         Group (Plus (cat [bullet_or_mark; Star ws; Plus dot; line_end])) ]).

(** [/[-*•]\s*(.+)/g] and [/[-*•?]\s*(.+)/g] *)
Definition takeawayItem : regex := cat [bullet; Star ws; Group (Plus dot)].
Definition questionItem : regex := cat [bullet_or_mark; Star ws; Group (Plus dot)].

(** [/^[-*•]\s*/] (also written [/^[-•*]\s*/]), [/^[-*•?]+\s*/] and
    [/^\d+\.\s*/] *)
Definition takeawayMarker : regex := cat [Bos; bullet; Star ws].
Definition questionMarker : regex := cat [Bos; Plus bullet_or_mark; Star ws].
Definition numberMarker : regex := cat [Bos; Plus digit; is_char "."; Star ws].

Definition isExecutiveInsightsHeader (text : string) : bool :=
  let lower := toLowerCase text in
  includes "executive insight" lower ||
  includes "top insight" lower ||
  includes "numeric callout" lower ||
  includes "with callout" lower.

Definition nonempty (s : string) : bool := negb (String.eqb s "").

(** [extractExecutiveInsights]: the insights and the remaining content. *)
Definition extractExecutiveInsights (content : string) : list string * string :=
  match exec true sectionPattern content with
  | None => ([], content)
  | Some (matched, group) =>
      let insightsBlock := match group with Some g => g | None => EmptyString end in
      let cleaned :=
        map (fun line =>
               trim (replaceFirst false takeawayMarker ""
                       (replaceFirst false numberMarker "" line)))
            (split_lines insightsBlock) in
      (filter (fun line => nonempty line && negb (isExecutiveInsightsHeader line)) cleaned,
       replace matched nl content)
  end.

Record Special : Type := mkSpecial {
  content : string;
  keyTakeaways : list string;
  questions : list string;
  executiveInsights : list string;
}.

(** The items pushed for the matches of one block pattern: every match of
    the item pattern inside every matched text, its marker removed, trimmed,
    and kept when non-empty. *)
Definition block_items (block item marker : regex) (content : string) : list string :=
  flat_map (fun matched =>
              filter nonempty
                (map (fun it => trim (replaceFirst false marker "" it))
                     (matchAll false item matched)))
           (matchAll true block content).

Definition parseSpecialSections (markdown : string) : Special :=
  let (executiveInsights, afterInsights) := extractExecutiveInsights markdown in
  let content := afterInsights in
  let keyTakeaways := block_items takeawaysPattern takeawayItem takeawayMarker content in
  let content := replaceAll true takeawaysPattern nl content in
  let questions := block_items questionsPattern questionItem questionMarker content in
  let content := replaceAll true questionsPattern nl content in
  mkSpecial (trim content) keyTakeaways questions executiveInsights.

End SpecialBlocks.

(** ** The specification's vocabulary

    Definitions that follow the words of the specification, to be compared
    with the functions above. *)

Module Spec.
Local Open Scope string_scope.

Definition starts_with (p s : string) : Prop := exists r, s = p ++ r.

Definition contains (n s : string) : Prop := exists a b, s = a ++ n ++ b.

(** "case-insensitive, trimmed" *)
Definition normalised (label : string) : string := toLowerCase (trim label).

(** Total row: "starts with total, starts with [= ], or contains net income,
    gross profit, ebitda, ebit (substring) or is net cash (exact)". *)
Definition total_row (label : string) : Prop :=
  let l := normalised label in
  starts_with "total" l \/ starts_with "= " l \/
  contains "net income" l \/ contains "gross profit" l \/
  contains "ebitda" l \/ contains "ebit" l \/
  l = "net cash".

(** What the renderer's copy decides: ebitda and ebit as exact matches. *)
Definition renderer_total_row (label : string) : Prop :=
  let l := normalised label in
  starts_with "total" l \/ starts_with "= " l \/
  contains "net income" l \/ contains "gross profit" l \/
  l = "ebitda" \/ l = "ebit" \/ l = "net cash".

(** Subtotal row: "label starts with subtotal or sub-total". *)
Definition subtotal_row (label : string) : Prop :=
  let l := normalised label in
  starts_with "subtotal" l \/ starts_with "sub-total" l.

(** Not applicable: "after trimming, it is empty, or (case-insensitively)
    equals n/a, n/m, nm, or contains the phrase data not provided". *)
Definition not_applicable (value : string) : Prop :=
  let v := normalised value in
  v = "" \/ v = "n/a" \/ v = "n/m" \/ v = "nm" \/
  contains "data not provided" v.

(** What the formatter tests: on the untrimmed value, "n/a" as a substring. *)
Definition formatter_not_applicable (value : string) : Prop :=
  let v := toLowerCase value in
  value = "" \/ contains "n/a" v \/ contains "data not provided" v \/
  v = "n/m" \/ v = "nm".

(** [classify]: the formatter on a string value. *)
Definition classify (value : string) : FormatFinancial.FormattedNumber :=
  FormatFinancial.formatFinancialNumber (Some value).

(** "Already-canonical display text": formatting it again gives it back. *)
Definition canonical_text (t : string) : Prop :=
  FormatFinancial.text (classify t) = t.

(** The outcomes of the formatter on a trimmed value that is not N/A: it
    collapses to the em dash, or keeps its text, or has its leading minus
    turned into parentheses. *)
Definition collapses (s : string) : bool :=
  FormatFinancial.dash_value s
  || (FormatFinancial.zero_value s && negb (includes "%" s)).

Definition reformats (s : string) : bool :=
  FormatFinancial.negative_value s && startsWith "-" s && negb (startsWith "(" s).

(** The candidates of an extraction: the tabs the canonical names resolve
    to, in priority order, each with its CSV text and its cost. *)
Definition resolve (workbook : Excel.WorkBook) (targetName : string)
    : list Excel.ExtractedSheet :=
  match Excel.findSheetByName workbook targetName with
  | None => []
  | Some actualName =>
      if String.eqb actualName "" then []
      else let text := Excel.sheetToCsv (Excel.Sheets workbook actualName) in
           [Excel.mkSheet actualName text (Excel.estimateTokens text)]
  end.

Definition candidates (workbook : Excel.WorkBook) : list Excel.ExtractedSheet :=
  flat_map (resolve workbook) Excel.CORE_SHEETS.

(** Greedy admission over a list of candidates. *)
Fixpoint greedy (maxTokens : Z) (acc : list Excel.ExtractedSheet * Z)
    (cands : list Excel.ExtractedSheet) : list Excel.ExtractedSheet * Z :=
  match cands with
  | [] => acc
  | s :: rest =>
      greedy maxTokens
        (if (snd acc + Excel.estimatedTokens s >? maxTokens)%Z then acc
         else ((fst acc ++ [s])%list, (snd acc + Excel.estimatedTokens s)%Z))
        rest
  end.

Definition total_cost (l : list Excel.ExtractedSheet) : Z :=
  fold_right (fun s t => (Excel.estimatedTokens s + t)%Z) 0%Z l.

(** [l] is [m] with some elements left out (the order is kept). *)
Inductive subsequence {A : Type} : list A -> list A -> Prop :=
| sub_nil : subsequence [] []
| sub_skip x l m : subsequence l m -> subsequence l (x :: m)
| sub_keep x l m : subsequence l m -> subsequence (x :: l) (x :: m).

(** Some admitted sheet has [kw] in its lower-cased name. *)
Definition has_keyword (kw : string) (admitted : list Excel.ExtractedSheet) : Prop :=
  exists s, In s admitted /\ contains kw (toLowerCase (Excel.name s)).

(** *** Documents *)

(** The heading scanner: the split at [/^##\s+/m] as one pass over the
    text, giving the first part and the parts after it.  [bol] says the
    scan stands at a line start; [skipping] that it is inside the white
    space of a marker.  A marker is two hashes at a line start and all the
    white space after them, of which there is at least one. *)
Fixpoint split_go (bol skipping : bool) (s : string) : string * list string :=
  match s with
  | EmptyString => (EmptyString, [])
  | String c s' =>
      if skipping && is_space c
      then split_go (is_line_terminator c) true s'
      else
        let plain := let (p, ps) := split_go (is_line_terminator c) false s' in
                     (String c p, ps) in
        if bol && Ascii.eqb c "#"
        then match s' with
             | String c2 (String w s'') =>
                 if Ascii.eqb c2 "#" && is_space w
                 then let (p, ps) := split_go (is_line_terminator w) true s'' in
                      (EmptyString, p :: ps)
                 else plain
             | _ => plain
             end
        else plain
  end.

(** The state of the matcher after the white space at the head of [s]. *)
Fixpoint skip_space (q : nat) (l : option ascii) (s : string) : Regex.mstate :=
  match s with
  | EmptyString => Regex.mkState q l EmptyString None
  | String c s' =>
      if is_space c then skip_space (S q) (Some c) s'
      else Regex.mkState q l s None
  end.

Definition scan_headings (markdown : string) : list string :=
  let (p, ps) := split_go true false markdown in p :: ps.

(** A heading marker stands at the head of [s]: two hashes and a white
    space. *)
Definition marker_at (s : string) : bool :=
  match s with
  | String c1 (String c2 (String w _)) =>
      Ascii.eqb c1 "#" && Ascii.eqb c2 "#" && is_space w
  | _ => false
  end.

(** No line of [s] starts with a heading marker; [bol] says whether [s]
    itself starts a line. *)
Fixpoint heading_free (bol : bool) (s : string) : bool :=
  match s with
  | EmptyString => true
  | String c s' =>
      negb (bol && marker_at s) && heading_free (is_line_terminator c) s'
  end.

(** Whether the text after [s] starts a line. *)
Fixpoint ends_line (bol : bool) (s : string) : bool :=
  match s with
  | EmptyString => bol
  | String c s' => ends_line (is_line_terminator c) s'
  end.

(** Free text: no heading in it, and it ends with a line end (or is
    empty). *)
Definition free_text (s : string) : Prop :=
  heading_free true s = true /\ ends_line true s = true.

(** The title of a heading line: it starts with a visible character, has no
    line feed in it, and no heading marker after a carriage return. *)
Definition heading_title (t : string) : Prop :=
  (exists c t', t = String c t' /\ is_space c = false) /\
  includes nl t = false /\
  heading_free false (t ++ nl) = true.

(** A block: a "## " heading line and the text under it. *)
Definition block : Type := string * string.

Definition render_block (b : block) : string := "## " ++ fst b ++ nl ++ snd b.

Fixpoint render_blocks (blocks : list block) : string :=
  match blocks with
  | [] => ""
  | b :: rest => render_block b ++ render_blocks rest
  end.

(** The part of the document a block makes: all but its marker. *)
Definition chunk (b : block) : string := fst b ++ nl ++ snd b.

(** The text of the last block may stop in the middle of a line. *)
Fixpoint blocks_ok (blocks : list block) : Prop :=
  match blocks with
  | [] => True
  | b :: rest =>
      heading_title (fst b) /\
      match rest with
      | [] => heading_free true (snd b) = true
      | _ => free_text (snd b) /\ blocks_ok rest
      end
  end.

(** A document: some free text, then the blocks. *)
Definition document (preamble : string) (blocks : list block) : string :=
  preamble ++ render_blocks blocks.

(** The sort order of the first canonical pattern a heading title matches. *)
Definition heading_order (title : string) : option nat :=
  option_map Sections.order
    (Sections.first_match Sections.sectionDefinitions (trim title) "").

(** The same as a number, 0 when no pattern matches. *)
Definition heading_rank (title : string) : nat :=
  match heading_order title with
  | Some n => n
  | None => 0
  end.

(** The content the parser stores for a block. *)
Definition stored_content (b : block) : string :=
  "## " ++ trim (fst b) ++ nl ++ nl ++ trim (snd b).

(** [a] stands before [b] in [l]. *)
Definition before {A : Type} (a b : A) (l : list A) : Prop :=
  exists l1 l2 l3, l = (l1 ++ a :: l2 ++ b :: l3)%list.

(** The parts under the "## " headings of a document, and those of them
    whose title matches a canonical pattern. *)
Definition heading_parts (markdown : string) : list string :=
  tl (Sections.split_headings markdown).

(** The first canonical definition whose pattern the title of a part
    matches. *)
Fixpoint first_def (defs : list Sections.SectionDef) (title : string)
    : option Sections.SectionDef :=
  match defs with
  | [] => None
  | d :: rest =>
      if Regex.test true (Sections.def_pattern d) title then Some d
      else first_def rest title
  end.

Definition matched_def (part : string) : option Sections.SectionDef :=
  first_def Sections.sectionDefinitions (Sections.part_title part).

Definition matches (part : string) : bool :=
  match matched_def part with
  | Some _ => true
  | None => false
  end.

Definition no_canonical_heading (markdown : string) : Prop :=
  Forall (fun part => Sections.section_of_part part = None)
         (heading_parts markdown).

End Spec.

(** ** Sample inputs *)

Module Samples.
Local Open Scope string_scope.

(** Both primary statements, under aliases. *)
Definition aliased_workbook : Excel.WorkBook :=
  [ ("Income Statement", "Revenue,1000");
    ("Balance Sheet", "Cash,500") ].

(** Both primary statements, under their canonical names. *)
Definition canonical_workbook : Excel.WorkBook :=
  [ ("PL - RAW", "Revenue,1000");
    ("BS - RAW", "Cash,500") ].

(** The income statement under an alias, and no balance sheet. *)
Definition income_only_workbook : Excel.WorkBook :=
  [ ("Income Statement", "Revenue,1000") ].

(** Three tabs of cost 5, 6 and 5 (20, 24 and 20 characters of CSV). *)
Definition three_tab_workbook : Excel.WorkBook :=
  [ ("PL - RAW", "Revenue,1000,COGS,40");
    ("Dynamic PL", "Revenue,1000,Margin,0.96");
    ("BS - RAW", "Cash,500,Payables,20") ].

(** The nine canonical headings, scrambled. *)
Definition scrambled_blocks : list Spec.block :=
  [ ("7. Cash Flow & Liquidity", "cash" ++ nl);
    ("3. COGS & Gross Margin", "margin" ++ nl);
    ("9. Risk & Controls", "risk" ++ nl);
    ("1. Executive Snapshot", "snapshot" ++ nl);
    ("5. Profitability & Bridges", "bridge" ++ nl);
    ("2. Revenue Performance", "revenue" ++ nl);
    ("8. Balance Sheet Health", "balance" ++ nl);
    ("6. Variance & Performance Management", "variance" ++ nl);
    ("4. Operating Expenses", "opex") ].

Definition scrambled_document : string :=
  Spec.document "" scrambled_blocks.

(** A preamble, one canonical section and an appendix. *)
Definition appendix_document : string :=
  "Prepared for the board." ++ nl ++
  "## 1. Executive Snapshot" ++ nl ++ "Revenue grew." ++ nl ++
  "## Appendix" ++ nl ++ "Methodology notes." ++ nl.

(** The same canonical heading twice. *)
Definition repeated_document : string :=
  "## Executive Snapshot" ++ nl ++ "first" ++ nl ++
  "## 2. Revenue Performance" ++ nl ++ "revenue" ++ nl ++
  "## Executive Snapshot (continued)" ++ nl ++ "second" ++ nl.

(** A section with a takeaways block of three bullets and a questions block
    of two, under plain headings. *)
Definition plain_blocks_section : string :=
  "Revenue grew." ++ nl ++ nl ++
  "### Key Takeaways" ++ nl ++
  "- Revenue up 12%" ++ nl ++ "- Margin stable" ++ nl ++ "- Cash improved" ++ nl ++
  nl ++
  "### Questions for Management" ++ nl ++
  "- Why did churn rise?" ++ nl ++ "- Is hiring on plan?" ++ nl.

(** The same section with its two headings in bold. *)
Definition bold_blocks_section : string :=
  "Revenue grew." ++ nl ++ nl ++
  "**Key Takeaways**" ++ nl ++
  "- Revenue up 12%" ++ nl ++ "- Margin stable" ++ nl ++ "- Cash improved" ++ nl ++
  nl ++
  "**Questions for Management**" ++ nl ++
  "- Why did churn rise?" ++ nl ++ "- Is hiring on plan?" ++ nl.

(** A takeaways heading with a qualifier that holds a dash. *)
Definition qualified_blocks_section : string :=
  "### Key Takeaways (year-to-date)" ++ nl ++
  "- Revenue up 12%" ++ nl ++ "- Margin stable" ++ nl ++ "- Cash improved" ++ nl.

(** Two takeaways blocks in one section. *)
Definition two_blocks_section : string :=
  "#### Key Takeaways" ++ nl ++ "- one" ++ nl ++ "- two" ++ nl ++
  nl ++ "Costs fell." ++ nl ++ nl ++
  "#### Key Takeaways" ++ nl ++ "- three" ++ nl.

End Samples.

(** ** Around the extractor: payload, validation, preview ([src/lib/excel.ts]) *)

Module Payload.
Import Excel.
Local Open Scope string_scope.

(** [c.repeat(n)] for a one-character string. *)
Fixpoint repeat_char (c : ascii) (n : nat) : string :=
  match n with
  | O => EmptyString
  | S n' => String c (repeat_char c n')
  end.

(** [l.join(sep)] *)
Fixpoint join (sep : string) (l : list string) : string :=
  match l with
  | [] => EmptyString
  | [x] => x
  | x :: l' => x ++ sep ++ join sep l'
  end.

(** [`${n}`] for a count. *)
Definition string_of_count (n : nat) : string :=
  NilEmpty.string_of_uint (Nat.to_uint n).

(** What the loop of [formatForClaude] appends for one sheet. *)
Definition append_sheet (output : string) (sheet : ExtractedSheet) : string :=
  let output := output ++ nl ++ "### SHEET: " ++ name sheet ++ nl in
  let output := output ++ repeat_char "-" 80 ++ nl in
  let output := output ++ csv sheet in
  output ++ nl.

Definition formatForClaude (result : ExtractionResult)
    (companyName periodEnd : string) : string :=
  let output := "COMPANY: " ++ companyName ++ nl in
  let output := output ++ "REPORTING PERIOD ENDING: " ++ periodEnd ++ nl in
  let output := output ++ nl ++ repeat_char "=" 80 ++ nl in
  let output := output ++ "FINANCIAL DATA ("
                  ++ string_of_count (List.length (sheets result))
                  ++ " SHEETS EXTRACTED)" ++ nl in
  let output := output ++ repeat_char "=" 80 ++ nl in
  fold_left append_sheet (sheets result) output.

(** What [XLSX.read] did with the buffer: a workbook, or an exception with
    the message of its [Error] ([None] when what was thrown is no [Error]). *)
Inductive ReadOutcome : Type :=
| Parsed (workbook : WorkBook)
| Threw (message : option string).

Record Validation : Type := mkValidation {
  valid : bool;
  error : option string;
  sheetCount : option nat;
}.

(** [CORE_SHEETS.some((name) => findSheetByName(workbook, name) !== null)] *)
Definition hasFinancialSheet (workbook : WorkBook) : bool :=
  existsb (fun name => match findSheetByName workbook name with
                       | Some _ => true
                       | None => false
                       end) CORE_SHEETS.

Definition validateExcelFile (read : ReadOutcome) : Validation :=
  match read with
  | Threw message =>
      mkValidation false
        (Some ("Invalid Excel file: "
               ++ match message with
                  | Some m => m
                  | None => "Unknown error"
                  end))
        None
  | Parsed workbook =>
      let names := SheetNames workbook in
      if (List.length names =? 0)%nat
      then mkValidation false (Some "Excel file has no sheets") None
      else if negb (hasFinancialSheet workbook)
      then mkValidation false
             (Some ("No financial sheets found. Expected at least one of: "
                    ++ join ", " (firstn 3 CORE_SHEETS)
                    ++ ". Found: " ++ join ", " (firstn 5 names)
                    ++ (if (5 <? List.length names)%nat then "..." else "")))
             None
      else mkValidation true None (Some (List.length names))
  end.

Record Preview : Type := mkPreview {
  foundSheets : list string;
  missingSheets : list string;
  allSheets : list string;
}.

(** One turn of the loop of [previewExtraction] on the running
    [(foundSheets, missingSheets)]; [if (actualName)] is a truthiness test. *)
Definition preview_step (workbook : WorkBook)
    (acc : list string * list string) (targetName : string)
    : list string * list string :=
  match findSheetByName workbook targetName with
  | Some actualName =>
      if String.eqb actualName ""
      then (fst acc, (snd acc ++ [targetName])%list)
      else ((fst acc ++ [actualName])%list, snd acc)
  | None => (fst acc, (snd acc ++ [targetName])%list)
  end.

(** [previewExtraction] on the parsed workbook. *)
Definition previewExtraction (workbook : WorkBook) : Preview :=
  let acc := fold_left (preview_step workbook) CORE_SHEETS ([], []) in
  mkPreview (fst acc) (snd acc) (SheetNames workbook).

End Payload.

(** ** The generation route ([POST] of the report-generation route), from
    the extraction to the call of the model *)

Module Route.
Import Excel Payload.
Local Open Scope string_scope.

Inductive Prepared : Type :=
| Rejected (status : nat) (error : string)
| Generate (formattedData : string).

(** The extraction, the required-sheet gate and the payload; the extractor
    runs with its default budget. *)
Definition prepare (workbook : WorkBook) (companyName periodEnd : string) : Prepared :=
  let extraction := extractCoreSheets workbook defaultMaxTokens in
  if (0 <? List.length (missingRequiredSheets extraction))%nat
  then Rejected 400 ("Missing required sheets: "
                     ++ join ", " (missingRequiredSheets extraction))
  else Generate (formatForClaude extraction companyName periodEnd).

End Route.

(** ** The section list of the system prompt ([buildSystemPrompt],
    [src/lib/claude.ts]) *)

Module Prompt.
Import Payload.
Local Open Scope string_scope.

(** The section switches of a client's metric configuration. *)
Record ClientMetricConfig : Type := mkConfig {
  includeExecutiveSnapshot : bool;
  includeRevenuePerformance : bool;
  includeCogsGrossMargin : bool;
  includeOperatingExpenses : bool;
  includeProfitabilityBridges : bool;
  includeVariancePerformance : bool;
  includeCashFlowLiquidity : bool;
  includeBalanceSheetHealth : bool;
  includeRiskControls : bool;
}.

Definition push_if (flag : bool) (title : string) : list string :=
  if flag then [title] else [].

(** [enabledSections] as [buildSystemPrompt] builds it. *)
Definition enabledSections (config : option ClientMetricConfig) : list string :=
  match config with
  | None =>
      [ "1. Executive Snapshot"; "2. Revenue Performance";
        "3. COGS & Gross Margin"; "4. Operating Expenses" ]
  | Some config =>
      (push_if (includeExecutiveSnapshot config) "1. Executive Snapshot"
       ++ push_if (includeRevenuePerformance config) "2. Revenue Performance"
       ++ push_if (includeCogsGrossMargin config) "3. COGS & Gross Margin"
       ++ push_if (includeOperatingExpenses config) "4. Operating Expenses"
       ++ push_if (includeProfitabilityBridges config) "5. Profitability & Bridges"
       ++ push_if (includeVariancePerformance config)
            "6. Variance & Performance Management"
       ++ push_if (includeCashFlowLiquidity config) "7. Cash Flow & Liquidity"
       ++ push_if (includeBalanceSheetHealth config) "8. Balance Sheet Health"
       ++ push_if (includeRiskControls config) "9. Risk & Controls")%list
  end.

End Prompt.

(** ** The redundant-title filter ([removeRedundantTitle], [escapeRegex],
    [src/components/report-section.tsx]) *)

Module Title.
Import Regex.
Local Open Scope string_scope.

(** The class of [escapeRegex], [[.*+?^${}()|[\]\\]], as the source lists
    it. *)
Definition syntax_char (c : ascii) : bool :=
  existsb (Ascii.eqb c)
    [ "."; "*"; "+"; "?"; "^"; "$"; "{"; "}"; "("; ")"; "|"; "["; "]"; "\" ]%char.

(** [str.replace(/[.*+?^${}()|[\]\\]/g, '\\$&')]: a backslash before every
    syntax character. *)
Fixpoint escapeRegex (str : string) : string :=
  match str with
  | EmptyString => EmptyString
  | String c str' =>
      if syntax_char c then String "\" (String c (escapeRegex str'))
      else String c (escapeRegex str')
  end.

(** The pattern grammar of the language, as far as a literal name goes
    (ECMAScript, Patterns).  [SyntaxCharacter] is one of
    [^ $ \ . * + ? ( ) [ ] { } |]; a [PatternCharacter] is any character
    that is no [SyntaxCharacter] and stands for itself; a backslash before a
    [SyntaxCharacter] is an [IdentityEscape] and stands for that character.
    Everything else (a bare syntax character, a backslash before another
    character, a backslash at the end) is not a literal and is not read. *)
Definition SyntaxCharacter (c : ascii) : bool :=
  existsb (Ascii.eqb c)
    [ "^"; "$"; "\"; "."; "*"; "+"; "?"; "("; ")"; "["; "]"; "{"; "}"; "|" ]%char.

Fixpoint read_literal (source : string) : option regex :=
  match source with
  | EmptyString => Some Empty
  | String c source' =>
      if Ascii.eqb c "\"
      then match source' with
           | String e source'' =>
               if SyntaxCharacter e
               then option_map (Seq (Lit e)) (read_literal source'')
               else None
           | EmptyString => None
           end
      else if SyntaxCharacter c then None
      else option_map (Seq (Lit c)) (read_literal source')
  end.

(** The three patterns, around the pattern [name] of the escaped name:
    [^#+\s*\d+\.?\s*name\s*\n+], [^#+\s*name\s*\n+] and
    [^\*\*\d*\.?\s*name\*\*\s*\n+], all under the [i] flag. *)
Definition patterns (name : regex) : list regex :=
  [ cat [Bos; Plus (is_char "#"); Star ws; Plus digit; Opt (is_char ".");
         Star ws; name; Star ws; Plus newline];
    cat [Bos; Plus (is_char "#"); Star ws; name; Star ws; Plus newline];
    cat [Bos; Str "**"; Star digit; Opt (is_char "."); Star ws; name;
         Str "**"; Star ws; Plus newline] ].

(** [!sectionName] holds for [undefined] and for the empty name. *)
Definition removeRedundantTitle (content : string) (sectionName : option string)
    : string :=
  match sectionName with
  | None => content
  | Some sectionName =>
      if String.eqb sectionName "" then content
      else match read_literal (escapeRegex sectionName) with
           | Some name =>
               fold_left (fun result pattern => replaceFirst true pattern "" result)
                         (patterns name) content
           | None => content
           end
  end.

(** [MarkdownContent]: the special blocks are taken out first, and the
    title filter runs on the content that is left; the result is what the
    markdown renderer is given. *)
Definition narrative (markdown : string) (sectionName : option string) : string :=
  removeRedundantTitle
    (SpecialBlocks.content (SpecialBlocks.parseSpecialSections markdown))
    sectionName.

End Title.

(** ** The report viewer ([ReportViewer], the component imported as
    [@/components/report-viewer]): which section is shown *)

Module Viewer.
Local Open Scope string_scope.

(** A stored section as the page hands it to the viewer ([interface Section]). *)
Record StoredSection : Type := mkView {
  id : string;
  sectionKey : string;
  sectionName : string;
  sortOrder : nat;
  raw_markdown : option string;
}.

(** [useState(sections[0]?.sectionKey || "")] *)
Definition initialSection (sections : list StoredSection) : string :=
  match sections with
  | s :: _ => sectionKey s
  | [] => EmptyString
  end.

(** [sections.find((s) => s.sectionKey === activeSection)] *)
Definition currentSection (sections : list StoredSection) (activeSection : string)
    : option StoredSection :=
  find (fun s => String.eqb (sectionKey s) activeSection) sections.

(** The click on the entry of a section: [setActiveSection(section.sectionKey)]. *)
Definition select (section : StoredSection) : string := sectionKey section.

End Viewer.

(** ** What a match is

    The matcher of [Regex] explores, in its order, the derivations of this
    relation: [derives i r st st'] says that [r] can take the subject from
    the state [st] to the state [st']. *)

Module RegexSem.
Import Regex.

Inductive derives (i : bool) : regex -> mstate -> mstate -> Prop :=
| d_empty st : derives i Empty st st
| d_char p c s' st :
    rest st = String c s' -> p c = true ->
    derives i (Char p) st (step c s' st)
| d_lit a c s' st :
    rest st = String c s' -> canon i a = canon i c ->
    derives i (Lit a) st (step c s' st)
| d_seq a b st1 st2 st3 :
    derives i a st1 st2 -> derives i b st2 st3 -> derives i (Seq a b) st1 st3
| d_alt_l a b st st' : derives i a st st' -> derives i (Alt a b) st st'
| d_alt_r a b st st' : derives i b st st' -> derives i (Alt a b) st st'
| d_star_stop a st : derives i (Star a) st st
| d_star_more a st st1 st2 :
    derives i a st st1 -> (pos st < pos st1)%nat ->
    derives i (Star a) st1 st2 -> derives i (Star a) st st2
| d_group a st st' :
    derives i a st st' ->
    derives i (Group a) st
      (mkState (pos st') (last st') (rest st') (Some (pos st, pos st')))
| d_bol st : line_start (last st) = true -> derives i Bol st st
| d_bos st : pos st = 0%nat -> derives i Bos st st
| d_eos st : rest st = EmptyString -> derives i Eos st st.

(** The text between two states of one subject. *)
Definition consumed (st st' : mstate) (w : string) : Prop :=
  rest st = (w ++ rest st')%string /\ pos st' = (pos st + String.length w)%nat.

End RegexSem.

(** ** Notions used to state the properties of the added components *)

Module Notions.
Import Excel Payload.
Local Open Scope string_scope.

(** The aliases of a canonical name (none when the table has no entry). *)
Definition aliases_of (targetName : string) : list string :=
  match SHEET_NAME_ALIASES targetName with
  | Some aliases => aliases
  | None => []
  end.

(** The lower-cased spellings under which a tab answers to a canonical
    name: the name itself, then its aliases. *)
Definition keys (targetName : string) : list string :=
  toLowerCase targetName :: map toLowerCase (aliases_of targetName).

Definition answers (sheetName targetName : string) : Prop :=
  In (toLowerCase sheetName) (keys targetName).

Definition shares_key (t t' : string) : bool :=
  existsb (fun k => existsb (String.eqb k) (keys t')) (keys t).

(** No two names of the list share a spelling. *)
Fixpoint apart (targets : list string) : bool :=
  match targets with
  | [] => true
  | t :: rest => forallb (fun t' => negb (shares_key t t')) rest && apart rest
  end.

(** The CSV characters of a list of sheets. *)
Definition characters (l : list ExtractedSheet) : nat :=
  list_sum (map (fun s => String.length (csv s)) l).

(** The characters of the tab names of a list of sheets. *)
Definition name_characters (l : list ExtractedSheet) : nat :=
  list_sum (map (fun s => String.length (name s)) l).

(** The lines of the payload that carry one sheet. *)
Definition sheet_block (s : ExtractedSheet) : string :=
  "### SHEET: " ++ name s ++ nl ++ repeat_char "-" 80 ++ nl ++ csv s ++ nl.

(** The blocks of a list of sheets, each after an empty line. *)
Definition sheet_blocks (l : list ExtractedSheet) : string :=
  fold_right (fun s acc => nl ++ sheet_block s ++ acc) "" l.

(** The target resolves to no tab the loops would take. *)
Definition unresolved (workbook : WorkBook) (targetName : string) : bool :=
  match findSheetByName workbook targetName with
  | Some actualName => String.eqb actualName ""
  | None => true
  end.

(** The cost of sending the tabs of the given names. *)
Definition cost_of (workbook : WorkBook) (names : list string) : Z :=
  fold_right (fun n t => (estimateTokens (sheetToCsv (Sheets workbook n)) + t)%Z)
             0%Z names.


(** The required-sheet check as its comment and the alias table have it,
    name by name: a required name is missing when no extracted sheet is the
    tab that name resolves to. *)
Definition required_missing (workbook : WorkBook) (admitted : list ExtractedSheet)
    : list string :=
  filter (fun required =>
            negb (existsb (fun s =>
                             match findSheetByName workbook required with
                             | Some actualName => String.eqb (name s) actualName
                             | None => false
                             end) admitted))
         requiredSheets.

(** A document laid out as a preamble and blocks: no heading marker in the
    preamble, which ends a line when blocks follow it. *)
Definition well_formed (preamble : string) (blocks : list Spec.block) : Prop :=
  Spec.heading_free true preamble = true /\
  (blocks <> [] -> Spec.ends_line true preamble = true) /\
  Spec.blocks_ok blocks.


(** What the blocks of a document are expected to give, in document order:
    for each block whose title matches a canonical pattern, the key and the
    sort order of the first such pattern, and the heading line rebuilt from
    the trimmed title, an empty line and the trimmed text of the block.
    The preamble and the other blocks give nothing. *)
Definition expected (b : Spec.block) : list (string * nat * string) :=
  match Spec.first_def Sections.sectionDefinitions (trim (fst b)) with
  | Some d => [ (Sections.def_key d, Sections.def_order d, Spec.stored_content b) ]
  | None => []
  end.

Definition expected_sections (blocks : list Spec.block)
    : list (string * nat * string) :=
  flat_map expected blocks.

Definition shown (s : Sections.Section) : string * nat * string :=
  (Sections.key s, Sections.order s, Sections.content s).


(** The section titles the prompt can list. *)
Definition all_sections : list string :=
  [ "1. Executive Snapshot"; "2. Revenue Performance";
    "3. COGS & Gross Margin"; "4. Operating Expenses";
    "5. Profitability & Bridges"; "6. Variance & Performance Management";
    "7. Cash Flow & Liquidity"; "8. Balance Sheet Health";
    "9. Risk & Controls" ].

(** The section the parser's loop builds from a part under a definition. *)
Definition section_from (def : Sections.SectionDef) (part : string)
    : Sections.Section :=
  Sections.mkSection (Sections.def_key def)
    (Sections.string_of_order (Sections.def_order def) ++ ". "
     ++ Regex.replaceFirst false Sections.numbering "" (Sections.part_title part))
    (Sections.def_order def)
    ("## " ++ Sections.part_title part ++ nl ++ nl ++ Sections.part_content part).

End Notions.

(** ** Further sample inputs *)

Module Cases.
Local Open Scope string_scope.

(** Two stored sections with one key, as a repeated heading gives them. *)
Definition repeated_rows : list Viewer.StoredSection :=
  [ Viewer.mkView "a" "revenue_performance" "2. Revenue Performance" 2
      (Some "## Revenue Performance");
    Viewer.mkView "b" "revenue_performance" "2. Revenue Performance (detail)" 2
      (Some "## Revenue Performance (detail)") ].

(** The income statement under its canonical name, and no balance sheet. *)
Definition pl_only_workbook : Excel.WorkBook :=
  [ ("PL - RAW", "Revenue,1000") ].

(** A preamble, a canonical heading and an appendix, as blocks. *)
Definition board_preamble : string := "Prepared for the board." ++ nl.

Definition appendix_blocks : list Spec.block :=
  [ ("1. Executive Snapshot", "Revenue grew." ++ nl);
    ("Appendix", "Methodology notes." ++ nl) ].

(** The same canonical heading twice, as blocks. *)
Definition repeated_blocks : list Spec.block :=
  [ ("Executive Snapshot", "first" ++ nl);
    ("2. Revenue Performance", "revenue" ++ nl);
    ("Executive Snapshot (continued)", "second" ++ nl) ].

(** A workbook with no financial tab. *)
Definition notes_workbook : Excel.WorkBook :=
  [ ("Notes", "remember the accruals"); ("Sheet2", "") ].

End Cases.

(** * Properties *)

(** ** Strings *)

Module StringFacts.
Local Open Scope string_scope.
Import Spec.

Lemma append_nil_r (s : string) : s ++ "" = s.
Proof. induction s as [|c s IH]; simpl; [reflexivity | now rewrite IH]. Qed.

Lemma append_assoc (a b c : string) : (a ++ b) ++ c = a ++ b ++ c.
Proof. induction a as [|x a IH]; simpl; [reflexivity | now rewrite IH]. Qed.

Lemma length_append (a b : string) :
  String.length (a ++ b) = String.length a + String.length b.
Proof. induction a as [|x a IH]; simpl; [reflexivity | now rewrite IH]. Qed.

Lemma prefix_spec (p s : string) :
  String.prefix p s = true <-> starts_with p s.
Proof.
  unfold starts_with. revert s.
  induction p as [|a p IH]; intros s.
  - destruct s; simpl; split; intros _; try reflexivity; eexists; reflexivity.
  - destruct s as [|b s]; simpl.
    + split; [discriminate | intros [r H]; discriminate].
    + destruct (ascii_dec a b) as [->|Hab].
      * rewrite IH. split; intros [r H]; exists r.
        -- now rewrite H.
        -- now inversion H.
      * split; [discriminate | intros [r H]; congruence].
Qed.

Lemma prefix_nil (s : string) : String.prefix "" s = true.
Proof. now destruct s. Qed.

Lemma includes_spec (n s : string) :
  includes n s = true <-> contains n s.
Proof.
  unfold contains.
  induction s as [|c s IH].
  - cbn [includes]. rewrite orb_false_r, prefix_spec. unfold starts_with. split.
    + intros [r H]. exists "", r. exact H.
    + intros [a [b H]]. destruct a; simpl in H.
      * now exists b.
      * discriminate.
  - cbn [includes]. rewrite orb_true_iff, prefix_spec, IH. unfold starts_with. split.
    + intros [[r H] | [a [b H]]].
      * exists "", r. exact H.
      * exists (String c a), b. simpl. now rewrite H.
    + intros [a [b H]]. destruct a as [|x a]; simpl in H.
      * left. now exists b.
      * right. inversion H. now exists a, b.
Qed.

Lemma contains_app_l (n a s : string) : contains n s -> contains n (a ++ s).
Proof.
  intros [x [y H]]. exists (a ++ x), y. now rewrite H, append_assoc.
Qed.

Lemma contains_app_r (n s b : string) : contains n s -> contains n (s ++ b).
Proof.
  intros [x [y H]]. exists x, (y ++ b). now rewrite H, !append_assoc.
Qed.

Lemma eqb_true (a b : string) : String.eqb a b = true <-> a = b.
Proof. apply String.eqb_eq. Qed.

(** Case mapping leaves white space alone. *)
Lemma is_space_lower_char (c : ascii) : is_space (lower_char c) = is_space c.
Proof. destruct c as [[] [] [] [] [] [] [] []]; reflexivity. Qed.

Lemma toLowerCase_app (a b : string) :
  toLowerCase (a ++ b) = toLowerCase a ++ toLowerCase b.
Proof. induction a as [|x a IH]; simpl; [reflexivity | now rewrite IH]. Qed.

Lemma toLowerCase_trimStart (s : string) :
  trimStart (toLowerCase s) = toLowerCase (trimStart s).
Proof.
  induction s as [|c s IH]; simpl; [reflexivity|].
  rewrite is_space_lower_char. destruct (is_space c); [exact IH | reflexivity].
Qed.

Lemma toLowerCase_trimEnd (s : string) :
  trimEnd (toLowerCase s) = toLowerCase (trimEnd s).
Proof.
  induction s as [|c s IH]; simpl; [reflexivity|].
  rewrite IH, is_space_lower_char.
  destruct (trimEnd s); simpl; [destruct (is_space c)|]; reflexivity.
Qed.

(** The source lower-cases and then trims; the specification trims and then
    compares without case: the same string. *)
Lemma trim_toLowerCase (s : string) :
  trim (toLowerCase s) = normalised s.
Proof.
  unfold trim, normalised, trim.
  now rewrite toLowerCase_trimStart, toLowerCase_trimEnd.
Qed.

(** *** Trimming *)

Lemma trimStart_suffix (s : string) : exists a, s = a ++ trimStart s.
Proof.
  induction s as [|c s [a IH]]; simpl.
  - now exists "".
  - destruct (is_space c).
    + exists (String c a). simpl. now rewrite <- IH.
    + now exists "".
Qed.

Lemma trimEnd_prefix (s : string) : exists b, s = trimEnd s ++ b.
Proof.
  induction s as [|c s [b IH]]; simpl.
  - now exists "".
  - destruct (trimEnd s) as [|d r].
    + destruct (is_space c).
      * exists (String c s). reflexivity.
      * exists b. simpl. now rewrite IH at 1.
    + exists b. simpl. now rewrite IH at 1.
Qed.

Lemma trim_inside (s : string) : exists a b, s = a ++ trim s ++ b.
Proof.
  destruct (trimStart_suffix s) as [a Ha].
  destruct (trimEnd_prefix (trimStart s)) as [b Hb].
  exists a, b. unfold trim. now rewrite <- Hb.
Qed.

Lemma trimStart_nonspace (c : ascii) (s : string) :
  is_space c = false -> trimStart (String c s) = String c s.
Proof. intros H. simpl. now rewrite H. Qed.

Lemma trimEnd_idem (s : string) : trimEnd (trimEnd s) = trimEnd s.
Proof.
  induction s as [|c s IH]; simpl; [reflexivity|].
  destruct (trimEnd s) as [|d r] eqn:E.
  - destruct (is_space c) eqn:Hc; simpl; [reflexivity | now rewrite Hc].
  - simpl. simpl in IH. now rewrite IH.
Qed.

Lemma trimEnd_head (c : ascii) (s : string) :
  trimEnd (String c s) = "" \/ exists r, trimEnd (String c s) = String c r.
Proof.
  simpl. destruct (trimEnd s).
  - destruct (is_space c); [now left | right; now eexists].
  - right. now eexists.
Qed.

Lemma trimStart_trim (s : string) : trimStart (trim s) = trim s.
Proof.
  unfold trim.
  induction s as [|c s IH]; [reflexivity|].
  simpl trimStart at 2 3. destruct (is_space c) eqn:Hc; [exact IH|].
  destruct (trimEnd_head c s) as [E | [r E]]; rewrite E; [reflexivity|].
  now apply trimStart_nonspace.
Qed.

Lemma trim_idem (s : string) : trim (trim s) = trim s.
Proof.
  unfold trim at 1. rewrite trimStart_trim. unfold trim. apply trimEnd_idem.
Qed.

Lemma trimEnd_snoc (s : string) (c : ascii) :
  is_space c = false -> trimEnd (s ++ String c "") = s ++ String c "".
Proof.
  intros Hc. induction s as [|d s IH]; simpl.
  - now rewrite Hc.
  - rewrite IH. destruct s; reflexivity.
Qed.

(** A string between two code units that are not white space is trimmed. *)
Lemma trim_enclosed (a b : ascii) (s : string) :
  is_space a = false -> is_space b = false ->
  trim (String a (s ++ String b "")) = String a (s ++ String b "").
Proof.
  intros Ha Hb. unfold trim. rewrite trimStart_nonspace by exact Ha.
  change (String a (s ++ String b "")) with (String a s ++ String b "").
  now apply trimEnd_snoc.
Qed.

End StringFacts.

(** ** Row checks *)

Module RowProps.
Local Open Scope string_scope.
Import Spec StringFacts FormatFinancial.

Lemma isRowTotal_spec (label : string) :
  isRowTotal label = true <-> total_row label.
Proof.
  unfold isRowTotal, total_row, startsWith. rewrite trim_toLowerCase.
  rewrite !orb_true_iff, !prefix_spec, !includes_spec, eqb_true. tauto.
Qed.

Lemma isTotalRow_spec (label : string) :
  Renderer.isTotalRow label = true <-> renderer_total_row label.
Proof.
  unfold Renderer.isTotalRow, renderer_total_row, startsWith.
  rewrite trim_toLowerCase.
  rewrite !orb_true_iff, !prefix_spec, !includes_spec, !eqb_true. tauto.
Qed.

Lemma isRowSubtotal_spec (label : string) :
  isRowSubtotal label = true <-> subtotal_row label.
Proof.
  unfold isRowSubtotal, subtotal_row, startsWith. rewrite trim_toLowerCase.
  rewrite !orb_true_iff, !prefix_spec. tauto.
Qed.

Lemma contains_self (s : string) : contains s s.
Proof. exists "", "". simpl. now rewrite append_nil_r. Qed.

Lemma contains_ebitda_ebit (s : string) : contains "ebitda" s -> contains "ebit" s.
Proof. intros [a [b H]]. exists a, ("da" ++ b). exact H. Qed.

Lemma renderer_total_row_total_row (label : string) :
  renderer_total_row label -> total_row label.
Proof.
  unfold renderer_total_row, total_row.
  intros [H|[H|[H|[H|[H|[H|H]]]]]]; try tauto.
  - right; right; right; right; left. rewrite H. apply contains_self.
  - right; right; right; right; right; left. rewrite H. apply contains_self.
Qed.

(** C7 (as the code has it).  The library check [isRowTotal] decides the
    specification's total-row predicate on every label.  The renderer's copy
    [isTotalRow] decides a narrower one, in which "ebitda" and "ebit" have to
    be the whole label; it implies the library check and is not implied by
    it. *)
Theorem total_row_checks (label : string) :
  (isRowTotal label = true <-> total_row label) /\
  (Renderer.isTotalRow label = true <-> renderer_total_row label) /\
  (Renderer.isTotalRow label = true -> isRowTotal label = true).
Proof.
  split; [apply isRowTotal_spec|]. split; [apply isTotalRow_spec|].
  rewrite isTotalRow_spec, isRowTotal_spec. apply renderer_total_row_total_row.
Qed.

(** C7, the claim as stated fails: "Adjusted EBITDA" is a total row for the
    specification and for the library check, and not for the renderer. *)
Lemma total_row_checks_disagree :
  total_row "Adjusted EBITDA" /\
  isRowTotal "Adjusted EBITDA" = true /\
  Renderer.isTotalRow "Adjusted EBITDA" = false.
Proof.
  split; [|split; reflexivity].
  apply isRowTotal_spec. reflexivity.
Qed.

(** A label that starts with "subtotal" or "sub-total" is a total row only
    through one of the statement-line names it contains. *)
Lemma subtotal_total (label : string) :
  subtotal_row label ->
  (total_row label <->
   contains "net income" (normalised label) \/
   contains "gross profit" (normalised label) \/
   contains "ebit" (normalised label)).
Proof.
  unfold subtotal_row, total_row. intros Hsub. split.
  - intros [H|[H|[H|[H|[H|[H|H]]]]]]; try tauto.
    + exfalso. destruct H as [r H]. destruct Hsub as [[r' H']|[r' H']];
        rewrite H in H'; discriminate.
    + exfalso. destruct H as [r H]. destruct Hsub as [[r' H']|[r' H']];
        rewrite H in H'; discriminate.
    + right; right. now apply contains_ebitda_ebit.
    + exfalso. destruct Hsub as [[r' H']|[r' H']]; rewrite H in H'; discriminate.
  - tauto.
Qed.

(** C8 (as the code has it).  [isRowSubtotal] holds exactly when the trimmed,
    lower-cased label starts with "subtotal" or "sub-total".  Such a label is
    a total row as well exactly when it contains "net income", "gross profit"
    or "ebit": the two checks exclude each other on all other labels. *)
Theorem subtotal_row_check (label : string) :
  (isRowSubtotal label = true <-> subtotal_row label) /\
  (isRowSubtotal label = true ->
   (isRowTotal label = true <->
    contains "net income" (normalised label) \/
    contains "gross profit" (normalised label) \/
    contains "ebit" (normalised label))).
Proof.
  split; [apply isRowSubtotal_spec|].
  rewrite isRowSubtotal_spec, isRowTotal_spec. apply subtotal_total.
Qed.

(** C8, the claim as stated fails: "Subtotal EBITDA" passes both checks. *)
Lemma subtotal_and_total :
  isRowSubtotal "Subtotal EBITDA" = true /\ isRowTotal "Subtotal EBITDA" = true.
Proof. split; reflexivity. Qed.

(** The cases the specification lists. *)
Example total_expenses_row : Renderer.isTotalRow "Total Expenses" = true.
Proof. reflexivity. Qed.

Example contractor_expenses_row :
  Renderer.isTotalRow "  Contractor Expenses" = false.
Proof. reflexivity. Qed.

Example subtotal_cogs_row : isRowSubtotal "Subtotal COGS" = true.
Proof. reflexivity. Qed.

Example subtotal_cogs_not_total : isRowTotal "Subtotal COGS" = false.
Proof. reflexivity. Qed.

End RowProps.

(** ** The number formatter *)

Module FormatProps.
Local Open Scope string_scope.
Import Spec StringFacts FormatFinancial.

Lemma na_value_spec (v : string) :
  na_value v = true <-> formatter_not_applicable v.
Proof.
  unfold na_value, formatter_not_applicable.
  rewrite !orb_true_iff, !includes_spec, !eqb_true. tauto.
Qed.

(** The three outcomes of the formatter. *)
Lemma classify_na (v : string) :
  na_value v = true ->
  classify v = mkFormatted "N/A" false false false true.
Proof. intros H. unfold classify, formatFinancialNumber. now rewrite H. Qed.

Lemma classify_zero (v : string) :
  na_value v = false -> collapses (trim v) = true ->
  classify v = mkFormatted em_dash false false true false.
Proof.
  intros Hna H. unfold classify, formatFinancialNumber, collapses in *.
  rewrite Hna. destruct (dash_value (trim v)); [reflexivity|].
  simpl in H. now rewrite H.
Qed.

Lemma classify_plain (v : string) :
  na_value v = false -> collapses (trim v) = false ->
  classify v =
  mkFormatted (if reformats (trim v) then parenthesise (trim v) else trim v)
    (negative_value (trim v)) (positive_value (trim v))
    (zero_value (trim v)) false.
Proof.
  intros Hna H. unfold classify, formatFinancialNumber, collapses, reformats in *.
  rewrite Hna. apply orb_false_iff in H. destruct H as [Hd Hz].
  now rewrite Hd, Hz.
Qed.

Lemma isNA_classify (v : string) : isNA (classify v) = na_value v.
Proof.
  destruct (na_value v) eqn:Hna.
  - now rewrite classify_na.
  - destruct (collapses (trim v)) eqn:Hc.
    + now rewrite classify_zero.
    + now rewrite classify_plain.
Qed.

(** C6 (as the code has it).  The formatter reports Not-Applicable, with the
    display text "N/A", exactly when the value as given (not trimmed) is
    empty, or its lower-cased form contains "n/a" or "data not provided", or
    is "n/m" or "nm". *)
Theorem not_applicable_test (v : string) :
  (isNA (classify v) = true /\ text (classify v) = "N/A")
  <-> formatter_not_applicable v.
Proof.
  rewrite <- na_value_spec, isNA_classify. split.
  - tauto.
  - intros H. split; [exact H|]. now rewrite classify_na.
Qed.

(** C6, the claim as stated fails in both directions: a blank value is
    Not-Applicable for the specification and not for the formatter, and
    "Plan/Actual" is Not-Applicable for the formatter only. *)
Lemma not_applicable_mismatch :
  (not_applicable " " /\ isNA (classify " ") = false) /\
  (~ not_applicable "Plan/Actual" /\ isNA (classify "Plan/Actual") = true).
Proof.
  split; split; try reflexivity.
  - left. reflexivity.
  - unfold not_applicable.
    change (normalised "Plan/Actual") with "plan/actual".
    intros [H|[H|[H|[H|H]]]]; try discriminate.
    apply includes_spec in H. discriminate.
Qed.

(** The cases the specification lists. *)
Example classify_negative_currency :
  classify "-$23.0K" = mkFormatted "($23.0K)" true false false false.
Proof. vm_compute. reflexivity. Qed.

Example classify_zero_digit :
  classify "0" = mkFormatted em_dash false false true false.
Proof. vm_compute. reflexivity. Qed.

Example classify_not_provided :
  classify "N/A — Data not provided" = mkFormatted "N/A" false false false true.
Proof. vm_compute. reflexivity. Qed.

Example classify_positive_percent :
  classify "+5.2%" = mkFormatted "+5.2%" false true false false.
Proof. vm_compute. reflexivity. Qed.

Example classify_zero_percent :
  classify "0.0%" = mkFormatted "0.0%" false false true false.
Proof. vm_compute. reflexivity. Qed.

(** *** Re-classifying a display text *)

Lemma replace_eq (pat rep s : string) :
  replace pat rep s =
  if String.prefix pat s then rep ++ drop (String.length pat) s
  else match s with
       | EmptyString => EmptyString
       | String c s' => String c (replace pat rep s')
       end.
Proof. destruct s; reflexivity. Qed.

Lemma prefix_cons (p s : string) :
  String.prefix p s = true -> exists r, s = p ++ r.
Proof. apply prefix_spec. Qed.

Lemma length_replace_dollar (s : string) :
  String.length (replace "-$" "($" s) = String.length s.
Proof.
  induction s as [|c s IH]; [reflexivity|].
  rewrite replace_eq. destruct (String.prefix "-$" (String c s)) eqn:E.
  - apply prefix_cons in E. destruct E as [r E]. rewrite E. reflexivity.
  - simpl. now rewrite IH.
Qed.

Lemma has_digit_app (a b : string) :
  has_digit (a ++ b) = has_digit a || has_digit b.
Proof.
  induction a as [|c a IH]; simpl; [reflexivity|].
  now rewrite IH, orb_assoc.
Qed.

Lemma has_digit_replace_dollar (s : string) :
  has_digit (replace "-$" "($" s) = has_digit s.
Proof.
  induction s as [|c s IH]; [reflexivity|].
  rewrite replace_eq. destruct (String.prefix "-$" (String c s)) eqn:E.
  - apply prefix_cons in E. destruct E as [r E]. rewrite E. reflexivity.
  - simpl. now rewrite IH.
Qed.

Lemma keep_app (p : ascii -> bool) (a b : string) :
  keep p (a ++ b) = keep p a ++ keep p b.
Proof.
  induction a as [|c a IH]; simpl; [reflexivity|].
  rewrite IH. now destruct (p c).
Qed.

Lemma endsWith_snoc (s : string) (c : ascii) :
  endsWith (String c "") (s ++ String c "") = true.
Proof.
  induction s as [|d s IH].
  - simpl. now rewrite Ascii.eqb_refl.
  - change (String d s ++ String c "") with (String d (s ++ String c "")).
    cbn [endsWith]. rewrite IH. apply orb_true_r.
Qed.

(** A value that starts with a minus sign grows by one code unit when it is
    put in parentheses. *)
Lemma length_parenthesise (r : string) :
  String.length (parenthesise (String "-" r)) = S (S (String.length r)).
Proof.
  unfold parenthesise.
  assert (E : String.length ("(" ++ replace "-" "" (String "-" r) ++ ")")
              = S (S (String.length r))).
  { rewrite replace_eq. simpl. rewrite prefix_nil, length_append. simpl. lia. }
  destruct (includes "$" (String "-" r)).
  - rewrite length_append, length_replace_dollar. simpl. lia.
  - destruct (includes "%" (String "-" r)); exact E.
Qed.

Lemma includes_true (n s : string) : contains n s -> includes n s = true.
Proof. apply includes_spec. Qed.

(** Turning the first "-$" into "($" keeps every "($" and every "-(". *)
Lemma includes_open_dollar_replace (s : string) :
  includes "($" s = true -> includes "($" (replace "-$" "($" s) = true.
Proof.
  induction s as [|c s IH]; [discriminate|].
  rewrite replace_eq. destruct (String.prefix "-$" (String c s)) eqn:E.
  - intros _. apply includes_true. eexists "", _. reflexivity.
  - cbn [includes]. rewrite !orb_true_iff. intros [H|H].
    + left. apply prefix_cons in H. destruct H as [r H]. inversion H.
      rewrite replace_eq. simpl. apply prefix_spec. now eexists.
    + right. now apply IH.
Qed.

Lemma includes_minus_open_replace (s : string) :
  includes "-(" s = true -> includes "-(" (replace "-$" "($" s) = true.
Proof.
  induction s as [|c s IH]; [discriminate|].
  rewrite replace_eq. destruct (String.prefix "-$" (String c s)) eqn:E.
  - apply prefix_cons in E. destruct E as [r E]. rewrite E.
    cbn [includes append drop String.length].
    rewrite !orb_true_iff. intros [H|[H|H]].
    + simpl in H. discriminate.
    + simpl in H. discriminate.
    + now right; right.
  - cbn [includes]. rewrite !orb_true_iff. intros [H|H].
    + left. apply prefix_cons in H. destruct H as [r H]. inversion H.
      rewrite replace_eq. simpl. apply prefix_spec. now eexists.
    + right. now apply IH.
Qed.

Lemma includes_app_r (n s b : string) :
  includes n s = true -> includes n (s ++ b) = true.
Proof.
  intros H. apply includes_true, contains_app_r. now apply includes_spec.
Qed.

(** [parseFloat] skips one leading minus sign. *)
Lemma parseFloat_abs_minus (k : string) :
  String.prefix "-" k = false ->
  parseFloat_abs (String "-" k) = parseFloat_abs k.
Proof.
  intros H. unfold parseFloat_abs. simpl.
  destruct k as [|c k]; [reflexivity|].
  destruct (Ascii.eqb_spec c "-") as [->|Hc]; [|reflexivity].
  simpl in H. rewrite prefix_nil in H. discriminate.
Qed.

(** A display text in parentheses that formatting leaves alone. *)
Lemma reclassify_parens (u : string) :
  let t := String "(" (u ++ ")") in
  canonical_text t ->
  classify t = mkFormatted t true (positive_value t) (zero_value t) false.
Proof.
  intros t H. unfold canonical_text in H.
  assert (Ht : trim t = t) by (apply trim_enclosed; reflexivity).
  destruct (na_value t) eqn:Hna.
  { rewrite classify_na in H by exact Hna. discriminate. }
  destruct (collapses (trim t)) eqn:Hc.
  { rewrite classify_zero in H by assumption. discriminate. }
  rewrite classify_plain by assumption. rewrite Ht.
  assert (Hneg : negative_value t = true).
  { unfold negative_value, startsWith.
    replace (endsWith ")" t) with true
      by (symmetry; apply (endsWith_snoc (String "(" u))).
    simpl. now rewrite prefix_nil. }
  assert (Hre : reformats t = false).
  { unfold reformats, startsWith. simpl. now rewrite andb_false_r. }
  now rewrite Hre, Hneg.
Qed.

(** A negative display text that still starts with a minus sign is
    formatted further. *)
Lemma reclassify_minus (u : string) :
  let t := String "-" (u ++ ")") in
  negative_value t = true -> ~ canonical_text t.
Proof.
  intros t Hneg H. unfold canonical_text in H.
  assert (Ht : trim t = t) by (apply trim_enclosed; reflexivity).
  destruct (na_value t) eqn:Hna.
  { rewrite classify_na in H by exact Hna. discriminate. }
  destruct (collapses (trim t)) eqn:Hc.
  { rewrite classify_zero in H by assumption. discriminate. }
  rewrite classify_plain in H by assumption. rewrite Ht in H.
  assert (Hre : reformats t = true).
  { unfold reformats, startsWith. rewrite Hneg. simpl. now rewrite prefix_nil. }
  rewrite Hre in H. simpl in H.
  apply (f_equal String.length) in H.
  unfold t in H. rewrite length_parenthesise in H. simpl in H. lia.
Qed.

(** A value whose trimmed text is kept as it is. *)
Lemma reclassify_unchanged (x : string) :
  na_value x = false -> collapses (trim x) = false ->
  canonical_text (trim x) ->
  classify (trim x) =
  mkFormatted (if reformats (trim x) then parenthesise (trim x) else trim x)
    (negative_value (trim x)) (positive_value (trim x))
    (zero_value (trim x)) false.
Proof.
  intros Hna Hc H. unfold canonical_text in H.
  destruct (na_value (trim x)) eqn:Hna'.
  - exfalso. rewrite classify_na in H by exact Hna'. simpl in H.
    assert (Hx : includes "n/a" (toLowerCase x) = true).
    { apply includes_true.
      destruct (trim_inside x) as [a [b E]]. rewrite E, <- H.
      rewrite !toLowerCase_app.
      apply contains_app_l, contains_app_r. exists "", "". reflexivity. }
    unfold na_value in Hna. rewrite Hx in Hna.
    rewrite orb_true_r in Hna. discriminate.
  - rewrite classify_plain; rewrite ?trim_idem; auto.
Qed.

(** The shapes of a parenthesised value. *)
Lemma parenthesise_dollar (r : string) :
  parenthesise (String "-" (String "$" r)) = String "(" (String "$" r ++ ")").
Proof.
  unfold parenthesise. simpl. now rewrite !prefix_nil.
Qed.

Lemma parenthesise_inner_dollar (r : string) :
  String.prefix "$" r = false -> includes "$" r = true ->
  parenthesise (String "-" r) = String "-" (replace "-$" "($" r ++ ")").
Proof.
  intros Hp Hi. unfold parenthesise.
  cbn [includes]. rewrite Hi, orb_true_r.
  rewrite replace_eq. simpl String.prefix. rewrite Hp. reflexivity.
Qed.

Lemma parenthesise_plain (r : string) :
  includes "$" (String "-" r) = false ->
  parenthesise (String "-" r) = String "(" (r ++ ")").
Proof.
  intros Hi. unfold parenthesise. rewrite Hi.
  rewrite replace_eq. simpl. rewrite prefix_nil.
  now destruct (includes "%" r).
Qed.

Lemma zero_value_parens (u : string) :
  String.prefix "-" (keep numeric_chars u) = false ->
  zero_value (String "(" (u ++ ")")) = zero_value (String "-" u).
Proof.
  intros H. unfold zero_value. simpl.
  rewrite keep_app. simpl. rewrite append_nil_r.
  now rewrite parseFloat_abs_minus.
Qed.

Lemma negative_value_inner_dollar (r : string) :
  negative_value (String "-" r) = true ->
  negative_value (String "-" (replace "-$" "($" r ++ ")")) = true.
Proof.
  unfold negative_value, startsWith. simpl. rewrite !prefix_nil. simpl.
  rewrite !orb_true_iff. intros [[[H|H]|H]|[H|H]].
  - left; left; left. rewrite has_digit_app, has_digit_replace_dollar, H.
    reflexivity.
  - discriminate.
  - left; right. now apply includes_app_r, includes_open_dollar_replace.
  - right; left. apply prefix_cons in H. destruct H as [r' ->].
    rewrite replace_eq. simpl. now rewrite prefix_nil.
  - right; right. now apply includes_app_r, includes_minus_open_replace.
Qed.

(** C9 (as the code has it).  Let [t] be the display text of [x], and let
    formatting leave [t] as it is.  Then classifying [t] gives the negative
    and N/A flags of [x]; it gives the zero flag of [x] as well unless the
    numeric characters (digits, dots, minus signs) of the trimmed [x] begin
    with two minus signs. *)
Theorem reclassify_canonical (x : string) :
  canonical_text (text (classify x)) ->
  isNegative (classify (text (classify x))) = isNegative (classify x) /\
  isNA (classify (text (classify x))) = isNA (classify x) /\
  (startsWith "--" (keep numeric_chars (trim x)) = false ->
   isZero (classify (text (classify x))) = isZero (classify x)).
Proof.
  destruct (na_value x) eqn:Hna.
  { rewrite classify_na by exact Hna. intros _. repeat split. }
  destruct (collapses (trim x)) eqn:Hc.
  { rewrite classify_zero by assumption. intros _. repeat split. }
  rewrite (classify_plain x) by assumption. cbn [text isNegative isNA isZero].
  destruct (reformats (trim x)) eqn:Hre.
  2:{ intros H. rewrite reclassify_unchanged by assumption.
      repeat split. }
  unfold reformats in Hre. apply andb_true_iff in Hre. destruct Hre as [Hre _].
  apply andb_true_iff in Hre. destruct Hre as [Hneg Hminus].
  apply prefix_cons in Hminus. destruct Hminus as [r Hr]. simpl in Hr.
  rewrite Hr in *. clear Hr.
  destruct (includes "$" (String "-" r)) eqn:Hd.
  - destruct (String.prefix "$" r) eqn:Hp.
    + apply prefix_cons in Hp. destruct Hp as [r' ->]. simpl.
      rewrite parenthesise_dollar. intros H.
      rewrite reclassify_parens by exact H. cbn [isNegative isNA isZero].
      repeat split; [symmetry; exact Hneg|].
      intros H2. apply zero_value_parens.
      unfold startsWith in H2. simpl in H2. exact H2.
    + rewrite parenthesise_inner_dollar; [|exact Hp|].
      * intros H. exfalso. revert H. apply reclassify_minus.
        now apply negative_value_inner_dollar.
      * cbn [includes] in Hd. simpl String.prefix in Hd. exact Hd.
  - rewrite parenthesise_plain by exact Hd. intros H.
    rewrite reclassify_parens by exact H. cbn [isNegative isNA isZero].
    repeat split; [symmetry; exact Hneg|].
    intros H2. apply zero_value_parens.
    unfold startsWith in H2. simpl in H2. exact H2.
Qed.

(** C9, the claim as stated fails: the display text of "--0%" is "(-0%)",
    which formatting leaves alone, yet "--0%" is not zero (its number does
    not parse) and "(-0%)" is. *)
Lemma reclassify_changes_zero :
  canonical_text (text (classify "--0%")) /\
  isZero (classify "--0%") = false /\
  isZero (classify (text (classify "--0%"))) = true.
Proof. repeat split. Qed.

(** C9, the theorem at the value "-$5.8K". *)
Lemma reclassify_canonical_witness :
  canonical_text (text (classify "-$5.8K")) /\
  startsWith "--" (keep numeric_chars (trim "-$5.8K")) = false /\
  (isNegative (classify (text (classify "-$5.8K")))
   = isNegative (classify "-$5.8K") /\
   isNA (classify (text (classify "-$5.8K"))) = isNA (classify "-$5.8K") /\
   (startsWith "--" (keep numeric_chars (trim "-$5.8K")) = false ->
    isZero (classify (text (classify "-$5.8K")))
    = isZero (classify "-$5.8K"))).
Proof.
  split; [reflexivity|]. split; [reflexivity|].
  apply (reclassify_canonical "-$5.8K"). reflexivity.
Defined.

End FormatProps.

(** ** The sheet extractor *)

Module ExcelProps.
Import Spec StringFacts Excel.
Local Open Scope Z_scope.

(** The extraction loop is greedy admission over the candidates. *)
Lemma attempt_greedy (workbook : WorkBook) (maxTokens : Z) (targets : list string)
    (acc : list ExtractedSheet * Z) :
  fold_left (attempt workbook maxTokens) targets acc
  = greedy maxTokens acc (flat_map (resolve workbook) targets).
Proof.
  revert acc. induction targets as [|t targets IH]; intros acc; [reflexivity|].
  simpl. rewrite IH. unfold attempt, resolve.
  destruct (findSheetByName workbook t) as [actualName|]; [|reflexivity].
  destruct (String.eqb actualName ""); reflexivity.
Qed.

Lemma extract_greedy (workbook : WorkBook) (maxTokens : Z) :
  sheets (extractCoreSheets workbook maxTokens)
  = fst (greedy maxTokens ([], 0) (candidates workbook)) /\
  totalTokens (extractCoreSheets workbook maxTokens)
  = snd (greedy maxTokens ([], 0) (candidates workbook)).
Proof.
  unfold extractCoreSheets, candidates. cbn [sheets totalTokens].
  now rewrite attempt_greedy.
Qed.

Lemma total_cost_app (l m : list ExtractedSheet) :
  total_cost (l ++ m) = total_cost l + total_cost m.
Proof. induction l as [|x l IH]; simpl; [reflexivity | rewrite IH; lia]. Qed.

Section Greedy.

Variable maxTokens : Z.

Lemma greedy_total (cands : list ExtractedSheet) (acc : list ExtractedSheet * Z) :
  snd acc = total_cost (fst acc) ->
  snd (greedy maxTokens acc cands) = total_cost (fst (greedy maxTokens acc cands)).
Proof.
  revert acc. induction cands as [|s cands IH]; intros acc H; [exact H|].
  simpl. apply IH.
  destruct (snd acc + estimatedTokens s >? maxTokens); [exact H|].
  simpl. rewrite total_cost_app, H. simpl. lia.
Qed.

Lemma greedy_bound (cands : list ExtractedSheet) (acc : list ExtractedSheet * Z) :
  snd acc <= maxTokens -> snd (greedy maxTokens acc cands) <= maxTokens.
Proof.
  revert acc. induction cands as [|s cands IH]; intros acc H; [exact H|].
  simpl. apply IH.
  destruct (snd acc + estimatedTokens s >? maxTokens) eqn:E; [exact H|].
  simpl. rewrite Z.gtb_ltb in E. apply Z.ltb_ge in E. lia.
Qed.

Lemma greedy_subsequence (cands : list ExtractedSheet) (acc : list ExtractedSheet * Z) :
  exists l, fst (greedy maxTokens acc cands) = fst acc ++ l /\ subsequence l cands.
Proof.
  revert acc. induction cands as [|s cands IH]; intros acc.
  - exists []. split; [now rewrite app_nil_r | constructor].
  - simpl. destruct (snd acc + estimatedTokens s >? maxTokens).
    + destruct (IH acc) as [l [E S]]. exists l. split; [exact E | now constructor].
    + destruct (IH (fst acc ++ [s], snd acc + estimatedTokens s)) as [l [E S]].
      exists (s :: l). split; [|now constructor].
      rewrite E. simpl. now rewrite <- app_assoc.
Qed.

(** A leading run of candidates that fits is admitted whole. *)
Lemma greedy_prefix (p rest : list ExtractedSheet) (acc : list ExtractedSheet * Z) :
  Forall (fun s => 0 <= estimatedTokens s) p ->
  snd acc + total_cost p <= maxTokens ->
  greedy maxTokens acc (p ++ rest)
  = greedy maxTokens (fst acc ++ p, snd acc + total_cost p) rest.
Proof.
  revert acc. induction p as [|s p IH]; intros acc Hpos Hfit.
  - simpl. rewrite app_nil_r, Z.add_0_r. now destruct acc.
  - inversion Hpos as [|? ? Hs Hp]; subst. simpl in Hfit |- *.
    assert (Hp' : 0 <= total_cost p).
    { clear -Hp. induction Hp; simpl; lia. }
    destruct (snd acc + estimatedTokens s >? maxTokens) eqn:E.
    + rewrite Z.gtb_ltb in E. apply Z.ltb_lt in E. lia.
    + rewrite IH; [|exact Hp|simpl; lia].
      simpl. rewrite <- app_assoc. simpl. f_equal. f_equal. lia.
Qed.

End Greedy.

Lemma estimateTokens_nonneg (text : string) : 0 <= estimateTokens text.
Proof. unfold estimateTokens. apply Z.div_pos; lia. Qed.

Lemma resolve_nonneg (workbook : WorkBook) (t : string) :
  Forall (fun s => 0 <= estimatedTokens s) (resolve workbook t).
Proof.
  unfold resolve. destruct (findSheetByName workbook t) as [n|]; [|constructor].
  destruct (String.eqb n ""); constructor; [|constructor].
  apply estimateTokens_nonneg.
Qed.

Lemma candidates_nonneg (workbook : WorkBook) :
  Forall (fun s => 0 <= estimatedTokens s) (candidates workbook).
Proof.
  unfold candidates. induction CORE_SHEETS as [|t l IH]; simpl; [constructor|].
  apply Forall_app. split; [apply resolve_nonneg | exact IH].
Qed.

(** What one run of the extractor guarantees. *)
Lemma extract_run (workbook : WorkBook) (maxTokens : Z) :
  0 <= maxTokens ->
  let r := extractCoreSheets workbook maxTokens in
  totalTokens r = total_cost (sheets r) /\
  totalTokens r <= maxTokens /\
  subsequence (sheets r) (candidates workbook) /\
  forall p rest, candidates workbook = p ++ rest ->
    total_cost p <= maxTokens -> exists a, sheets r = p ++ a.
Proof.
  intros HB r. subst r.
  destruct (extract_greedy workbook maxTokens) as [Es Et]. rewrite Es, Et.
  split; [now apply greedy_total|].
  split; [now apply greedy_bound|].
  split.
  - destruct (greedy_subsequence maxTokens (candidates workbook) ([], 0))
      as [l [E S]]. now rewrite E.
  - intros p rest Hc Hfit.
    assert (Hpos : Forall (fun s => 0 <= estimatedTokens s) p).
    { pose proof (candidates_nonneg workbook) as H. rewrite Hc in H.
      apply Forall_app in H. exact (proj1 H). }
    rewrite Hc, greedy_prefix by (simpl; auto).
    destruct (greedy_subsequence maxTokens rest ([] ++ p, 0 + total_cost p))
      as [l [E _]].
    exists l. exact E.
Qed.

(** C2 (as the code has it).  For budgets [0 <= B1 < B2], in each run the
    total is the sum of the admitted costs and stays within the budget, and
    the admitted sheets are the candidates in priority order with some left
    out.  Every leading run of candidates that fits in [B1] (the sheets
    admitted under [B1] before its first skip) is admitted under both
    budgets.  A sheet admitted under [B1] after a skip need not be admitted
    under [B2]. *)
Theorem budget_prefix_monotone (workbook : WorkBook) (B1 B2 : Z) :
  0 <= B1 -> B1 < B2 ->
  let r1 := extractCoreSheets workbook B1 in
  let r2 := extractCoreSheets workbook B2 in
  (totalTokens r1 = total_cost (sheets r1) /\ totalTokens r1 <= B1 /\
   subsequence (sheets r1) (candidates workbook)) /\
  (totalTokens r2 = total_cost (sheets r2) /\ totalTokens r2 <= B2 /\
   subsequence (sheets r2) (candidates workbook)) /\
  (forall p rest, candidates workbook = p ++ rest -> total_cost p <= B1 ->
     exists a1 a2, sheets r1 = p ++ a1 /\ sheets r2 = p ++ a2).
Proof.
  intros H1 H12 r1 r2.
  destruct (extract_run workbook B1 H1) as [T1 [L1 [S1 P1]]].
  assert (H2 : 0 <= B2) by lia.
  destruct (extract_run workbook B2 H2) as [T2 [L2 [S2 P2]]].
  split; [exact (conj T1 (conj L1 S1))|].
  split; [exact (conj T2 (conj L2 S2))|].
  intros p rest Hc Hfit.
  destruct (P1 p rest Hc Hfit) as [a1 E1].
  assert (Hfit2 : total_cost p <= B2) by lia.
  destruct (P2 p rest Hc Hfit2) as [a2 E2].
  exists a1, a2. exact (conj E1 E2).
Qed.

(** C2, the claim as stated fails: with costs 5, 6 and 5, the budget 10
    skips the second tab and admits the third; the budget 11 admits the
    second and has no room left for the third. *)
Lemma budget_not_monotone :
  map name (sheets (extractCoreSheets Samples.three_tab_workbook 10))
  = ["PL - RAW"; "BS - RAW"]%string /\
  map name (sheets (extractCoreSheets Samples.three_tab_workbook 11))
  = ["PL - RAW"; "Dynamic PL"]%string /\
  ~ incl (sheets (extractCoreSheets Samples.three_tab_workbook 10))
         (sheets (extractCoreSheets Samples.three_tab_workbook 11)).
Proof.
  split; [vm_compute; reflexivity|]. split; [vm_compute; reflexivity|].
  intros H.
  specialize (H (mkSheet "BS - RAW" "Cash,500,Payables,20" 5)).
  assert (Hin : In (mkSheet "BS - RAW" "Cash,500,Payables,20" 5)
                   (sheets (extractCoreSheets Samples.three_tab_workbook 10)))
    by (vm_compute; right; left; reflexivity).
  apply H in Hin. vm_compute in Hin.
  destruct Hin as [E|[E|[]]]; discriminate E.
Qed.

(** C2, the theorem at the budgets 10 and 11 of the three-tab workbook. *)
Lemma budget_prefix_monotone_witness :
  (0 <= 10 /\ 10 < 11) /\
  let r1 := extractCoreSheets Samples.three_tab_workbook 10 in
  let r2 := extractCoreSheets Samples.three_tab_workbook 11 in
  (totalTokens r1 = total_cost (sheets r1) /\ totalTokens r1 <= 10 /\
   subsequence (sheets r1) (candidates Samples.three_tab_workbook)) /\
  (totalTokens r2 = total_cost (sheets r2) /\ totalTokens r2 <= 11 /\
   subsequence (sheets r2) (candidates Samples.three_tab_workbook)) /\
  (forall p rest, candidates Samples.three_tab_workbook = p ++ rest ->
     total_cost p <= 10 ->
     exists a1 a2, sheets r1 = p ++ a1 /\ sheets r2 = p ++ a2).
Proof.
  split; [lia|].
  exact (budget_prefix_monotone Samples.three_tab_workbook 10 11
           ltac:(lia) ltac:(lia)).
Defined.

(** *** Required sheets *)

Lemma find_ci_In (names : list string) (wanted n : string) :
  find_ci names wanted = Some n -> In n names.
Proof. unfold find_ci. intros H. now apply find_some in H. Qed.

Lemma find_alias_In (names aliases : list string) (n : string) :
  find_alias names aliases = Some n -> In n names.
Proof.
  induction aliases as [|a aliases IH]; simpl; [discriminate|].
  destruct (find_ci names a) eqn:E.
  - intros H. inversion H; subst. now apply find_ci_In in E.
  - exact IH.
Qed.

Lemma findSheetByName_In (workbook : WorkBook) (t n : string) :
  findSheetByName workbook t = Some n -> In n (SheetNames workbook).
Proof.
  unfold findSheetByName.
  destruct (find_ci (SheetNames workbook) t) eqn:E.
  - intros H. inversion H; subst. now apply find_ci_In in E.
  - destruct (SHEET_NAME_ALIASES t); [apply find_alias_In | discriminate].
Qed.

Lemma subsequence_In {A : Type} (l m : list A) (x : A) :
  subsequence l m -> In x l -> In x m.
Proof.
  induction 1 as [|y l m S IH|y l m S IH]; simpl; intros H; auto.
  destruct H; auto.
Qed.

(** An admitted sheet carries the name of the tab it was read from. *)
Lemma admitted_name (workbook : WorkBook) (maxTokens : Z) (s : ExtractedSheet) :
  In s (sheets (extractCoreSheets workbook maxTokens)) ->
  In (name s) (SheetNames workbook) /\
  csv s = Sheets workbook (name s) /\
  exists target, In target CORE_SHEETS /\
                 findSheetByName workbook target = Some (name s).
Proof.
  intros H.
  destruct (extract_greedy workbook maxTokens) as [Es _]. rewrite Es in H.
  destruct (greedy_subsequence maxTokens (candidates workbook) ([], 0))
    as [l [E S]]. rewrite E in H. simpl in H.
  apply (subsequence_In _ _ _ S) in H.
  unfold candidates in H. apply in_flat_map in H.
  destruct H as [target [Ht Hs]]. unfold resolve in Hs.
  destruct (findSheetByName workbook target) as [n|] eqn:Hf; [|contradiction].
  destruct (String.eqb n ""); [contradiction|].
  destruct Hs as [<-|[]]. simpl.
  split; [exact (findSheetByName_In _ _ _ Hf)|].
  split; [reflexivity|]. exists target. exact (conj Ht Hf).
Qed.

Lemma found_spec (admitted : list ExtractedSheet) :
  found admitted = true <->
  has_keyword "pl" admitted \/ has_keyword "bs" admitted.
Proof.
  unfold found, has_keyword. rewrite existsb_exists. split.
  - intros [s [Hs H]]. apply orb_true_iff in H.
    destruct H as [H|H]; apply includes_spec in H; [left|right]; now exists s.
  - intros [[s [Hs H]]|[s [Hs H]]]; exists s; split; auto;
      apply includes_spec in H; rewrite H; auto using orb_true_r.
Qed.

Lemma missing_eq (admitted : list ExtractedSheet) :
  missing admitted = if found admitted then [] else requiredSheets.
Proof. unfold missing. simpl. now destruct (found admitted). Qed.

(** The check never reports one required name alone. *)
Lemma missing_all_or_none (workbook : WorkBook) (maxTokens : Z) :
  missingRequiredSheets (extractCoreSheets workbook maxTokens) = [] \/
  missingRequiredSheets (extractCoreSheets workbook maxTokens)
  = ["PL - RAW"; "BS - RAW"]%string.
Proof.
  unfold extractCoreSheets. cbn [missingRequiredSheets].
  rewrite missing_eq.
  destruct (found (fst (fold_left (attempt workbook maxTokens)
                          CORE_SHEETS ([], 0)))); [left | right]; reflexivity.
Qed.

(** C1, a defect of the code.  The loop over the required names never uses
    the name it stands at: for both names it asks whether some admitted
    name contains "pl" or "bs".  So the answer is the same for both names,
    and the check reports nothing or both names, never one of them.
    Against the per-name check of its comment and of the alias table
    ([required_missing]) it fails both ways:
    - with both statements under the aliases "Income Statement" and
      "Balance Sheet", both names resolve and both tabs are admitted, no
      required name is missing, and the code reports both;
    - with the income statement under its alias and no balance sheet, the
      missing name is "BS - RAW", and the code reports both;
    - with the tab "PL - RAW" alone, "BS - RAW" resolves to no tab and is
      missing, and the code reports nothing. *)
Theorem required_sheets_defect :
  (forall workbook maxTokens,
     missingRequiredSheets (extractCoreSheets workbook maxTokens) = [] \/
     missingRequiredSheets (extractCoreSheets workbook maxTokens)
     = ["PL - RAW"; "BS - RAW"]%string) /\
  (let r := extractCoreSheets Samples.aliased_workbook defaultMaxTokens in
   findSheetByName Samples.aliased_workbook "PL - RAW" = Some "Income Statement"%string /\
   findSheetByName Samples.aliased_workbook "BS - RAW" = Some "Balance Sheet"%string /\
   map name (sheets r) = ["Income Statement"; "Balance Sheet"]%string /\
   Notions.required_missing Samples.aliased_workbook (sheets r) = [] /\
   missingRequiredSheets r = ["PL - RAW"; "BS - RAW"]%string) /\
  (let r := extractCoreSheets Samples.income_only_workbook defaultMaxTokens in
   findSheetByName Samples.income_only_workbook "BS - RAW" = None /\
   map name (sheets r) = ["Income Statement"]%string /\
   Notions.required_missing Samples.income_only_workbook (sheets r) = ["BS - RAW"]%string /\
   missingRequiredSheets r = ["PL - RAW"; "BS - RAW"]%string) /\
  (let r := extractCoreSheets Cases.pl_only_workbook defaultMaxTokens in
   findSheetByName Cases.pl_only_workbook "BS - RAW" = None /\
   map name (sheets r) = ["PL - RAW"]%string /\
   Notions.required_missing Cases.pl_only_workbook (sheets r) = ["BS - RAW"]%string /\
   missingRequiredSheets r = []).
Proof.
  split; [exact missing_all_or_none|].
  split; [|split].
  - cbv zeta. split; [vm_compute; reflexivity|].
    split; [vm_compute; reflexivity|].
    split; [vm_compute; reflexivity|].
    split; vm_compute; reflexivity.
  - cbv zeta. split; [vm_compute; reflexivity|].
    split; [vm_compute; reflexivity|].
    split; vm_compute; reflexivity.
  - cbv zeta. split; [vm_compute; reflexivity|].
    split; [vm_compute; reflexivity|].
    split; vm_compute; reflexivity.
Qed.

(** Under the canonical names the per-name check and the code agree. *)
Example canonical_names_agree :
  Notions.required_missing Samples.canonical_workbook
    (sheets (extractCoreSheets Samples.canonical_workbook defaultMaxTokens)) = [].
Proof. vm_compute. reflexivity. Qed.

(** With both statements under their canonical names nothing is missing. *)
Example canonical_names_found :
  missingRequiredSheets
    (extractCoreSheets Samples.canonical_workbook defaultMaxTokens) = [].
Proof. vm_compute. reflexivity. Qed.

End ExcelProps.

(** ** The matcher *)

Module MarkerFacts.
Import Spec StringFacts Regex Sections.
Local Open Scope string_scope.

(** The matcher on small patterns: a greedy quantifier gives back what the
    rest of the pattern needs, the leftmost match wins, and empty matches
    are stepped over as in JavaScript. *)
Example greedy_gives_back :
  exec false (cat [Star dot; Str "c"; Group (Star digit)]) "abc1c23x"
  = Some ("abc1c23", Some "23").
Proof. vm_compute. reflexivity. Qed.

Example case_flag_and_group :
  exec true (cat [Str "ab"; Plus ws; Group (Plus digit); Alt (Str "z") Eos])
       "xxAB  1234z5"
  = Some ("AB  1234z", Some "1234").
Proof. vm_compute. reflexivity. Qed.

Example replace_empty_matches :
  replaceAll false (Star digit) "-" "a12b345c6" = "-a--b--c--".
Proof. vm_compute. reflexivity. Qed.

Example split_on_digits :
  split false (Star digit) "a12b" = ["a"; "b"] /\
  split false (Star digit) "" = [] /\
  split false (Plus digit) "" = [""].
Proof. repeat split. Qed.

Example split_at_markers :
  split false headingMarker
    ("intro" ++ nl ++ "##  One" ++ nl ++ "### sub" ++ nl ++ "##" ++ nl ++ "Two")
  = ["intro" ++ nl; "One" ++ nl ++ "### sub" ++ nl; "Two"].
Proof. vm_compute. reflexivity. Qed.

(** *** The heading marker *)

(** A greedy run of one class, followed by a continuation that accepts:
    all of the run is consumed. *)
Lemma star_class_unfold (i : bool) (p : ascii -> bool) (st : mstate)
    (k : mstate -> option mstate) :
  rmatch i (Star (Char p)) st k =
  match rest st with
  | String c s' =>
      if p c
      then match rmatch i (Star (Char p)) (step c s' st) k with
           | Some res => Some res
           | None => k st
           end
      else k st
  | EmptyString => k st
  end.
Proof.
  destruct st as [q l s cp]. destruct s as [|c s']; [reflexivity|].
  cbn [rmatch rest String.length pos step].
  destruct (p c); [|reflexivity].
  replace (q <? S q)%nat with true by (symmetry; apply Nat.ltb_lt; lia).
  reflexivity.
Qed.

Lemma star_space (q : nat) (l : option ascii) (s : string) :
  rmatch false (Star ws) (mkState q l s None) Some = Some (skip_space q l s).
Proof.
  revert q l. induction s as [|c s IH]; intros q l.
  - reflexivity.
  - unfold ws. rewrite star_class_unfold. cbn [rest skip_space].
    destruct (is_space c); [|reflexivity].
    unfold step. cbn [pos cap]. fold ws. now rewrite IH.
Qed.

(** Where the heading marker matches, and where the match ends. *)
Lemma match_marker (q : nat) (l : option ascii) (s : string) :
  match_at false headingMarker q l s =
  if line_start l && marker_at s
  then match s with
       | String _ (String _ (String w s'')) =>
           Some (skip_space (S (S (S q))) (Some w) s'')
       | _ => None
       end
  else None.
Proof.
  unfold match_at, headingMarker, Plus. cbn [cat fold_right Str].
  remember (Star ws) as run eqn:Erun.
  cbn [rmatch last rest]. unfold canon.
  destruct (line_start l); [|reflexivity]. cbn [andb].
  destruct s as [|c1 s]; [reflexivity|].
  rewrite (Ascii.eqb_sym "#" c1).
  destruct (Ascii.eqb c1 "#") eqn:E1;
    [|cbn [marker_at]; rewrite E1; now destruct s as [|? [|? ?]]].
  cbn [step rest pos cap].
  destruct s as [|c2 s]; [reflexivity|].
  rewrite (Ascii.eqb_sym "#" c2).
  destruct (Ascii.eqb c2 "#") eqn:E2;
    [|cbn [marker_at]; rewrite E1, E2; now destruct s].
  unfold ws at 1, step. cbn [rmatch rest pos cap last].
  destruct s as [|w s]; [reflexivity|].
  cbn [marker_at]. rewrite E1, E2. cbn [andb].
  destruct (is_space w); [|reflexivity].
  unfold step. cbn [pos cap]. subst run. apply star_space.
Qed.

Lemma skip_space_rest (q : nat) (l : option ascii) (s : string) :
  String.length (rest (skip_space q l s)) <= String.length s /\
  q <= pos (skip_space q l s).
Proof.
  revert q l. induction s as [|c s IH]; intros q l; cbn [skip_space].
  - cbn. lia.
  - destruct (is_space c); [|cbn; lia].
    destruct (IH (S q) (Some c)). cbn [String.length]. lia.
Qed.

End MarkerFacts.

(** ** The section parser *)

Module SectionProps.
Import Spec StringFacts Regex Sections MarkerFacts.
Local Open Scope string_scope.

(** *** Splitting at the headings *)

Lemma split_go_skip (bol : bool) (c : ascii) (s : string) :
  is_space c = true ->
  split_go bol true (String c s) = split_go (is_line_terminator c) true s.
Proof. intros H. cbn [split_go]. now rewrite H. Qed.

Lemma split_go_plain (bol skipping : bool) (c : ascii) (s : string) :
  skipping && is_space c = false ->
  bol && marker_at (String c s) = false ->
  split_go bol skipping (String c s)
  = (String c (fst (split_go (is_line_terminator c) false s)),
     snd (split_go (is_line_terminator c) false s)).
Proof.
  intros Hs Hm. cbn [split_go]. rewrite Hs.
  destruct (split_go (is_line_terminator c) false s) as [p ps] eqn:E.
  cbn [fst snd].
  destruct (bol && Ascii.eqb c "#") eqn:Hb; [|reflexivity].
  apply andb_true_iff in Hb. destruct Hb as [-> Hc]. simpl in Hm.
  destruct s as [|c2 [|w s'']]; try reflexivity.
  rewrite Hc in Hm. simpl in Hm. now rewrite Hm.
Qed.

Lemma split_go_marker (skipping : bool) (w : ascii) (s : string) :
  is_space w = true ->
  split_go true skipping (String "#" (String "#" (String w s)))
  = (EmptyString,
     fst (split_go (is_line_terminator w) true s)
     :: snd (split_go (is_line_terminator w) true s)).
Proof.
  intros H. cbn [split_go]. rewrite andb_false_r.
  change (true && Ascii.eqb "#" "#") with true. cbv iota.
  change (Ascii.eqb "#" "#" && is_space w) with (is_space w). rewrite H.
  now destruct (split_go (is_line_terminator w) true s).
Qed.

Lemma split_go_visible (bol : bool) (c : ascii) (s : string) :
  is_space c = false ->
  split_go bol true (String c s) = split_go bol false (String c s).
Proof. intros H. cbn [split_go]. now rewrite H, andb_false_r. Qed.

Lemma line_terminator_not_hash (c : ascii) :
  is_line_terminator c = true -> Ascii.eqb c "#" = false.
Proof.
  destruct c as [[] [] [] [] [] [] [] []]; vm_compute; intros H;
    first [reflexivity | discriminate H].
Qed.

(** A marker that lies inside [a] is a marker of [a ++ rest], and, when the
    text after [a] starts a line, the other way round. *)
Lemma marker_at_app (c : ascii) (a rest : string) :
  ends_line (is_line_terminator c) a = true ->
  marker_at (String c (a ++ rest)) = marker_at (String c a).
Proof.
  intros H. destruct a as [|c2 [|w a]]; simpl in *.
  - rewrite (line_terminator_not_hash c H). now destruct rest as [|? [|? ?]].
  - rewrite (line_terminator_not_hash c2 H), andb_false_r.
    now destruct rest.
  - reflexivity.
Qed.

(** *** The split of the source and the heading scanner *)

Lemma skip_split_go (s : string) (q : nat) (w : ascii) :
  split_go (is_line_terminator w) true s
  = split_go (line_start (last (skip_space q (Some w) s))) false
             (rest (skip_space q (Some w) s)).
Proof.
  revert q w. induction s as [|c s IH]; intros q w; [reflexivity|].
  cbn [skip_space]. destruct (is_space c) eqn:Hc.
  - rewrite split_go_skip by exact Hc. apply IH.
  - now rewrite split_go_visible by exact Hc.
Qed.

Lemma split_loop_scan (fuel : nat) (s cur : string) (q : nat) (l : option ascii) :
  2 * String.length s < fuel ->
  split_loop false fuel headingMarker cur q l s
  = (cur ++ fst (split_go (line_start l) false s))
    :: snd (split_go (line_start l) false s).
Proof.
  revert s cur q l. induction fuel as [|fuel IH]; intros s cur q l Hf; [lia|].
  destruct s as [|c s]; [cbn; now rewrite append_nil_r|].
  cbn [split_loop]. rewrite match_marker.
  destruct (line_start l && marker_at (String c s)) eqn:M.
  - apply andb_true_iff in M. destruct M as [Hl M].
    destruct s as [|c2 [|w s]]; try discriminate M.
    cbn [marker_at] in M. apply andb_true_iff in M. destruct M as [M Hw].
    apply andb_true_iff in M. destruct M as [E1 E2].
    apply Ascii.eqb_eq in E1, E2. subst c c2.
    destruct (skip_space_rest (S (S (S q))) (Some w) s) as [Hlen Hpos].
    replace (pos (skip_space (S (S (S q))) (Some w) s) =? q)%nat with false
      by (symmetry; apply Nat.eqb_neq; lia).
    cbn [andb]. rewrite IH by (cbn [String.length] in Hf; lia).
    rewrite Hl, split_go_marker by exact Hw. cbn [fst snd append].
    rewrite <- skip_split_go. now rewrite append_nil_r.
  - rewrite IH by (cbn [String.length] in Hf; lia).
    rewrite split_go_plain by (auto). cbn [fst snd line_start].
    now rewrite append_assoc.
Qed.

(** The split at [/^##\s+/m] is the scan for heading markers. *)
Lemma split_headings_scan (markdown : string) :
  split_headings markdown = scan_headings markdown.
Proof.
  unfold split_headings, scan_headings, split.
  destruct markdown as [|c s]; [reflexivity|].
  rewrite split_loop_scan by lia. cbn [line_start append].
  now destruct (split_go true false (String c s)).
Qed.

(** Free text is carried to the current part as it is. *)
Lemma split_go_free (a rest : string) (bol : bool) :
  heading_free bol a = true -> ends_line bol a = true ->
  split_go bol false (a ++ rest)
  = (a ++ fst (split_go true false rest), snd (split_go true false rest)).
Proof.
  revert bol. induction a as [|c a IH]; intros bol Hf He.
  - simpl in He. subst bol. simpl. now destruct (split_go true false rest).
  - cbn [heading_free] in Hf. apply andb_true_iff in Hf. destruct Hf as [Hm Hf].
    cbn [ends_line] in He.
    change (String c a ++ rest) with (String c (a ++ rest)).
    rewrite split_go_plain.
    + rewrite (IH _ Hf He). reflexivity.
    + reflexivity.
    + rewrite marker_at_app by exact He. now apply negb_true_iff in Hm.
Qed.

Lemma split_go_free_end (a : string) (bol : bool) :
  heading_free bol a = true -> split_go bol false a = (a, []).
Proof.
  revert bol. induction a as [|c a IH]; intros bol Hf; [reflexivity|].
  cbn [heading_free] in Hf. apply andb_true_iff in Hf. destruct Hf as [Hm Hf].
  rewrite split_go_plain.
  - now rewrite (IH _ Hf).
  - reflexivity.
  - now apply negb_true_iff in Hm.
Qed.

Lemma ends_line_app (a b : string) (bol : bool) :
  ends_line bol (a ++ b) = ends_line (ends_line bol a) b.
Proof. revert bol. induction a as [|c a IH]; intros bol; simpl; auto. Qed.

Lemma heading_free_app (a b : string) (bol : bool) :
  heading_free bol a = true -> ends_line bol a = true ->
  heading_free true b = true -> heading_free bol (a ++ b) = true.
Proof.
  revert bol. induction a as [|c a IH]; intros bol Hf He Hb.
  - simpl in He. now subst bol.
  - cbn [heading_free] in Hf. apply andb_true_iff in Hf. destruct Hf as [Hm Hf].
    cbn [ends_line] in He.
    change (String c a ++ b) with (String c (a ++ b)). cbn [heading_free].
    rewrite marker_at_app by exact He. rewrite Hm. simpl.
    now apply IH.
Qed.

Lemma ends_line_nl (t : string) (bol : bool) : ends_line bol (t ++ nl) = true.
Proof. now rewrite ends_line_app. Qed.

(** The text under a heading line: the title, the line feed and the free
    text that follows, up to the next marker. *)
Lemma heading_chunk_free (t a : string) :
  heading_title t -> heading_free true a = true ->
  heading_free false (t ++ nl ++ a) = true.
Proof.
  intros [_ [_ Ht]] Ha. rewrite <- append_assoc.
  apply heading_free_app; auto using ends_line_nl.
Qed.

Lemma split_heading (t x : string) :
  heading_title t ->
  split_go true false ("## " ++ t ++ x) =
  (EmptyString,
   fst (split_go false false (t ++ x)) :: snd (split_go false false (t ++ x))).
Proof.
  intros [[c [t' [-> Hc]]] _].
  change ("## " ++ String c t' ++ x)
    with (String "#" (String "#" (String " " (String c (t' ++ x))))).
  rewrite split_go_marker by reflexivity.
  change (is_line_terminator " ") with false.
  now rewrite split_go_visible by exact Hc.
Qed.

Lemma split_blocks (blocks : list block) :
  blocks_ok blocks ->
  split_go true false (render_blocks blocks) = (EmptyString, map chunk blocks).
Proof.
  induction blocks as [|[t a] rest IH]; [reflexivity|].
  intros [Ht H]. cbn [render_blocks map]. unfold render_block.
  cbn [fst snd] in *.
  rewrite !append_assoc. rewrite split_heading by exact Ht.
  destruct rest as [|b2 rest'].
  - cbn [render_blocks]. rewrite append_nil_r.
    rewrite split_go_free_end by (now apply heading_chunk_free).
    reflexivity.
  - destruct H as [[Ha Hl] Hrest].
    rewrite <- !append_assoc. rewrite split_go_free.
    + rewrite (IH Hrest). cbn [fst snd]. rewrite append_nil_r.
      unfold chunk. cbn [fst snd]. now rewrite !append_assoc.
    + rewrite append_assoc. now apply heading_chunk_free.
    + rewrite ends_line_app, ends_line_nl. exact Hl.
Qed.

(** The parts of a document are its preamble and its blocks. *)
Lemma split_document (preamble : string) (blocks : list block) :
  free_text preamble -> blocks_ok blocks ->
  split_headings (document preamble blocks) = preamble :: map chunk blocks.
Proof.
  intros [Hf He] Hb. rewrite split_headings_scan. unfold scan_headings, document.
  rewrite split_go_free by assumption. rewrite (split_blocks _ Hb).
  cbn [fst snd]. now rewrite append_nil_r.
Qed.

(** *** Title and content of a part *)

Lemma indexOf_eq (n s : string) :
  indexOf n s =
  if String.prefix n s then Some 0
  else match s with
       | EmptyString => None
       | String _ s' => option_map S (indexOf n s')
       end.
Proof. destruct s; reflexivity. Qed.

Lemma prefix_nl (c : ascii) (s s' : string) :
  String.prefix nl (String c s) = String.prefix nl (String c s').
Proof.
  unfold nl. cbn [String.prefix].
  destruct (ascii_dec (ascii_of_nat 10) c); [now rewrite !prefix_nil | reflexivity].
Qed.

Lemma indexOf_nl (t x : string) :
  includes nl t = false ->
  indexOf nl (t ++ nl ++ x) = Some (String.length t).
Proof.
  induction t as [|c t IH]; intros H.
  - simpl. now rewrite prefix_nil.
  - cbn [includes] in H. apply orb_false_iff in H. destruct H as [Hp Hi].
    change (String c t ++ nl ++ x) with (String c (t ++ nl ++ x)).
    rewrite indexOf_eq, (prefix_nl c _ t), Hp, (IH Hi). reflexivity.
Qed.

Lemma take_app (a b : string) : take (String.length a) (a ++ b) = a.
Proof. induction a as [|c a IH]; simpl; [now destruct b | now rewrite IH]. Qed.

Lemma drop_chunk (t x : string) :
  drop (S (String.length t)) (t ++ nl ++ x) = x.
Proof. induction t as [|c t IH]; simpl; [now destruct x | exact IH]. Qed.

Lemma part_of_chunk (t x : string) :
  heading_title t ->
  part_title (t ++ nl ++ x) = trim t /\ part_content (t ++ nl ++ x) = trim x.
Proof.
  intros [[c [t' [E Hc]]] [Hn _]]. unfold part_title, part_content.
  rewrite (indexOf_nl t x Hn).
  assert (L : String.length t = S (String.length t')) by now rewrite E.
  rewrite L, <- L. split.
  - now rewrite take_app.
  - now rewrite drop_chunk.
Qed.

(** The body of a part only shows in the content of its section. *)
Lemma first_match_body (defs : list SectionDef) (title body : string) :
  first_match defs title body =
  match first_match defs title "" with
  | None => None
  | Some s => Some (mkSection (key s) (name s) (order s)
                      ("## " ++ title ++ nl ++ nl ++ body))
  end.
Proof.
  induction defs as [|d defs IH]; simpl; [reflexivity|].
  now destruct (test true (def_pattern d) title).
Qed.

Lemma section_of_chunk (b : block) :
  heading_title (fst b) ->
  section_of_part (chunk b) =
  match first_match sectionDefinitions (trim (fst b)) "" with
  | None => None
  | Some s => Some (mkSection (key s) (name s) (order s) (stored_content b))
  end.
Proof.
  intros H. unfold section_of_part, chunk.
  destruct (part_of_chunk (fst b) (snd b) H) as [-> ->].
  apply first_match_body.
Qed.

Lemma blocks_ok_titles (blocks : list block) :
  blocks_ok blocks -> Forall (fun b => heading_title (fst b)) blocks.
Proof.
  induction blocks as [|b rest IH]; [constructor|].
  intros [Ht H]. constructor; [exact Ht|].
  destruct rest; [constructor | apply IH, H].
Qed.

(** *** The stable sort *)

Lemma insert_perm (x : Section) (l : list Section) :
  Permutation (insert x l) (x :: l).
Proof.
  induction l as [|y l IH]; simpl; [reflexivity|].
  destruct (order x <=? order y)%nat; [reflexivity|].
  rewrite IH. apply perm_swap.
Qed.

Lemma sort_perm (l : list Section) : Permutation (sort l) l.
Proof.
  induction l as [|x l IH]; simpl; [reflexivity|].
  rewrite insert_perm. now constructor.
Qed.

Lemma insert_sorted (x : Section) (l : list Section) :
  StronglySorted le (map order l) ->
  StronglySorted le (map order (insert x l)).
Proof.
  induction l as [|y l IH]; intros H; simpl.
  - repeat constructor.
  - inversion H as [|? ? Hs Hf]; subst.
    destruct (order x <=? order y)%nat eqn:E; simpl.
    + apply Nat.leb_le in E. constructor; [exact H|].
      constructor; [exact E|].
      eapply Forall_impl; [|exact Hf]. intros z Hz. simpl in Hz. lia.
    + apply Nat.leb_gt in E. constructor; [now apply IH|].
      assert (P : Permutation (map order (insert x l)) (order x :: map order l))
        by (change (order x :: map order l) with (map order (x :: l));
            apply Permutation_map, insert_perm).
      eapply Permutation_Forall; [symmetry; exact P|].
      constructor; [lia | exact Hf].
Qed.

Lemma sort_sorted (l : list Section) : StronglySorted le (map order (sort l)).
Proof.
  induction l as [|x l IH]; simpl; [constructor | now apply insert_sorted].
Qed.

(** A sorted list is determined by its elements. *)
Lemma sorted_perm_eq (l1 l2 : list nat) :
  StronglySorted le l1 -> StronglySorted le l2 -> Permutation l1 l2 -> l1 = l2.
Proof.
  revert l2. induction l1 as [|a l1 IH]; intros l2 H1 H2 P.
  - apply Permutation_nil in P. now subst.
  - destruct l2 as [|b l2];
      [apply Permutation_sym, Permutation_nil in P; discriminate|].
    inversion H1 as [|? ? S1 F1]; inversion H2 as [|? ? S2 F2]; subst.
    assert (E : a = b).
    { assert (In a (b :: l2)) as [Ha|Ha]
        by (eapply Permutation_in; [exact P | now left]); [now subst|].
      assert (In b (a :: l1)) as [Hb|Hb]
        by (eapply Permutation_in; [symmetry; exact P | now left]); [now subst|].
      rewrite Forall_forall in F1, F2.
      specialize (F1 _ Hb). specialize (F2 _ Ha). lia. }
    subst b. f_equal. apply IH; auto.
    eapply Permutation_cons_inv. exact P.
Qed.






(** With at least one matched heading the parser returns the sorted
    sections, and nothing else. *)
Lemma parse_sorted (markdown : string) :
  collect (heading_parts markdown) <> [] ->
  parseReportSections markdown = sort (collect (heading_parts markdown)).
Proof.
  intros H. unfold parseReportSections, heading_parts in *.
  destruct (sort (collect (tl (split_headings markdown)))) eqn:E; [|reflexivity].
  exfalso. apply H.
  apply Permutation_nil. rewrite <- E. apply sort_perm.
Qed.

(** *** The sections of a document *)

Lemma collect_In (parts : list string) (part : string) (s : Section) :
  In part parts -> section_of_part part = Some s -> In s (collect parts).
Proof.
  induction parts as [|p parts IH]; intros H Hs; [contradiction|].
  simpl. destruct H as [->|H].
  - rewrite Hs. now left.
  - destruct (section_of_part p); [right|]; now apply IH.
Qed.

Lemma collect_none (parts : list string) :
  Forall (fun part => section_of_part part = None) parts -> collect parts = [].
Proof.
  induction 1 as [|p parts Hp _ IH]; [reflexivity|].
  simpl. now rewrite Hp.
Qed.


Lemma first_match_content (defs : list SectionDef) (title body : string) (s : Section) :
  first_match defs title body = Some s ->
  content s = "## " ++ title ++ nl ++ nl ++ body.
Proof.
  induction defs as [|d defs IH]; simpl; [discriminate|].
  destruct (test true (def_pattern d) title); [|exact IH].
  intros H. inversion H. reflexivity.
Qed.

Lemma first_match_def (defs : list SectionDef) (title body : string) :
  first_match defs title body =
  match first_def defs title with
  | None => None
  | Some d =>
      Some (mkSection (def_key d)
              (string_of_order (def_order d) ++ ". "
               ++ replaceFirst false numbering "" title)
              (def_order d)
              ("## " ++ title ++ nl ++ nl ++ body))
  end.
Proof.
  induction defs as [|d defs IH]; simpl; [reflexivity|].
  now destruct (test true (def_pattern d) title).
Qed.

Lemma collect_length (parts : list string) :
  List.length (collect parts) = List.length (filter matches parts).
Proof.
  induction parts as [|p parts IH]; [reflexivity|].
  simpl. unfold matches, matched_def, section_of_part.
  rewrite first_match_def.
  destruct (first_def sectionDefinitions (part_title p)); simpl; now rewrite IH.
Qed.

Lemma rank_section (b : block) :
  heading_title (fst b) -> heading_rank (fst b) <> 0 ->
  exists s, section_of_part (chunk b) = Some s /\
            order s = heading_rank (fst b) /\
            content s = stored_content b.
Proof.
  intros Ht Hr. rewrite (section_of_chunk b Ht).
  unfold heading_rank, heading_order in *.
  destruct (first_match sectionDefinitions (trim (fst b)) "") as [s0|];
    [|now elim Hr].
  eexists. split; [reflexivity|]. split; reflexivity.
Qed.

Lemma collect_chunks (blocks : list block) :
  Forall (fun b => heading_title (fst b)) blocks ->
  Forall (fun b => heading_rank (fst b) <> 0) blocks ->
  map order (collect (map chunk blocks))
  = map (fun b => heading_rank (fst b)) blocks /\
  forall b, In b blocks ->
    exists s, In s (collect (map chunk blocks)) /\
              order s = heading_rank (fst b) /\
              content s = stored_content b.
Proof.
  induction 1 as [|b blocks Ht _ IH]; intros Hr.
  - split; [reflexivity | intros b []].
  - inversion Hr as [|? ? Hb Hrest]; subst.
    destruct (IH Hrest) as [IHo IHc]. clear IH.
    destruct (rank_section b Ht Hb) as [s [Hs [Hso Hsc]]].
    cbn [map collect]. rewrite Hs. cbn [map]. split.
    + now rewrite IHo, Hso.
    + intros b' [<-|H'].
      * exists s. split; [now left | now split].
      * destruct (IHc b' H') as [s' [Hs' Hrest']]. exists s'.
        split; [now right | exact Hrest'].
Qed.

(** C3 (as the code has it).  Take a document made of some free text and
    nine blocks whose heading titles match, in some order, the nine canonical
    definitions.  The parser returns nine sections in canonical order 1 to 9,
    and the content of the section of a block is a heading line rebuilt from
    the trimmed title, an empty line, and the trimmed text between the
    heading line and the next one. *)
Theorem scrambled_sections (preamble : string) (blocks : list block) :
  free_text preamble -> blocks_ok blocks ->
  Permutation (map (fun b => heading_rank (fst b)) blocks) (seq 1 9) ->
  map order (parseReportSections (document preamble blocks)) = seq 1 9 /\
  forall b, In b blocks ->
    exists s, In s (parseReportSections (document preamble blocks)) /\
              order s = heading_rank (fst b) /\
              content s = stored_content b.
Proof.
  intros Hp Hb P.
  assert (Hr : Forall (fun b => heading_rank (fst b) <> 0) blocks).
  { apply Forall_forall. intros b Hin E.
    assert (H0 : In 0 (seq 1 9)).
    { eapply Permutation_in; [exact P|]. rewrite <- E.
      now apply (in_map (fun b => heading_rank (fst b))). }
    apply in_seq in H0. lia. }
  destruct (collect_chunks blocks (blocks_ok_titles _ Hb) Hr) as [Ho Hc].
  assert (Hparts : heading_parts (document preamble blocks) = map chunk blocks).
  { unfold heading_parts. now rewrite split_document. }
  assert (Hne : collect (heading_parts (document preamble blocks)) <> []).
  { rewrite Hparts. intros E. rewrite E in Ho. simpl in Ho.
    rewrite <- Ho in P. apply Permutation_nil in P. discriminate. }
  rewrite (parse_sorted _ Hne), Hparts. split.
  - apply sorted_perm_eq.
    + apply sort_sorted.
    + repeat (constructor; try lia).
    + rewrite <- P, <- Ho. apply Permutation_map, sort_perm.
  - intros b Hin. destruct (Hc b Hin) as [s [Hs Hrest]].
    exists s. split; [|exact Hrest].
    eapply Permutation_in; [symmetry; apply sort_perm | exact Hs].
Qed.

Ltac heading_title_tac :=
  split; [eexists _, _; split; reflexivity | split; vm_compute; reflexivity].

Ltac blocks_ok_tac :=
  lazymatch goal with
  | |- heading_title _ /\ _ => split; [heading_title_tac | blocks_ok_tac]
  | |- free_text _ /\ _ => split; [split; vm_compute; reflexivity | blocks_ok_tac]
  | |- _ = true => vm_compute; reflexivity
  | |- True => exact I
  end.

Lemma scrambled_blocks_ok : blocks_ok Samples.scrambled_blocks.
Proof.
  unfold Samples.scrambled_blocks. cbn [blocks_ok fst snd]. blocks_ok_tac.
Qed.

Lemma scrambled_ranks :
  map (fun b => heading_rank (fst b)) Samples.scrambled_blocks
  = [7; 3; 9; 1; 5; 2; 8; 6; 4].
Proof. vm_compute. reflexivity. Qed.

Lemma scrambled_perm :
  Permutation (map (fun b => heading_rank (fst b)) Samples.scrambled_blocks)
              (seq 1 9).
Proof.
  rewrite scrambled_ranks. cbn [seq].
  apply NoDup_Permutation.
  - repeat (constructor; [cbn [In]; intuition discriminate|]). constructor.
  - repeat (constructor; [cbn [In]; intuition discriminate|]). constructor.
  - intros x. cbn [In]. tauto.
Qed.

(** C3, the theorem at the scrambled sample document. *)
Lemma scrambled_sections_witness :
  free_text "" /\ blocks_ok Samples.scrambled_blocks /\
  Permutation (map (fun b => heading_rank (fst b)) Samples.scrambled_blocks)
              (seq 1 9) /\
  (map order (parseReportSections (document "" Samples.scrambled_blocks))
   = seq 1 9 /\
   forall b, In b Samples.scrambled_blocks ->
     exists s, In s (parseReportSections (document "" Samples.scrambled_blocks)) /\
               order s = heading_rank (fst b) /\
               content s = stored_content b).
Proof.
  assert (H1 : free_text "") by (split; reflexivity).
  split; [exact H1|]. split; [exact scrambled_blocks_ok|].
  split; [exact scrambled_perm|].
  exact (scrambled_sections "" Samples.scrambled_blocks H1
           scrambled_blocks_ok scrambled_perm).
Defined.

(** C3, the claim as stated fails: the content of every section starts with
    its own heading line, rebuilt by the parser; it is not only the text
    between the heading lines ("snapshot" and a line feed for the first
    section). *)
Lemma scrambled_contents :
  map content (parseReportSections Samples.scrambled_document)
  = [ "## 1. Executive Snapshot" ++ nl ++ nl ++ "snapshot";
      "## 2. Revenue Performance" ++ nl ++ nl ++ "revenue";
      "## 3. COGS & Gross Margin" ++ nl ++ nl ++ "margin";
      "## 4. Operating Expenses" ++ nl ++ nl ++ "opex";
      "## 5. Profitability & Bridges" ++ nl ++ nl ++ "bridge";
      "## 6. Variance & Performance Management" ++ nl ++ nl ++ "variance";
      "## 7. Cash Flow & Liquidity" ++ nl ++ nl ++ "cash";
      "## 8. Balance Sheet Health" ++ nl ++ nl ++ "balance";
      "## 9. Risk & Controls" ++ nl ++ nl ++ "risk" ].
Proof. vm_compute. reflexivity. Qed.

(** *** Fallback *)

Lemma space_not_hash (c : ascii) : is_space c = true -> Ascii.eqb c "#" = false.
Proof.
  destruct c as [[] [] [] [] [] [] [] []]; vm_compute; intros H;
    first [reflexivity | discriminate H].
Qed.

Lemma trimEnd_visible (c : ascii) (s : string) :
  is_space c = false -> trimEnd (String c s) <> "".
Proof.
  intros H. simpl. destruct (trimEnd s); [rewrite H|]; discriminate.
Qed.

Lemma blank_heading_free (s : string) (bol : bool) :
  trimStart s = "" -> heading_free bol s = true.
Proof.
  revert bol. induction s as [|c s IH]; intros bol H; [reflexivity|].
  simpl in H. destruct (is_space c) eqn:Hc; [|discriminate].
  cbn [heading_free]. rewrite (IH _ H), andb_true_r.
  simpl. rewrite (space_not_hash c Hc). simpl.
  destruct s as [|? [|? ?]]; now rewrite ?andb_false_r.
Qed.

Lemma blank_parts (markdown : string) :
  trim markdown = "" -> heading_parts markdown = [].
Proof.
  intros H. unfold heading_parts.
  assert (Hs : trimStart markdown = "").
  { unfold trim in H. destruct (trimStart markdown) as [|c s] eqn:E; [reflexivity|].
    exfalso. revert H. apply trimEnd_visible.
    destruct markdown as [|c0 m]; [discriminate|].
    clear -E. revert c0 E. induction m as [|c1 m IH]; intros c0 E; simpl in E.
    - destruct (is_space c0) eqn:H0; [discriminate | now inversion E; subst].
    - destruct (is_space c0) eqn:H0; [|now inversion E; subst].
      now apply (IH c1). }
  rewrite split_headings_scan. unfold scan_headings.
  now rewrite split_go_free_end by (now apply blank_heading_free).
Qed.

Lemma fallback_unmatched (markdown : string) :
  trim markdown <> "" -> no_canonical_heading markdown ->
  parseReportSections markdown
  = [mkSection "full_report" "Financial Review" 1 markdown].
Proof.
  intros Hne Hno. unfold parseReportSections.
  unfold no_canonical_heading, heading_parts in Hno.
  rewrite (collect_none _ Hno). simpl.
  destruct (String.eqb_spec (trim markdown) ""); [contradiction | reflexivity].
Qed.

Lemma blank_document (markdown : string) :
  trim markdown = "" -> parseReportSections markdown = [].
Proof.
  intros Hb. unfold parseReportSections.
  pose proof (blank_parts markdown Hb) as Hp. unfold heading_parts in Hp.
  rewrite Hp, Hb. reflexivity.
Qed.

(** A document with no heading marker at all falls back to one section. *)
Lemma fallback_heading_free (markdown : string) :
  heading_free true markdown = true -> trim markdown <> "" ->
  parseReportSections markdown
  = [mkSection "full_report" "Financial Review" 1 markdown].
Proof.
  intros Hf Hne. apply fallback_unmatched; [exact Hne|].
  unfold no_canonical_heading, heading_parts.
  rewrite split_headings_scan. unfold scan_headings.
  rewrite split_go_free_end by exact Hf. constructor.
Qed.

(** The parts of a laid-out document are its preamble and its blocks. *)
Lemma split_well_formed (preamble : string) (blocks : list block) :
  Notions.well_formed preamble blocks ->
  split_headings (document preamble blocks) = preamble :: map chunk blocks.
Proof.
  intros [Hf [He Hb]]. destruct blocks as [|b rest].
  - unfold document. cbn [render_blocks map]. rewrite append_nil_r.
    rewrite split_headings_scan. unfold scan_headings.
    now rewrite split_go_free_end by exact Hf.
  - apply split_document; [|exact Hb].
    split; [exact Hf | apply He; discriminate].
Qed.

(** Every text without a heading marker is a laid-out document, with no
    block. *)
Lemma heading_free_well_formed (text : string) :
  heading_free true text = true ->
  Notions.well_formed text [] /\ document text [] = text.
Proof.
  intros H. split.
  - split; [exact H|]. split; [intros F; now elim F | exact I].
  - unfold document. cbn [render_blocks]. apply append_nil_r.
Qed.

(** A block gives what is expected of it, and nothing else. *)
Lemma shown_chunk (b : block) :
  heading_title (fst b) ->
  match section_of_part (chunk b) with
  | Some s => [Notions.shown s]
  | None => []
  end = Notions.expected b.
Proof.
  intros Ht. rewrite (section_of_chunk b Ht), first_match_def.
  unfold Notions.expected.
  destruct (first_def sectionDefinitions (trim (fst b))); reflexivity.
Qed.

Lemma collect_expected (blocks : list block) :
  Forall (fun b => heading_title (fst b)) blocks ->
  map Notions.shown (collect (map chunk blocks)) = Notions.expected_sections blocks.
Proof.
  induction 1 as [|b blocks Ht _ IH]; [reflexivity|].
  unfold Notions.expected_sections. cbn [map collect flat_map].
  fold (Notions.expected_sections blocks).
  rewrite <- (shown_chunk b Ht), <- IH.
  destruct (section_of_part (chunk b)); reflexivity.
Qed.

Lemma parts_expected (preamble : string) (blocks : list block) :
  Notions.well_formed preamble blocks ->
  map Notions.shown (collect (heading_parts (document preamble blocks)))
  = Notions.expected_sections blocks.
Proof.
  intros W. unfold heading_parts. rewrite (split_well_formed _ _ W).
  cbn [tl]. apply collect_expected, blocks_ok_titles, W.
Qed.

(** C4 (as the code has it).  Take a document laid out as a preamble (text
    with no "## " heading) and blocks (a "## " heading line and the text
    under it).  A blank document gives no section.  A document that is not
    blank and in which no heading title matches a canonical pattern gives
    exactly one section, keyed [full_report], of sort order 1, holding the
    whole document.  When some title matches, the sections returned are, up
    to their order, one for each block with a matching title, holding its
    rebuilt heading line and its trimmed text, and they are sorted: the
    preamble and the blocks under other headings are in no section. *)
Theorem fallback_section (preamble : string) (blocks : list block) :
  Notions.well_formed preamble blocks ->
  let markdown := document preamble blocks in
  (trim markdown = "" -> parseReportSections markdown = []) /\
  (trim markdown <> "" -> Notions.expected_sections blocks = [] ->
   parseReportSections markdown
   = [mkSection "full_report" "Financial Review" 1 markdown]) /\
  (Notions.expected_sections blocks <> [] ->
   Permutation (map Notions.shown (parseReportSections markdown))
               (Notions.expected_sections blocks) /\
   StronglySorted le (map order (parseReportSections markdown))).
Proof.
  intros W markdown.
  pose proof (parts_expected preamble blocks W) as Hc. fold markdown in Hc.
  split; [apply blank_document|]. split.
  - intros Hne He. rewrite He in Hc. apply map_eq_nil in Hc.
    unfold parseReportSections. unfold heading_parts in Hc. rewrite Hc.
    cbn [sort].
    destruct (String.eqb_spec (trim markdown) ""); [contradiction | reflexivity].
  - intros Hne.
    assert (Hn : collect (heading_parts markdown) <> []).
    { intros E. rewrite E in Hc. apply Hne. now rewrite <- Hc. }
    rewrite (parse_sorted _ Hn). split.
    + rewrite <- Hc. apply Permutation_map, sort_perm.
    + apply sort_sorted.
Qed.

Lemma appendix_well_formed :
  Notions.well_formed Cases.board_preamble Cases.appendix_blocks.
Proof.
  split; [vm_compute; reflexivity|].
  split; [intros _; vm_compute; reflexivity|].
  unfold Cases.appendix_blocks. cbn [blocks_ok fst snd]. blocks_ok_tac.
Qed.

(** C4, the theorem at the document with a preamble and an appendix. *)
Lemma fallback_section_witness :
  Notions.well_formed Cases.board_preamble Cases.appendix_blocks /\
  let markdown := document Cases.board_preamble Cases.appendix_blocks in
  (trim markdown = "" -> parseReportSections markdown = []) /\
  (trim markdown <> "" -> Notions.expected_sections Cases.appendix_blocks = [] ->
   parseReportSections markdown
   = [mkSection "full_report" "Financial Review" 1 markdown]) /\
  (Notions.expected_sections Cases.appendix_blocks <> [] ->
   Permutation (map Notions.shown (parseReportSections markdown))
               (Notions.expected_sections Cases.appendix_blocks) /\
   StronglySorted le (map order (parseReportSections markdown))).
Proof.
  split; [exact appendix_well_formed|].
  exact (fallback_section Cases.board_preamble Cases.appendix_blocks
           appendix_well_formed).
Defined.

(** The appendix document, as blocks and as text, and what is expected of
    it: the section of the canonical heading alone. *)
Example appendix_expected :
  document Cases.board_preamble Cases.appendix_blocks = Samples.appendix_document /\
  Notions.expected_sections Cases.appendix_blocks
  = [ ("executive_snapshot", 1,
       "## 1. Executive Snapshot" ++ nl ++ nl ++ "Revenue grew.") ].
Proof. split; vm_compute; reflexivity. Qed.

(** C4, the claim as stated fails.  A document of one blank is not empty
    and gives no section at all; and in a document with one canonical
    heading the parser returns that section only: the preamble "Prepared for
    the board." and the text under "## Appendix" are in no section. *)
Lemma content_dropped :
  parseReportSections " " = [] /\
  parseReportSections Samples.appendix_document
  = [mkSection "executive_snapshot" "1. Executive Snapshot" 1
       ("## 1. Executive Snapshot" ++ nl ++ nl ++ "Revenue grew.")].
Proof. split; vm_compute; reflexivity. Qed.

Example fallback_sample :
  parseReportSections "Quarterly summary, no headings."
  = [mkSection "full_report" "Financial Review" 1
       "Quarterly summary, no headings."].
Proof. vm_compute. reflexivity. Qed.

(** *** Repeated headings *)










(** The repeated document, as blocks and as text. *)
Example repeated_blocks_document :
  document "" Cases.repeated_blocks = Samples.repeated_document.
Proof. vm_compute. reflexivity. Qed.

(** The two sections of the repeated heading, as returned. *)
Example repeated_document_sections :
  map (fun s => (key s, order s, content s))
      (parseReportSections Samples.repeated_document)
  = [ ("executive_snapshot", 1, "## Executive Snapshot" ++ nl ++ nl ++ "first");
      ("executive_snapshot", 1,
       "## Executive Snapshot (continued)" ++ nl ++ nl ++ "second");
      ("revenue_performance", 2,
       "## 2. Revenue Performance" ++ nl ++ nl ++ "revenue") ].
Proof. vm_compute. reflexivity. Qed.

End SectionProps.

(** ** The special-block extractor *)

Module BlockProps.
Import SpecialBlocks.
Local Open Scope string_scope.

(** Under plain headings the three takeaways and the two questions are
    found, and neither block is left in the narrative. *)
Example plain_blocks_extracted :
  parseSpecialSections Samples.plain_blocks_section
  = mkSpecial "Revenue grew."
      ["Revenue up 12%"; "Margin stable"; "Cash improved"]
      ["Why did churn rise?"; "Is hiring on plan?"]
      [].
Proof. vm_compute. reflexivity. Qed.

(** Several takeaways blocks: their items in document order. *)
Example two_blocks_extracted :
  parseSpecialSections Samples.two_blocks_section
  = mkSpecial "Costs fell." ["one"; "two"; "three"] [] [].
Proof. vm_compute. reflexivity. Qed.

(** C5, where the code departs from the claim.  The items are looked for in
    the whole matched text, heading included.  A bold heading, whose
    asterisks are bullet characters, is taken as one more item: four
    takeaways and three questions come out of three and two bullets.  So is
    the rest of a heading qualifier after a dash in it. *)
Theorem heading_taken_as_item :
  parseSpecialSections Samples.bold_blocks_section
  = mkSpecial "Revenue grew."
      ["*Key Takeaways**"; "Revenue up 12%"; "Margin stable"; "Cash improved"]
      ["Questions for Management**"; "Why did churn rise?"; "Is hiring on plan?"]
      [] /\
  keyTakeaways (parseSpecialSections Samples.qualified_blocks_section)
  = ["to-date)"; "Revenue up 12%"; "Margin stable"; "Cash improved"].
Proof. split; vm_compute; reflexivity. Qed.

End BlockProps.

(** ** Sheet lookup, preview, validation and payload *)

Module PayloadProps.
Import Spec StringFacts Excel Payload Notions.
Local Open Scope string_scope.

(** *** Lookup *)

Lemma find_ci_spec (names : list string) (wanted n : string) :
  find_ci names wanted = Some n ->
  In n names /\ toLowerCase n = toLowerCase wanted.
Proof.
  unfold find_ci. intros H. apply find_some in H. destruct H as [Hin He].
  split; [exact Hin | now apply eqb_true].
Qed.

Lemma find_ci_none (names : list string) (wanted : string) :
  find_ci names wanted = None <->
  forall n, In n names -> toLowerCase n <> toLowerCase wanted.
Proof.
  unfold find_ci. split.
  - intros H n Hn E. apply (find_none _ _ H) in Hn.
    apply eqb_true in E. congruence.
  - intros H. induction names as [|x names IH]; [reflexivity|].
    simpl. destruct (String.eqb (toLowerCase x) (toLowerCase wanted)) eqn:E.
    + apply eqb_true in E. exfalso. apply (H x); [now left | exact E].
    + apply IH. intros n Hn. apply H. now right.
Qed.

Lemma find_alias_spec (names aliases : list string) (n : string) :
  find_alias names aliases = Some n ->
  In n names /\ exists a, In a aliases /\ toLowerCase n = toLowerCase a.
Proof.
  induction aliases as [|a aliases IH]; simpl; [discriminate|].
  destruct (find_ci names a) as [x|] eqn:E.
  - intros H. injection H as <-. apply find_ci_spec in E.
    split; [exact (proj1 E)|]. exists a. split; [now left | exact (proj2 E)].
  - intros H. destruct (IH H) as [Hin [b [Hb Hl]]].
    split; [exact Hin|]. exists b. split; [now right | exact Hl].
Qed.

Lemma find_alias_none (names aliases : list string) :
  find_alias names aliases = None <->
  forall n a, In n names -> In a aliases -> toLowerCase n <> toLowerCase a.
Proof.
  induction aliases as [|a aliases IH]; simpl.
  - split; [intros _ n a _ [] | reflexivity].
  - destruct (find_ci names a) as [x|] eqn:E.
    + split; [discriminate|]. intros H. apply find_ci_spec in E.
      exfalso. apply (H x a); [exact (proj1 E) | now left | exact (proj2 E)].
    + rewrite IH. split.
      * intros H n b Hn [<-|Hb]; [|now apply H].
        exact (proj1 (find_ci_none names a) E n Hn).
      * intros H n b Hn Hb. apply H; [exact Hn | now right].
Qed.

Lemma answers_spec (n t : string) :
  answers n t <->
  toLowerCase n = toLowerCase t \/
  exists a, In a (aliases_of t) /\ toLowerCase n = toLowerCase a.
Proof.
  unfold answers, keys. simpl. rewrite in_map_iff. split.
  - intros [H|[a [Ha Hin]]]; [now left | right; exists a; now split].
  - intros [H|[a [Hin Ha]]]; [now left | right; exists a; now split].
Qed.

Lemma findSheetByName_spec (workbook : WorkBook) (targetName n : string) :
  findSheetByName workbook targetName = Some n ->
  In n (SheetNames workbook) /\ answers n targetName /\
  ((exists n0, In n0 (SheetNames workbook)
               /\ toLowerCase n0 = toLowerCase targetName) ->
   toLowerCase n = toLowerCase targetName).
Proof.
  unfold findSheetByName. intros H.
  destruct (find_ci (SheetNames workbook) targetName) as [x|] eqn:E.
  - injection H as <-. apply find_ci_spec in E. destruct E as [Hin Hl].
    split; [exact Hin|]. split; [apply answers_spec; now left | now intros _].
  - destruct (SHEET_NAME_ALIASES targetName) as [aliases|] eqn:Ea; [|discriminate].
    apply find_alias_spec in H. destruct H as [Hin [a [Ha Hl]]].
    split; [exact Hin|]. split.
    + apply answers_spec. right. exists a. unfold aliases_of. rewrite Ea.
      now split.
    + intros [n0 [Hn0 Hl0]]. exfalso.
      exact (proj1 (find_ci_none _ _) E n0 Hn0 Hl0).
Qed.

(** X1.  The tab a canonical name resolves to is a tab of the workbook and
    answers to the name: lower-cased, it is the name or one of its aliases.
    Where some tab spells the name itself, such a tab is the one returned,
    whatever the aliases. *)
Theorem resolved_tab (workbook : WorkBook) (targetName n : string) :
  findSheetByName workbook targetName = Some n ->
  In n (SheetNames workbook) /\ answers n targetName /\
  ((exists n0, In n0 (SheetNames workbook)
               /\ toLowerCase n0 = toLowerCase targetName) ->
   toLowerCase n = toLowerCase targetName).
Proof. apply findSheetByName_spec. Qed.

Lemma resolved_tab_witness :
  In "Income Statement" (SheetNames Samples.aliased_workbook) /\
  answers "Income Statement" "PL - RAW".
Proof.
  assert (H : findSheetByName Samples.aliased_workbook "PL - RAW"
              = Some "Income Statement")
    by (vm_compute; reflexivity).
  exact (conj (proj1 (resolved_tab _ _ _ H))
              (proj1 (proj2 (resolved_tab _ _ _ H)))).
Defined.

(** X2.  A canonical name resolves to nothing exactly when no tab of the
    workbook answers to it. *)
Theorem unresolved_tab (workbook : WorkBook) (targetName : string) :
  findSheetByName workbook targetName = None <->
  forall n, In n (SheetNames workbook) -> ~ answers n targetName.
Proof.
  unfold findSheetByName. split.
  - intros H n Hn Ha. apply answers_spec in Ha.
    destruct (find_ci (SheetNames workbook) targetName) as [x|] eqn:E;
      [discriminate|].
    destruct Ha as [Hl|[a [Ha Hl]]].
    + exact (proj1 (find_ci_none _ _) E n Hn Hl).
    + unfold aliases_of in Ha.
      destruct (SHEET_NAME_ALIASES targetName) as [aliases|]; [|contradiction].
      exact (proj1 (find_alias_none _ _) H n a Hn Ha Hl).
  - intros H.
    assert (E : find_ci (SheetNames workbook) targetName = None).
    { apply find_ci_none. intros n Hn Hl. apply (H n Hn).
      apply answers_spec. now left. }
    rewrite E.
    destruct (SHEET_NAME_ALIASES targetName) as [aliases|] eqn:Ea; [|reflexivity].
    apply find_alias_none. intros n a Hn Ha Hl. apply (H n Hn).
    apply answers_spec. right. exists a. unfold aliases_of. rewrite Ea.
    now split.
Qed.


(** *** The extracted sheets *)

Lemma shares_key_false (t t' k : string) :
  shares_key t t' = false -> In k (keys t) -> In k (keys t') -> False.
Proof.
  unfold shares_key. intros H Hk Hk'.
  assert (E : existsb (fun k => existsb (String.eqb k) (keys t')) (keys t) = true).
  { apply existsb_exists. exists k. split; [exact Hk|].
    apply existsb_exists. exists k. split; [exact Hk' | apply String.eqb_refl]. }
  congruence.
Qed.

Lemma resolve_answers (workbook : WorkBook) (t : string) (s : ExtractedSheet) :
  In s (resolve workbook t) ->
  findSheetByName workbook t = Some (name s) /\ name s <> "" /\
  csv s = Sheets workbook (name s) /\
  estimatedTokens s = estimateTokens (csv s).
Proof.
  unfold resolve. destruct (findSheetByName workbook t) as [n|]; [|contradiction].
  destruct (String.eqb n "") eqn:E; [contradiction|].
  intros [<-|[]]. cbn [name csv estimatedTokens].
  split; [reflexivity|]. split; [|split; reflexivity].
  intros ->. discriminate.
Qed.

Lemma resolve_short (workbook : WorkBook) (t : string) :
  resolve workbook t = [] \/ exists s, resolve workbook t = [s].
Proof.
  unfold resolve. destruct (findSheetByName workbook t) as [n|]; [|now left].
  destruct (String.eqb n ""); [now left | right; now eexists].
Qed.

Lemma apart_nodup (workbook : WorkBook) (targets : list string) :
  apart targets = true ->
  NoDup (map name (flat_map (resolve workbook) targets)).
Proof.
  induction targets as [|t targets IH]; intros H; [constructor|].
  cbn [apart] in H. apply andb_true_iff in H. destruct H as [Ht Hr].
  cbn [flat_map]. rewrite map_app.
  destruct (resolve_short workbook t) as [E|[s E]]; rewrite E.
  - exact (IH Hr).
  - cbn [map app]. constructor; [|exact (IH Hr)].
    intros Hin. apply in_map_iff in Hin. destruct Hin as [s' [En Hs']].
    apply in_flat_map in Hs'. destruct Hs' as [t' [Ht' Hs']].
    assert (Hs : In s (resolve workbook t)) by (rewrite E; now left).
    apply resolve_answers in Hs. apply resolve_answers in Hs'.
    destruct Hs as [Hs _]. destruct Hs' as [Hs' _].
    apply findSheetByName_spec in Hs. apply findSheetByName_spec in Hs'.
    rewrite En in Hs'.
    rewrite forallb_forall in Ht. specialize (Ht t' Ht').
    apply negb_true_iff in Ht.
    exact (shares_key_false t t' _ Ht (proj1 (proj2 Hs)) (proj1 (proj2 Hs'))).
Qed.

Lemma subsequence_map {A B : Type} (f : A -> B) (l m : list A) :
  subsequence l m -> subsequence (map f l) (map f m).
Proof. induction 1; simpl; now constructor. Qed.

Lemma subsequence_nodup {A : Type} (l m : list A) :
  subsequence l m -> NoDup m -> NoDup l.
Proof.
  induction 1 as [|x l m S IH|x l m S IH]; intros N.
  - constructor.
  - inversion N; subst. now apply IH.
  - inversion N as [|? ? Hx Hm]; subst. constructor; [|now apply IH].
    intros Hin. apply Hx. exact (ExcelProps.subsequence_In _ _ _ S Hin).
Qed.

Lemma subsequence_nil {A : Type} (l : list A) : subsequence l [] -> l = [].
Proof. intros H. inversion H. reflexivity. Qed.

Lemma subsequence_length {A : Type} (l m : list A) :
  subsequence l m -> (List.length l <= List.length m)%nat.
Proof. induction 1; simpl; lia. Qed.

Lemma subsequence_full {A : Type} (l m : list A) :
  subsequence l m -> (List.length m <= List.length l)%nat -> l = m.
Proof.
  induction 1 as [|x l m S IH|x l m S IH]; simpl; intros H.
  - reflexivity.
  - apply subsequence_length in S. lia.
  - f_equal. apply IH. lia.
Qed.

Lemma admitted_candidates (workbook : WorkBook) (maxTokens : Z) :
  subsequence (sheets (extractCoreSheets workbook maxTokens)) (candidates workbook).
Proof.
  destruct (ExcelProps.extract_greedy workbook maxTokens) as [Es _]. rewrite Es.
  destruct (ExcelProps.greedy_subsequence maxTokens (candidates workbook) ([], 0%Z))
    as [l [E S]].
  rewrite E. exact S.
Qed.

Lemma core_apart : apart CORE_SHEETS = true.
Proof. vm_compute. reflexivity. Qed.

(** X3.  No tab is extracted twice: the names of the extracted sheets are
    pairwise different, whatever the workbook and the budget. *)
Theorem extracted_once (workbook : WorkBook) (maxTokens : Z) :
  NoDup (map name (sheets (extractCoreSheets workbook maxTokens))).
Proof.
  apply (subsequence_nodup _ (map name (candidates workbook))).
  - apply subsequence_map, admitted_candidates.
  - apply apart_nodup, core_apart.
Qed.

(** *** The size of what is extracted *)

Lemma length_le_tokens (text : string) :
  (Z.of_nat (String.length text) <= 4 * estimateTokens text)%Z.
Proof.
  unfold estimateTokens.
  pose proof (Z.div_mod (Z.of_nat (String.length text) + 3) 4) as D.
  pose proof (Z.mod_pos_bound (Z.of_nat (String.length text) + 3) 4) as M.
  lia.
Qed.

Lemma tokens_le_length (text : string) :
  (4 * estimateTokens text <= Z.of_nat (String.length text) + 3)%Z.
Proof.
  unfold estimateTokens.
  pose proof (Z.div_mod (Z.of_nat (String.length text) + 3) 4) as D.
  pose proof (Z.mod_pos_bound (Z.of_nat (String.length text) + 3) 4) as M.
  lia.
Qed.

Lemma candidates_priced (workbook : WorkBook) (s : ExtractedSheet) :
  In s (candidates workbook) -> estimatedTokens s = estimateTokens (csv s).
Proof.
  unfold candidates. intros H. apply in_flat_map in H.
  destruct H as [t [_ Hs]]. now apply resolve_answers in Hs.
Qed.

Lemma characters_cost (l : list ExtractedSheet) :
  (forall s, In s l -> estimatedTokens s = estimateTokens (csv s)) ->
  (Z.of_nat (characters l) <= 4 * total_cost l)%Z.
Proof.
  unfold characters, total_cost.
  induction l as [|s l IH]; intros H; [simpl; lia|].
  assert (Hl : forall s', In s' l -> estimatedTokens s' = estimateTokens (csv s'))
    by (intros s' Hs'; apply H; now right).
  specialize (IH Hl). cbn [map list_sum fold_right].
  fold (list_sum (map (fun s0 => String.length (csv s0)) l)).
  rewrite Nat2Z.inj_add, (H s) by now left.
  pose proof (length_le_tokens (csv s)). lia.
Qed.

Lemma extracted_characters_bound (workbook : WorkBook) (maxTokens : Z) :
  (0 <= maxTokens)%Z ->
  (Z.of_nat (characters (sheets (extractCoreSheets workbook maxTokens)))
   <= 4 * maxTokens)%Z.
Proof.
  intros HB.
  destruct (ExcelProps.extract_run workbook maxTokens HB) as [Et [Hb _]].
  pose proof (admitted_candidates workbook maxTokens) as S.
  assert (P : forall s, In s (sheets (extractCoreSheets workbook maxTokens)) ->
              estimatedTokens s = estimateTokens (csv s)).
  { intros s Hs. apply (candidates_priced workbook).
    exact (ExcelProps.subsequence_In _ _ _ S Hs). }
  apply characters_cost in P. lia.
Qed.

(** X4.  The estimate of a text is its length over four, rounded up; so
    the CSV text of the extracted sheets, taken together, has at most four
    characters per token of the budget. *)
Theorem extracted_characters (workbook : WorkBook) (maxTokens : Z) :
  (0 <= maxTokens)%Z ->
  (Z.of_nat (characters (sheets (extractCoreSheets workbook maxTokens)))
   <= 4 * maxTokens)%Z.
Proof. apply extracted_characters_bound. Qed.

Lemma extracted_characters_witness :
  (Z.of_nat (characters (sheets (extractCoreSheets Samples.canonical_workbook 5)))
   <= 4 * 5)%Z.
Proof. apply (extracted_characters Samples.canonical_workbook 5). lia. Defined.

(** *** The preview *)

Lemma core_spelled :
  forallb (fun t => negb (existsb (String.eqb "") (keys t))) CORE_SHEETS = true.
Proof. vm_compute. reflexivity. Qed.

(** A canonical name never resolves to a tab with the empty name. *)
Lemma core_named (workbook : WorkBook) (t : string) :
  In t CORE_SHEETS -> findSheetByName workbook t <> Some "".
Proof.
  intros Ht H. apply findSheetByName_spec in H. destruct H as [_ [Ha _]].
  unfold answers in Ha. cbn [toLowerCase] in Ha.
  pose proof core_spelled as C. rewrite forallb_forall in C.
  specialize (C t Ht). apply negb_true_iff in C.
  assert (E : existsb (String.eqb "") (keys t) = true).
  { apply existsb_exists. exists "". split; [exact Ha | reflexivity]. }
  congruence.
Qed.

Lemma unresolved_resolve (workbook : WorkBook) (t : string) :
  (unresolved workbook t = true /\ resolve workbook t = []) \/
  (unresolved workbook t = false /\
   exists s, resolve workbook t = [s] /\ findSheetByName workbook t = Some (name s)).
Proof.
  unfold unresolved, resolve.
  destruct (findSheetByName workbook t) as [n|]; [|now left].
  destruct (String.eqb n ""); [now left|].
  right. split; [reflexivity|]. eexists. split; reflexivity.
Qed.

Lemma preview_fold (workbook : WorkBook) (targets : list string)
    (acc : list string * list string) :
  fold_left (preview_step workbook) targets acc
  = ((fst acc ++ map name (flat_map (resolve workbook) targets))%list,
     (snd acc ++ filter (unresolved workbook) targets)%list).
Proof.
  revert acc. induction targets as [|t targets IH]; intros [f m].
  - cbn. now rewrite !app_nil_r.
  - cbn [fold_left flat_map filter]. rewrite IH.
    unfold preview_step, unresolved, resolve.
    destruct (findSheetByName workbook t) as [n|].
    + destruct (String.eqb n ""); cbn [fst snd app map];
        now rewrite <- ?app_assoc.
    + cbn [fst snd app map]. now rewrite <- ?app_assoc.
Qed.

Lemma preview_lists (workbook : WorkBook) :
  foundSheets (previewExtraction workbook) = map name (candidates workbook) /\
  missingSheets (previewExtraction workbook) = filter (unresolved workbook) CORE_SHEETS.
Proof.
  unfold previewExtraction. cbn [foundSheets missingSheets].
  rewrite preview_fold. split; reflexivity.
Qed.

Lemma partition_length (workbook : WorkBook) (targets : list string) :
  (List.length (map name (flat_map (resolve workbook) targets))
   + List.length (filter (unresolved workbook) targets)
   = List.length targets)%nat.
Proof.
  induction targets as [|t targets IH]; [reflexivity|].
  cbn [flat_map filter]. rewrite map_app, length_app.
  destruct (unresolved_resolve workbook t) as [[U R]|[U [s [R _]]]];
    rewrite U, R; cbn [map List.length]; lia.
Qed.

(** X5.  The preview sorts the canonical names into two lists that cover
    them all: a name is listed as missing exactly when it resolves to no
    tab, and the found list holds exactly the tabs the names resolve to.
    What an extraction takes, under any budget, was previewed: the names
    of its sheets are found sheets, in the same order, some possibly left
    out. *)
Theorem preview_partition (workbook : WorkBook) :
  let p := previewExtraction workbook in
  (List.length (foundSheets p) + List.length (missingSheets p)
   = List.length CORE_SHEETS)%nat /\
  (forall t, In t (missingSheets p) <->
             In t CORE_SHEETS /\ findSheetByName workbook t = None) /\
  (forall n, In n (foundSheets p) <->
             exists t, In t CORE_SHEETS /\ findSheetByName workbook t = Some n) /\
  (forall maxTokens,
     subsequence (map name (sheets (extractCoreSheets workbook maxTokens)))
                 (foundSheets p)).
Proof.
  intros p. subst p. destruct (preview_lists workbook) as [Ef Em].
  rewrite Ef, Em. split; [apply partition_length|].
  assert (S : forall maxTokens,
     subsequence (map name (sheets (extractCoreSheets workbook maxTokens)))
                 (map name (candidates workbook)))
    by (intros m; apply subsequence_map, admitted_candidates).
  split; [|split; [|exact S]].
  - intros t. rewrite filter_In. split.
    + intros [Ht U]. split; [exact Ht|]. unfold unresolved in U.
      destruct (findSheetByName workbook t) as [n|] eqn:E; [|reflexivity].
      apply eqb_true in U. subst n. exfalso. exact (core_named _ _ Ht E).
    + intros [Ht E]. split; [exact Ht|]. unfold unresolved. rewrite E.
      reflexivity.
  - intros n. rewrite in_map_iff. split.
    + intros [s [<- Hs]]. unfold candidates in Hs. apply in_flat_map in Hs.
      destruct Hs as [t [Ht Hs]]. exists t. split; [exact Ht|].
      exact (proj1 (resolve_answers _ _ _ Hs)).
    + intros [t [Ht E]].
      exists (mkSheet n (sheetToCsv (Sheets workbook n))
                (estimateTokens (sheetToCsv (Sheets workbook n)))).
      split; [reflexivity|]. unfold candidates. apply in_flat_map.
      exists t. split; [exact Ht|]. unfold resolve. rewrite E.
      destruct (String.eqb n "") eqn:En; [|left; reflexivity].
      apply eqb_true in En. subst n. exfalso. exact (core_named _ _ Ht E).
Qed.

Lemma cost_of_names (workbook : WorkBook) (l : list ExtractedSheet) :
  (forall s, In s l -> csv s = Sheets workbook (name s)
                       /\ estimatedTokens s = estimateTokens (csv s)) ->
  cost_of workbook (map name l) = total_cost l.
Proof.
  unfold cost_of, total_cost, sheetToCsv.
  induction l as [|s l IH]; intros H; [reflexivity|].
  cbn [map fold_right]. rewrite IH by (intros s' Hs'; apply H; now right).
  destruct (H s) as [Ec Et]; [now left|]. now rewrite Et, Ec.
Qed.

Lemma candidates_cost (workbook : WorkBook) :
  cost_of workbook (map name (candidates workbook)) = total_cost (candidates workbook).
Proof.
  apply cost_of_names. intros s Hs. unfold candidates in Hs.
  apply in_flat_map in Hs. destruct Hs as [t [_ Hs]].
  apply resolve_answers in Hs. tauto.
Qed.

Lemma total_cost_nonneg (l : list ExtractedSheet) :
  Forall (fun s => 0 <= estimatedTokens s)%Z l -> (0 <= total_cost l)%Z.
Proof.
  unfold total_cost. induction 1 as [|s l Hs _ IH]; simpl; lia.
Qed.

Lemma extract_all (workbook : WorkBook) (maxTokens : Z) :
  (total_cost (candidates workbook) <= maxTokens)%Z ->
  sheets (extractCoreSheets workbook maxTokens) = candidates workbook.
Proof.
  intros Hfit.
  pose proof (total_cost_nonneg _ (ExcelProps.candidates_nonneg workbook)) as H0.
  assert (HB : (0 <= maxTokens)%Z) by lia.
  destruct (ExcelProps.extract_run workbook maxTokens HB) as [_ [_ [S P]]].
  destruct (P (candidates workbook) [] (eq_sym (app_nil_r _)) Hfit) as [a Ea].
  apply subsequence_full; [exact S|].
  rewrite Ea, length_app. lia.
Qed.

(** X6.  When the found sheets of the preview fit the budget together, the
    extraction takes them all: its sheets are the found sheets, in order. *)
Theorem preview_exact (workbook : WorkBook) (maxTokens : Z) :
  (cost_of workbook (foundSheets (previewExtraction workbook)) <= maxTokens)%Z ->
  map name (sheets (extractCoreSheets workbook maxTokens))
  = foundSheets (previewExtraction workbook).
Proof.
  rewrite (proj1 (preview_lists workbook)), candidates_cost.
  intros H. now rewrite extract_all.
Qed.

Lemma preview_exact_witness :
  map name (sheets (extractCoreSheets Samples.canonical_workbook 6))
  = foundSheets (previewExtraction Samples.canonical_workbook).
Proof.
  apply (preview_exact Samples.canonical_workbook 6). vm_compute. discriminate.
Defined.

(** *** Validation *)

Lemma hasFinancialSheet_spec (workbook : WorkBook) :
  hasFinancialSheet workbook = true <-> candidates workbook <> [].
Proof.
  unfold hasFinancialSheet. rewrite existsb_exists. split.
  - intros [t [Ht H]]. destruct (findSheetByName workbook t) as [n|] eqn:E;
      [|discriminate].
    intros Hc.
    assert (Hin : In (mkSheet n (sheetToCsv (Sheets workbook n))
                        (estimateTokens (sheetToCsv (Sheets workbook n))))
                     (candidates workbook)).
    { unfold candidates. apply in_flat_map. exists t. split; [exact Ht|].
      unfold resolve. rewrite E.
      destruct (String.eqb n "") eqn:En; [|left; reflexivity].
      apply eqb_true in En. subst n. exfalso. exact (core_named _ _ Ht E). }
    rewrite Hc in Hin. exact Hin.
  - intros Hc. destruct (candidates workbook) as [|s l] eqn:E; [congruence|].
    assert (Hin : In s (candidates workbook)) by (rewrite E; now left).
    unfold candidates in Hin. apply in_flat_map in Hin.
    destruct Hin as [t [Ht Hs]]. exists t. split; [exact Ht|].
    destruct (resolve_answers _ _ _ Hs) as [Hf _]. rewrite Hf. reflexivity.
Qed.

Lemma valid_spec (workbook : WorkBook) :
  valid (validateExcelFile (Parsed workbook)) = hasFinancialSheet workbook.
Proof.
  cbn [validateExcelFile].
  destruct (List.length (SheetNames workbook) =? 0)%nat eqn:E.
  - cbn [valid]. symmetry. apply not_true_is_false. intros H.
    unfold hasFinancialSheet in H. apply existsb_exists in H.
    destruct H as [t [_ H]].
    destruct (findSheetByName workbook t) as [n|] eqn:F; [|discriminate].
    apply ExcelProps.findSheetByName_In in F. apply Nat.eqb_eq in E.
    destruct (SheetNames workbook); [contradiction | discriminate].
  - destruct (hasFinancialSheet workbook); reflexivity.
Qed.

(** X7.  A file passes validation exactly when it could be read and the
    preview of its workbook finds at least one sheet; a valid file comes
    with its number of tabs and no error, an invalid one with an error. *)
Theorem validation_preview (read : ReadOutcome) :
  (valid (validateExcelFile read) = true <->
   exists workbook, read = Parsed workbook
                    /\ foundSheets (previewExtraction workbook) <> []) /\
  (valid (validateExcelFile read) = true ->
   error (validateExcelFile read) = None /\
   exists workbook, read = Parsed workbook /\
     sheetCount (validateExcelFile read) = Some (List.length (SheetNames workbook))) /\
  (valid (validateExcelFile read) = false ->
   error (validateExcelFile read) <> None).
Proof.
  destruct read as [workbook|message].
  - rewrite valid_spec. split; [|split].
    + rewrite hasFinancialSheet_spec. split.
      * intros H. exists workbook. split; [reflexivity|].
        rewrite (proj1 (preview_lists workbook)).
        intros E. apply H. now apply map_eq_nil in E.
      * intros [w [E H]]. injection E as <-. intros Hc. apply H.
        rewrite (proj1 (preview_lists workbook)). now rewrite Hc.
    + intros H. pose proof (valid_spec workbook) as V. rewrite H in V.
      cbn [validateExcelFile] in *.
      destruct (List.length (SheetNames workbook) =? 0)%nat; [discriminate|].
      rewrite H. cbn [negb error sheetCount]. split; [reflexivity|].
      exists workbook. split; reflexivity.
    + intros H. cbn [validateExcelFile].
      destruct (List.length (SheetNames workbook) =? 0)%nat; [discriminate|].
      rewrite H. discriminate.
  - cbn [validateExcelFile valid error]. split; [|split].
    + split; [discriminate|]. intros [w [E _]]. discriminate.
    + discriminate.
    + discriminate.
Qed.

(** *** The payload *)

Lemma append_sheet_block (output : string) (s : ExtractedSheet) :
  append_sheet output s = output ++ nl ++ sheet_block s.
Proof.
  unfold append_sheet, sheet_block. now rewrite !append_assoc.
Qed.

Lemma fold_append_sheet (l : list ExtractedSheet) (output : string) :
  fold_left append_sheet l output = output ++ sheet_blocks l.
Proof.
  revert output. induction l as [|s l IH]; intros output.
  - cbn. now rewrite append_nil_r.
  - cbn [fold_left sheet_blocks fold_right]. rewrite IH, append_sheet_block.
    now rewrite !append_assoc.
Qed.

Lemma block_in_blocks (l : list ExtractedSheet) (s : ExtractedSheet) :
  In s l -> contains (sheet_block s) (sheet_blocks l).
Proof.
  induction l as [|x l IH]; [contradiction|].
  cbn [sheet_blocks fold_right]. intros [->|H].
  - exists nl, (sheet_blocks l). reflexivity.
  - apply contains_app_l, contains_app_l, IH, H.
Qed.

(** X8.  The payload opens with the company line and carries every sheet
    of the extraction result: the marker line with its name, a rule, and
    its CSV text. *)
Theorem payload_blocks (result : ExtractionResult) (companyName periodEnd : string) :
  starts_with ("COMPANY: " ++ companyName ++ nl)
    (formatForClaude result companyName periodEnd) /\
  forall s, In s (sheets result) ->
    contains (sheet_block s) (formatForClaude result companyName periodEnd).
Proof.
  unfold formatForClaude. rewrite fold_append_sheet. split.
  - eexists. rewrite !append_assoc. reflexivity.
  - intros s Hs. apply contains_app_l, block_in_blocks, Hs.
Qed.

Lemma length_repeat_char (c : ascii) (n : nat) :
  String.length (repeat_char c n) = n.
Proof. induction n as [|n IH]; simpl; [reflexivity | now rewrite IH]. Qed.

Lemma length_sheet_blocks (l : list ExtractedSheet) :
  String.length (sheet_blocks l)
  = (95 * List.length l + name_characters l + characters l)%nat.
Proof.
  unfold name_characters, characters.
  induction l as [|s l IH]; [reflexivity|].
  cbn [sheet_blocks fold_right map list_sum List.length].
  fold (sheet_blocks l).
  fold (list_sum (map (fun s0 => String.length (name s0)) l)).
  fold (list_sum (map (fun s0 => String.length (csv s0)) l)).
  unfold sheet_block. rewrite !length_append, IH, length_repeat_char.
  cbn [String.length nl]. lia.
Qed.

Lemma length_count (n : nat) :
  (n <= 10)%nat -> (String.length (string_of_count n) <= 2)%nat.
Proof.
  intros H. do 11 (destruct n as [|n]; [vm_compute; lia|]). lia.
Qed.

Lemma candidates_length (workbook : WorkBook) :
  (List.length (candidates workbook) <= 10)%nat.
Proof.
  pose proof (partition_length workbook CORE_SHEETS) as H.
  rewrite length_map in H. unfold candidates.
  change (List.length CORE_SHEETS) with 10%nat in H. lia.
Qed.

(** X9.  The payload built from an extraction is bounded by the budget:
    four characters per token, plus the company name, the period, the tab
    names and a fixed frame of at most 1186 characters. *)
Theorem payload_size (workbook : WorkBook) (maxTokens : Z)
    (companyName periodEnd : string) :
  (0 <= maxTokens)%Z ->
  let r := extractCoreSheets workbook maxTokens in
  (Z.of_nat (String.length (formatForClaude r companyName periodEnd))
   <= 4 * maxTokens
      + Z.of_nat (String.length companyName + String.length periodEnd
                  + name_characters (sheets r))
      + 1186)%Z.
Proof.
  intros HB r. subst r.
  pose proof (extracted_characters_bound workbook maxTokens HB) as Hc.
  pose proof (subsequence_length _ _ (admitted_candidates workbook maxTokens)) as Hl.
  pose proof (candidates_length workbook) as H10.
  remember (sheets (extractCoreSheets workbook maxTokens)) as l eqn:El.
  assert (Hn : (String.length (string_of_count (List.length l)) <= 2)%nat)
    by (apply length_count; lia).
  unfold formatForClaude. rewrite <- El, fold_append_sheet.
  rewrite !length_append, length_sheet_blocks, !length_repeat_char.
  cbn [String.length nl]. lia.
Qed.

Lemma payload_size_witness :
  (Z.of_nat (String.length
               (formatForClaude (extractCoreSheets Samples.canonical_workbook 5)
                  "Acme" "2024-12-31"))
   <= 4 * 5
      + Z.of_nat (String.length "Acme" + String.length "2024-12-31"
                  + name_characters
                      (sheets (extractCoreSheets Samples.canonical_workbook 5)))
      + 1186)%Z.
Proof.
  apply (payload_size Samples.canonical_workbook 5 "Acme" "2024-12-31"). lia.
Defined.

End PayloadProps.

(** ** The route, from the workbook to the payload *)

Module RouteProps.
Import Spec StringFacts Excel Payload Notions Route PayloadProps.
Local Open Scope string_scope.

Lemma missing_extract (workbook : WorkBook) (maxTokens : Z) :
  missingRequiredSheets (extractCoreSheets workbook maxTokens)
  = missing (sheets (extractCoreSheets workbook maxTokens)).
Proof. unfold extractCoreSheets. cbn [missingRequiredSheets sheets]. reflexivity. Qed.

Lemma prepare_eq (workbook : WorkBook) (companyName periodEnd : string) :
  prepare workbook companyName periodEnd
  = if found (sheets (extractCoreSheets workbook defaultMaxTokens))
    then Generate (formatForClaude (extractCoreSheets workbook defaultMaxTokens)
                     companyName periodEnd)
    else Rejected 400 "Missing required sheets: PL - RAW, BS - RAW".
Proof.
  unfold prepare.
  rewrite missing_extract, ExcelProps.missing_eq.
  destruct (found (sheets (extractCoreSheets workbook defaultMaxTokens)));
    reflexivity.
Qed.

(** X10.  The route goes on to build the payload exactly when some
    extracted sheet has "pl" or "bs" in its lower-cased name; otherwise it
    answers 400, and the error always names both required sheets. *)
Theorem prepare_gate (workbook : WorkBook) (companyName periodEnd : string) :
  let r := extractCoreSheets workbook defaultMaxTokens in
  (prepare workbook companyName periodEnd
     = Generate (formatForClaude r companyName periodEnd)
   /\ (has_keyword "pl" (sheets r) \/ has_keyword "bs" (sheets r)))
  \/
  (prepare workbook companyName periodEnd
     = Rejected 400 "Missing required sheets: PL - RAW, BS - RAW"
   /\ ~ (has_keyword "pl" (sheets r) \/ has_keyword "bs" (sheets r))).
Proof.
  intros r. subst r. rewrite prepare_eq.
  destruct (found (sheets (extractCoreSheets workbook defaultMaxTokens))) eqn:F.
  - left. split; [reflexivity | now apply ExcelProps.found_spec].
  - right. split; [reflexivity|]. intros H.
    apply ExcelProps.found_spec in H. congruence.
Qed.

(** X11.  A workbook that fails validation never reaches the model: the
    route rejects it, nothing having been extracted. *)
Theorem invalid_rejected (workbook : WorkBook) (companyName periodEnd : string) :
  valid (validateExcelFile (Parsed workbook)) = false ->
  sheets (extractCoreSheets workbook defaultMaxTokens) = [] /\
  prepare workbook companyName periodEnd
  = Rejected 400 "Missing required sheets: PL - RAW, BS - RAW".
Proof.
  rewrite valid_spec. intros H.
  assert (Hc : candidates workbook = []).
  { destruct (candidates workbook) as [|s l] eqn:E; [reflexivity|].
    assert (T : hasFinancialSheet workbook = true)
      by (apply hasFinancialSheet_spec; rewrite E; discriminate).
    congruence. }
  pose proof (admitted_candidates workbook defaultMaxTokens) as S.
  rewrite Hc in S.
  pose proof (subsequence_nil _ S) as Es.
  split; [exact Es|]. rewrite prepare_eq, Es. reflexivity.
Qed.

Lemma invalid_rejected_witness :
  sheets (extractCoreSheets Cases.notes_workbook defaultMaxTokens) = [] /\
  prepare Cases.notes_workbook "Acme" "2024-12-31"
  = Rejected 400 "Missing required sheets: PL - RAW, BS - RAW".
Proof.
  apply (invalid_rejected Cases.notes_workbook "Acme" "2024-12-31").
  vm_compute. reflexivity.
Defined.

End RouteProps.

(** ** The number formatter, further properties *)

Module NumberProps.
Import Spec StringFacts FormatFinancial.
Local Open Scope string_scope.

(** *** White space around a word *)

Lemma trimStart_app (x r : string) (a : ascii) :
  is_space a = false ->
  exists x', trimStart (x ++ String a r) = x' ++ String a r.
Proof.
  intros Ha. induction x as [|c x [x' IH]].
  - exists "". simpl. now rewrite Ha.
  - simpl. destruct (is_space c).
    + exists x'. exact IH.
    + exists (String c x). reflexivity.
Qed.

Lemma trimEnd_app (m y : string) (b : ascii) :
  is_space b = false ->
  exists y', trimEnd (m ++ String b y) = m ++ String b y'.
Proof.
  intros Hb. induction m as [|c m [y' IH]].
  - exists (trimEnd y). simpl. destruct (trimEnd y); [now rewrite Hb | reflexivity].
  - exists y'. change (String c m ++ String b y) with (String c (m ++ String b y)).
    cbn [trimEnd]. rewrite IH. now destruct m.
Qed.

(** A word that starts and ends with visible characters survives
    trimming. *)
Lemma contains_trim (a b : ascii) (m s : string) :
  is_space a = false -> is_space b = false ->
  contains (String a (m ++ String b "")) s ->
  contains (String a (m ++ String b "")) (trim s).
Proof.
  intros Ha Hb [x [y E]]. subst s. unfold trim.
  change (String a (m ++ String b "") ++ y) with (String a ((m ++ String b "") ++ y)).
  destruct (trimStart_app x ((m ++ String b "") ++ y) a Ha) as [x' E1].
  rewrite E1.
  assert (E2 : x' ++ String a ((m ++ String b "") ++ y)
               = (x' ++ String a m) ++ String b y).
  { rewrite !append_assoc. reflexivity. }
  rewrite E2.
  destruct (trimEnd_app (x' ++ String a m) y b Hb) as [y' E3].
  rewrite E3. exists x', y'. cbn [append]. rewrite !append_assoc.
  cbn [append]. reflexivity.
Qed.

Lemma includes_trim (a b : ascii) (m s : string) :
  is_space a = false -> is_space b = false ->
  includes (String a (m ++ String b "")) (trim s)
  = includes (String a (m ++ String b "")) s.
Proof.
  intros Ha Hb.
  destruct (includes (String a (m ++ String b "")) s) eqn:E.
  - apply includes_spec. apply contains_trim; [exact Ha | exact Hb|].
    now apply includes_spec.
  - apply not_true_is_false. intros H. apply includes_spec in H.
    destruct (trim_inside s) as [x [y Es]]. destruct H as [u [w Ht]].
    assert (C : contains (String a (m ++ String b "")) s).
    { exists (x ++ u), (w ++ y). rewrite Es at 1. rewrite Ht.
      rewrite !append_assoc. reflexivity. }
    apply includes_spec in C. congruence.
Qed.

Lemma lower_trim (s : string) : toLowerCase (trim s) = trim (toLowerCase s).
Proof. symmetry. apply trim_toLowerCase. Qed.

(** The opening test on a trimmed value: what it adds on the untrimmed one
    is the exact comparisons. *)
Lemma na_value_trim (v : string) :
  na_value (trim v) = false -> na_value v = false.
Proof.
  unfold na_value. intros H.
  rewrite !orb_false_iff in H. destruct H as [[[[H1 H2] H3] H4] H5].
  assert (Hv : v <> "") by (intros ->; discriminate).
  rewrite lower_trim in H2, H3, H4, H5.
  change "n/a" with (String "n" ("/" ++ String "a" "")) in H2 |- *.
  change "data not provided"
    with (String "d" ("ata not provide" ++ String "d" "")) in H3 |- *.
  rewrite includes_trim in H2 by reflexivity.
  rewrite includes_trim in H3 by reflexivity.
  rewrite H2, H3.
  assert (E0 : String.eqb v "" = false).
  { apply not_true_is_false. intros E. apply eqb_true in E. contradiction. }
  rewrite E0. cbn [orb].
  assert (E4 : String.eqb (toLowerCase v) "n/m" = false).
  { apply not_true_is_false. intros E. apply eqb_true in E.
    rewrite E in H4. discriminate. }
  assert (E5 : String.eqb (toLowerCase v) "nm" = false).
  { apply not_true_is_false. intros E. apply eqb_true in E.
    rewrite E in H5. discriminate. }
  now rewrite E4, E5.
Qed.

(** X12.  White space around a value does not change how it is formatted,
    as long as the trimmed value is not itself taken as not applicable. *)
Theorem padding_ignored (v : string) :
  na_value (trim v) = false ->
  formatFinancialNumber (Some v) = formatFinancialNumber (Some (trim v)).
Proof.
  intros H. pose proof (na_value_trim v H) as Hv.
  unfold formatFinancialNumber. rewrite H, Hv, trim_idem. reflexivity.
Qed.

Lemma padding_ignored_witness :
  formatFinancialNumber (Some "  -$5.8K ")
  = formatFinancialNumber (Some (trim "  -$5.8K ")).
Proof. apply (padding_ignored "  -$5.8K "). vm_compute. reflexivity. Defined.

(** *** The display text and the flags *)

Lemma parenthesise_end (t : string) : exists x, parenthesise t = x ++ ")".
Proof.
  unfold parenthesise. destruct (includes "$" t); [now eexists|].
  destruct (includes "%" t).
  - exists ("(" ++ replace "-" "" t). now rewrite append_assoc.
  - exists ("(" ++ replace "-" "" t). now rewrite append_assoc.
Qed.

Lemma parenthesise_not (t s : string) :
  endsWith ")" s = false -> parenthesise t <> s.
Proof.
  intros H E. destruct (parenthesise_end t) as [x Ex]. rewrite Ex in E.
  rewrite <- E in H. rewrite FormatProps.endsWith_snoc in H. discriminate.
Qed.

Lemma trim_contains (v w : string) : trim v = w -> contains w v.
Proof.
  intros <-. destruct (trim_inside v) as [a [b E]]. now exists a, b.
Qed.

Lemma plain_text (v : string) :
  na_value v = false -> collapses (trim v) = false ->
  text (formatFinancialNumber (Some v))
  = (if reformats (trim v) then parenthesise (trim v) else trim v) /\
  isZero (formatFinancialNumber (Some v)) = zero_value (trim v) /\
  isNA (formatFinancialNumber (Some v)) = false.
Proof.
  intros Hna Hc. fold (classify v). rewrite FormatProps.classify_plain by assumption.
  repeat split.
Qed.

Lemma zero_text (v : string) :
  na_value v = false -> collapses (trim v) = true ->
  formatFinancialNumber (Some v) = mkFormatted em_dash false false true false.
Proof. intros. fold (classify v). now apply FormatProps.classify_zero. Qed.

Lemma na_text (value : option string) :
  match value with Some v => na_value v = true | None => True end ->
  formatFinancialNumber value = mkFormatted "N/A" false false false true.
Proof.
  destruct value as [v|]; [|reflexivity].
  intros H. unfold formatFinancialNumber. now rewrite H.
Qed.

(** X13.  The formatter shows "N/A" exactly for the values it flags as not
    applicable: no other value is displayed as "N/A". *)
Theorem na_flag_text (value : option string) :
  isNA (formatFinancialNumber value) = true <->
  text (formatFinancialNumber value) = "N/A".
Proof.
  destruct value as [v|]; [|split; reflexivity].
  destruct (na_value v) eqn:Hna.
  - rewrite (na_text (Some v) Hna). split; reflexivity.
  - destruct (collapses (trim v)) eqn:Hc.
    + rewrite (zero_text v Hna Hc). split; discriminate.
    + destruct (plain_text v Hna Hc) as [Et [_ En]]. rewrite Et, En.
      split; [discriminate|]. intros H. exfalso.
      destruct (reformats (trim v)).
      * revert H. apply parenthesise_not. reflexivity.
      * apply trim_contains in H. destruct H as [a [b E]].
        assert (C : contains "n/a" (toLowerCase v)).
        { exists (toLowerCase a), (toLowerCase b).
          rewrite E, !toLowerCase_app. reflexivity. }
        apply includes_spec in C. unfold na_value in Hna.
        rewrite C in Hna. rewrite !orb_true_r in Hna. discriminate.
Qed.

Lemma dash_no_percent (t : string) :
  dash_value t = true -> includes "%" t = false.
Proof.
  unfold dash_value. rewrite !orb_true_iff, !eqb_true.
  intros [[->| ->]| ->]; reflexivity.
Qed.

(** X14.  The em dash is shown exactly for the values flagged as zero that
    carry no percent sign. *)
Theorem dash_flag_text (v : string) :
  text (formatFinancialNumber (Some v)) = em_dash <->
  isZero (formatFinancialNumber (Some v)) = true /\ includes "%" (trim v) = false.
Proof.
  destruct (na_value v) eqn:Hna.
  - rewrite (na_text (Some v) Hna). cbn [text isZero].
    split; [discriminate | intros [H _]; discriminate].
  - destruct (collapses (trim v)) eqn:Hc.
    + rewrite (zero_text v Hna Hc). cbn [text isZero].
      split; [|reflexivity]. intros _. split; [reflexivity|].
      unfold collapses in Hc. apply orb_true_iff in Hc.
      destruct Hc as [Hd|Hz]; [now apply dash_no_percent|].
      apply andb_true_iff in Hz. now apply negb_true_iff.
    + destruct (plain_text v Hna Hc) as [Et [Ez _]]. rewrite Et, Ez.
      unfold collapses in Hc. apply orb_false_iff in Hc. destruct Hc as [Hd Hz].
      split.
      * intros H. exfalso. destruct (reformats (trim v)).
        -- revert H. apply parenthesise_not. reflexivity.
        -- unfold dash_value in Hd. rewrite H in Hd.
           rewrite String.eqb_refl in Hd. rewrite orb_true_r in Hd.
           discriminate.
      * intros [H1 H2]. rewrite H1, H2 in Hz. discriminate.
Qed.

Lemma starts_minus (t : string) :
  startsWith "-" t = true -> exists r, t = String "-" r.
Proof.
  unfold startsWith. intros H. apply FormatProps.prefix_cons in H.
  destruct H as [r ->]. now exists r.
Qed.

(** X15.  A value with a digit in it is never shown with a leading minus
    sign, provided that it has no dollar sign or that its minus sign stands
    directly before the dollar sign. *)
Theorem no_leading_minus (v : string) :
  has_digit (trim v) = true ->
  includes "$" (trim v) = false \/ startsWith "-$" (trim v) = true ->
  startsWith "-" (text (formatFinancialNumber (Some v))) = false.
Proof.
  intros Hd Hs.
  destruct (na_value v) eqn:Hna; [now rewrite (na_text (Some v) Hna)|].
  destruct (collapses (trim v)) eqn:Hc; [now rewrite (zero_text v Hna Hc)|].
  destruct (plain_text v Hna Hc) as [Et _]. rewrite Et.
  destruct (reformats (trim v)) eqn:Hr.
  - unfold reformats in Hr. rewrite !andb_true_iff in Hr.
    destruct Hr as [[_ Hm] _]. apply starts_minus in Hm. destruct Hm as [r Er].
    rewrite Er in *. destruct Hs as [Hs|Hs].
    + now rewrite FormatProps.parenthesise_plain.
    + unfold startsWith in Hs. apply FormatProps.prefix_cons in Hs.
      destruct Hs as [r' Er']. injection Er' as ->.
      now rewrite FormatProps.parenthesise_dollar.
  - destruct (startsWith "-" (trim v)) eqn:Hm; [|reflexivity].
    exfalso. unfold reformats, negative_value in Hr. rewrite Hm, Hd in Hr.
    cbn [andb orb] in Hr. apply starts_minus in Hm. destruct Hm as [r Er].
    rewrite Er in Hr. discriminate.
Qed.

Lemma no_leading_minus_witness :
  startsWith "-" (text (formatFinancialNumber (Some " -47.3% "))) = false.
Proof.
  apply (no_leading_minus " -47.3% ").
  - vm_compute. reflexivity.
  - left. vm_compute. reflexivity.
Defined.

Lemma blank_lower (v : string) : trim v = "" -> trim (toLowerCase v) = "".
Proof. intros H. rewrite <- lower_trim, H. reflexivity. Qed.

Lemma na_value_blank (v : string) :
  v <> "" -> trim v = "" -> na_value v = false.
Proof.
  intros Hv Ht. apply blank_lower in Ht. unfold na_value.
  assert (E0 : String.eqb v "" = false).
  { apply not_true_is_false. intros E. apply eqb_true in E. contradiction. }
  rewrite E0. cbn [orb].
  change "n/a" with (String "n" ("/" ++ String "a" "")).
  change "data not provided"
    with (String "d" ("ata not provide" ++ String "d" "")).
  rewrite <- (includes_trim "n" "a") by reflexivity.
  rewrite <- (includes_trim "d" "d") by reflexivity.
  rewrite Ht. cbn [includes String.prefix orb].
  assert (E4 : String.eqb (toLowerCase v) "n/m" = false).
  { apply not_true_is_false. intros E. apply eqb_true in E.
    rewrite E in Ht. discriminate. }
  assert (E5 : String.eqb (toLowerCase v) "nm" = false).
  { apply not_true_is_false. intros E. apply eqb_true in E.
    rewrite E in Ht. discriminate. }
  now rewrite E4, E5.
Qed.

(** X16.  The display text is empty exactly for a value that is not empty
    but consists of white space only. *)
Theorem blank_value_text (v : string) :
  text (formatFinancialNumber (Some v)) = "" <-> v <> "" /\ trim v = "".
Proof.
  split.
  - intros H. destruct (na_value v) eqn:Hna;
      [rewrite (na_text (Some v) Hna) in H; discriminate|].
    destruct (collapses (trim v)) eqn:Hc;
      [rewrite (zero_text v Hna Hc) in H; discriminate|].
    destruct (plain_text v Hna Hc) as [Et _]. rewrite Et in H. split.
    + intros ->. discriminate.
    + destruct (reformats (trim v)); [|exact H].
      exfalso. revert H. apply parenthesise_not. reflexivity.
  - intros [Hv Ht].
    assert (Hna : na_value v = false) by now apply na_value_blank.
    assert (Hc : collapses (trim v) = false) by (rewrite Ht; reflexivity).
    destruct (plain_text v Hna Hc) as [Et _]. rewrite Et, Ht. reflexivity.
Qed.

End NumberProps.

(** ** The section parser, further properties *)

Module ParserProps.
Import Spec StringFacts Regex Sections Notions.
Local Open Scope string_scope.

(** X17.  Whatever the document, the sections come out in non-decreasing
    sort order. *)
Theorem sections_ordered (markdown : string) :
  StronglySorted le (map order (parseReportSections markdown)).
Proof.
  unfold parseReportSections.
  destruct (sort (collect (tl (split_headings markdown)))) as [|s l] eqn:E.
  - destruct (String.eqb (trim markdown) ""); repeat constructor.
  - rewrite <- E. apply SectionProps.sort_sorted.
Qed.

(** X18.  The parser returns no section at all exactly for a document that
    is blank; any other document gives at least one section to store. *)
Theorem sections_none (markdown : string) :
  parseReportSections markdown = [] <-> trim markdown = "".
Proof.
  split; [|apply SectionProps.blank_document].
  unfold parseReportSections.
  destruct (sort (collect (tl (split_headings markdown)))) as [|s l];
    [|discriminate].
  destruct (String.eqb (trim markdown) "") eqn:E; [|discriminate].
  intros _. now apply eqb_true.
Qed.

Lemma first_def_In (defs : list SectionDef) (title : string) (d : SectionDef) :
  first_def defs title = Some d ->
  In d defs /\ test true (def_pattern d) title = true.
Proof.
  induction defs as [|x defs IH]; simpl; [discriminate|].
  destruct (test true (def_pattern x) title) eqn:E.
  - intros H. injection H as <-. split; [now left | exact E].
  - intros H. destruct (IH H). split; [now right | assumption].
Qed.

Lemma section_of_part_from (part : string) :
  section_of_part part = option_map (fun d => section_from d part) (matched_def part).
Proof.
  unfold section_of_part, matched_def. rewrite SectionProps.first_match_def.
  destruct (first_def sectionDefinitions (part_title part)); reflexivity.
Qed.

Lemma collect_inv (parts : list string) (s : Section) :
  In s (collect parts) ->
  exists part, In part parts /\ section_of_part part = Some s.
Proof.
  induction parts as [|p parts IH]; [contradiction|].
  simpl. destruct (section_of_part p) as [x|] eqn:E.
  - intros [<-|H].
    + exists p. split; [now left | exact E].
    + destruct (IH H) as [q [Hq Eq]]. exists q. split; [now right | exact Eq].
  - intros H. destruct (IH H) as [q [Hq Eq]]. exists q.
    split; [now right | exact Eq].
Qed.

Lemma parse_cases (markdown : string) :
  (collect (heading_parts markdown) <> [] /\
   parseReportSections markdown = sort (collect (heading_parts markdown))) \/
  (collect (heading_parts markdown) = [] /\
   parseReportSections markdown
   = if String.eqb (trim markdown) "" then [] else [fallback markdown]).
Proof.
  destruct (collect (heading_parts markdown)) as [|s l] eqn:E.
  - right. split; [reflexivity|]. unfold parseReportSections.
    unfold heading_parts in E. rewrite E. reflexivity.
  - left. split; [discriminate|]. rewrite <- E.
    apply SectionProps.parse_sorted. rewrite E. discriminate.
Qed.

Lemma definition_orders :
  forallb (fun d => (1 <=? def_order d)%nat && (def_order d <=? 9)%nat)
          sectionDefinitions = true.
Proof. vm_compute. reflexivity. Qed.

(** X19.  What is stored is what the headings give.  A section of the
    result is the fallback, or the section built from a "## " part of the
    document under the first definition its title matches; and every part
    whose title matches a definition has its section in the result.  The
    sort order of a section is between 1 and 9. *)
Theorem sections_from_headings (markdown : string) :
  (forall s, In s (parseReportSections markdown) ->
     (s = fallback markdown /\ collect (heading_parts markdown) = []) \/
     exists part def, In part (heading_parts markdown)
                      /\ matched_def part = Some def
                      /\ s = section_from def part) /\
  (forall part def, In part (heading_parts markdown) ->
     matched_def part = Some def ->
     In (section_from def part) (parseReportSections markdown)) /\
  (forall s, In s (parseReportSections markdown) ->
     (1 <= order s <= 9)%nat).
Proof.
  assert (A : forall s, In s (parseReportSections markdown) ->
     (s = fallback markdown /\ collect (heading_parts markdown) = []) \/
     exists part def, In part (heading_parts markdown)
                      /\ matched_def part = Some def
                      /\ s = section_from def part).
  { intros s Hs. destruct (parse_cases markdown) as [[Hn E]|[Hn E]];
      rewrite E in Hs.
    - right. apply (Permutation_in _ (SectionProps.sort_perm _)) in Hs.
      apply collect_inv in Hs. destruct Hs as [part [Hp Es]].
      rewrite section_of_part_from in Es.
      destruct (matched_def part) as [d|] eqn:Ed; [|discriminate].
      injection Es as <-. exists part, d. auto.
    - left. destruct (String.eqb (trim markdown) ""); [contradiction|].
      destruct Hs as [<-|[]]. auto. }
  split; [exact A|]. split.
  - intros part def Hp Hd.
    assert (Es : section_of_part part = Some (section_from def part))
      by (rewrite section_of_part_from, Hd; reflexivity).
    pose proof (SectionProps.collect_In _ _ _ Hp Es) as Hin.
    destruct (parse_cases markdown) as [[Hn E]|[Hn E]].
    + rewrite E. apply (Permutation_in _ (Permutation_sym (SectionProps.sort_perm _))).
      exact Hin.
    + rewrite Hn in Hin. contradiction.
  - intros s Hs. destruct (A s Hs) as [[-> _]|[part [def [_ [Hd ->]]]]].
    + cbn. lia.
    + unfold matched_def in Hd. apply first_def_In in Hd.
      destruct Hd as [Hd _].
      pose proof definition_orders as O. rewrite forallb_forall in O.
      specialize (O def Hd). apply andb_true_iff in O.
      destruct O as [O1 O2]. apply Nat.leb_le in O1. apply Nat.leb_le in O2.
      cbn [section_from order]. lia.
Qed.

End ParserProps.

(** ** The section list of the prompt and the parser *)

Module PromptProps.
Import Spec StringFacts Regex Sections Prompt Notions.
Local Open Scope string_scope.

Lemma push_if_In (flag : bool) (title x : string) :
  In x (push_if flag title) -> x = title.
Proof. destruct flag; simpl; [intros [<-|[]]; reflexivity | contradiction]. Qed.

Lemma listed (title : string) :
  existsb (String.eqb title) all_sections = true -> In title all_sections.
Proof.
  intros H. apply existsb_exists in H. destruct H as [x [Hx E]].
  apply eqb_true in E. now subst x.
Qed.

Lemma enabled_listed (config : option ClientMetricConfig) (title : string) :
  In title (enabledSections config) -> In title all_sections.
Proof.
  intros H. apply listed. destruct config as [config|]; cbn [enabledSections] in H.
  - rewrite !in_app_iff in H.
    repeat (destruct H as [H|H];
            [apply push_if_In in H; subst title; vm_compute; reflexivity|]).
    apply push_if_In in H. subst title. vm_compute. reflexivity.
  - repeat (destruct H as [<-|H]; [vm_compute; reflexivity|]). contradiction.
Qed.

(** X20.  The prompt and the parser agree on the sections.  A title the
    prompt lists, for whatever configuration, is matched by the parser's
    loop; the section it gives has that very title as its name, and its
    sort order is the number the title starts with. *)
Theorem enabled_sections_parsed (config : option ClientMetricConfig)
    (title body : string) :
  In title (enabledSections config) ->
  exists sec, first_match sectionDefinitions title body = Some sec
              /\ name sec = title
              /\ starts_with (string_of_order (order sec) ++ ". ") title
              /\ content sec = "## " ++ title ++ nl ++ nl ++ body.
Proof.
  intros H. apply enabled_listed in H. unfold all_sections in H.
  repeat (destruct H as [<-|H];
          [eexists; split; [vm_compute; reflexivity|];
           split; [reflexivity|]; split; [eexists|]; reflexivity|]).
  contradiction.
Qed.

Lemma enabled_sections_parsed_witness :
  exists sec, first_match sectionDefinitions "3. COGS & Gross Margin" "text" = Some sec
              /\ name sec = "3. COGS & Gross Margin"
              /\ starts_with (string_of_order (order sec) ++ ". ")
                   "3. COGS & Gross Margin"
              /\ content sec = "## " ++ "3. COGS & Gross Margin" ++ nl ++ nl ++ "text".
Proof.
  apply (enabled_sections_parsed None "3. COGS & Gross Margin" "text").
  right. right. left. reflexivity.
Defined.

End PromptProps.

(** ** The matcher and the relation it explores *)

Module MatcherProps.
Import Spec StringFacts Regex RegexSem.
Local Open Scope string_scope.

Section Sound.

Variable i : bool.

Lemma star_loop_sound (a : regex) (k : mstate -> option mstate)
    (IH : forall st k res, rmatch i a st k = Some res ->
            exists st', derives i a st st' /\ k st' = Some res)
    (fuel : nat) :
  forall st res,
    (fix loop (fuel : nat) (st : mstate) {struct fuel} : option mstate :=
       match fuel with
       | O => k st
       | S fuel' =>
           match rmatch i a st (fun st' =>
                   if (pos st <? pos st')%nat then loop fuel' st' else None) with
           | Some res => Some res
           | None => k st
           end
       end) fuel st = Some res ->
    exists st', derives i (Star a) st st' /\ k st' = Some res.
Proof.
  induction fuel as [|fuel IHf]; intros st res H.
  - exists st. split; [constructor | exact H].
  - match type of H with
    | match ?m with _ => _ end = _ => destruct m as [r|] eqn:E
    end.
    + injection H as ->. apply IH in E. destruct E as [st1 [D1 E1]].
      destruct (pos st <? pos st1)%nat eqn:Hp; [|discriminate].
      apply IHf in E1. destruct E1 as [st2 [D2 E2]].
      exists st2. split; [|exact E2].
      apply Nat.ltb_lt in Hp. exact (d_star_more i a st st1 st2 D1 Hp D2).
    + exists st. split; [constructor | exact H].
Qed.

(** Whatever the matcher returns was reached along a derivation. *)
Lemma rmatch_sound (r : regex) :
  forall st k res, rmatch i r st k = Some res ->
    exists st', derives i r st st' /\ k st' = Some res.
Proof.
  induction r as [|p|a|a IHa b IHb|a IHa b IHb|a IHa|a IHa| | |];
    intros st k res H;
    [cbn [rmatch] in H|cbn [rmatch] in H|cbn [rmatch] in H|cbn [rmatch] in H
    |cbn [rmatch] in H| |cbn [rmatch] in H|cbn [rmatch] in H|cbn [rmatch] in H
    |cbn [rmatch] in H].
  - exists st. split; [constructor | exact H].
  - destruct (rest st) as [|c s'] eqn:E; [discriminate|].
    destruct (p c) eqn:Hp; [|discriminate].
    exists (step c s' st). split; [now constructor | exact H].
  - destruct (rest st) as [|c s'] eqn:E; [discriminate|].
    destruct (Ascii.eqb (canon i a) (canon i c)) eqn:Hp; [|discriminate].
    apply Ascii.eqb_eq in Hp.
    exists (step c s' st). split; [now constructor | exact H].
  - apply IHa in H. destruct H as [st1 [D1 H]].
    apply IHb in H. destruct H as [st2 [D2 H]].
    exists st2. split; [exact (d_seq i a b st st1 st2 D1 D2) | exact H].
  - destruct (rmatch i a st k) as [r|] eqn:E.
    + injection H as ->. apply IHa in E. destruct E as [st1 [D1 E]].
      exists st1. split; [now apply d_alt_l | exact E].
    + apply IHb in H. destruct H as [st1 [D1 H]].
      exists st1. split; [now apply d_alt_r | exact H].
  - exact (star_loop_sound a k IHa (S (String.length (rest st))) st res H).
  - apply IHa in H. destruct H as [st1 [D1 H]].
    eexists. split; [apply d_group; exact D1 | exact H].
  - destruct (line_start (last st)) eqn:E; [|discriminate].
    exists st. split; [now constructor | exact H].
  - destruct (pos st =? 0)%nat eqn:E; [|discriminate].
    apply Nat.eqb_eq in E.
    exists st. split; [now constructor | exact H].
  - destruct (rest st) eqn:E; [|discriminate].
    exists st. split; [now constructor | exact H].
Qed.

(** A derivation consumes a piece of the subject, from the front. *)
Lemma derives_consumed (r : regex) (st st' : mstate) :
  derives i r st st' -> exists w, consumed st st' w.
Proof.
  unfold consumed.
  induction 1 as [st|p c s' st E Hp|a c s' st E Hp
                 |a b st1 st2 st3 _ [w1 [E1 P1]] _ [w2 [E2 P2]]
                 |a b st st' _ IH|a b st st' _ IH
                 |a st|a st st1 st2 _ [w1 [E1 P1]] Hlt _ [w2 [E2 P2]]
                 |a st st' _ [w [E P]]|st|st|st].
  - exists "". split; [reflexivity | cbn; lia].
  - exists (String c ""). rewrite E. split; [reflexivity | cbn; lia].
  - exists (String c ""). rewrite E. split; [reflexivity | cbn; lia].
  - exists (w1 ++ w2). rewrite E1, E2, append_assoc, length_append.
    split; [reflexivity | lia].
  - exact IH.
  - exact IH.
  - exists "". split; [reflexivity | cbn; lia].
  - exists (w1 ++ w2). rewrite E1, E2, append_assoc, length_append.
    split; [reflexivity | lia].
  - exists w. cbn [rest pos]. split; assumption.
  - exists "". split; [reflexivity | cbn; lia].
  - exists "". split; [reflexivity | cbn; lia].
  - exists "". split; [reflexivity | cbn; lia].
Qed.

Lemma match_at_consumed (r : regex) (q : nat) (l : option ascii) (s : string)
    (st' : mstate) :
  match_at i r q l s = Some st' ->
  derives i r (mkState q l s None) st' /\
  exists w, s = w ++ rest st' /\ pos st' = (q + String.length w)%nat.
Proof.
  unfold match_at. intros H. apply rmatch_sound in H.
  destruct H as [st1 [D E]]. injection E as ->.
  split; [exact D|]. apply derives_consumed in D. exact D.
Qed.

(** Where [find] finds a match. *)
Lemma find_match (r : regex) (s : string) :
  forall q l start st',
    find i r q l s = Some (start, st') ->
    exists u v l',
      s = u ++ v /\ start = (q + String.length u)%nat /\
      match_at i r start l' v = Some st'.
Proof.
  induction s as [|c s IH]; intros q l start st' H; cbn [find] in H.
  - destruct (match_at i r q l "") as [st1|] eqn:E; [|discriminate].
    injection H as <- <-. exists "", "", l.
    split; [reflexivity|]. split; [cbn; lia | exact E].
  - destruct (match_at i r q l (String c s)) as [st1|] eqn:E.
    + injection H as <- <-. exists "", (String c s), l.
      split; [reflexivity|]. split; [cbn; lia | exact E].
    + apply IH in H. destruct H as [u [v [l' [Es [Ep Em]]]]].
      exists (String c u), v, l'. split; [now rewrite Es|].
      split; [cbn; lia | exact Em].
Qed.

(** A pattern anchored at the start of the subject matches there or
    nowhere. *)
Lemma find_bos_later (r : regex) (s : string) :
  forall q l, (0 < q)%nat -> find i (Seq Bos r) q l s = None.
Proof.
  induction s as [|c s IH]; intros q l Hq; cbn [find].
  - unfold match_at. cbn [rmatch pos].
    destruct (q =? 0)%nat eqn:E; [apply Nat.eqb_eq in E; lia | reflexivity].
  - unfold match_at. cbn [rmatch pos].
    destruct (q =? 0)%nat eqn:E; [apply Nat.eqb_eq in E; lia|].
    apply IH. lia.
Qed.

Lemma find_bos (r : regex) (s : string) :
  find i (Seq Bos r) 0 None s
  = match match_at i (Seq Bos r) 0 None s with
    | Some st' => Some (0%nat, st')
    | None => None
    end.
Proof.
  destruct s as [|c s]; cbn [find].
  - destruct (match_at i (Seq Bos r) 0 None ""); reflexivity.
  - destruct (match_at i (Seq Bos r) 0 None (String c s)); [reflexivity|].
    apply find_bos_later. lia.
Qed.

(** Replacing the match of an anchored pattern by nothing removes a piece
    from the front of the subject, or nothing. *)
Lemma replaceFirst_bos (r : regex) (s : string) :
  exists p, s = p ++ replaceFirst i (Seq Bos r) "" s.
Proof.
  unfold replaceFirst. rewrite find_bos.
  destruct (match_at i (Seq Bos r) 0 None s) as [st'|] eqn:E.
  - apply match_at_consumed in E. destruct E as [_ [w [Es _]]].
    exists w. cbn [take append]. exact Es.
  - now exists "".
Qed.

(** The parts of a sequence are derived one after the other. *)
Lemma derives_cat_mem (r : regex) (l : list regex) :
  In r l -> forall st st', derives i (cat l) st st' ->
  exists st1 st2 u, derives i r st1 st2 /\ rest st = u ++ rest st1.
Proof.
  induction l as [|x l IH]; intros Hin st st' D; [contradiction|].
  cbn [cat fold_right] in D. inversion D as [| | |a b s1 s2 s3 Da Db| | | | | | | |]; subst.
  destruct Hin as [->|Hin].
  - exists st, s2, "". split; [exact Da | reflexivity].
  - destruct (IH Hin s2 st' Db) as [st1 [st2 [u [Dr Eu]]]].
    apply derives_consumed in Da. destruct Da as [w [Ew _]].
    exists st1, st2, (w ++ u). split; [exact Dr|].
    now rewrite Ew, Eu, append_assoc.
Qed.

End Sound.

(** A literal, under the case flag, consumes a text with the same lower
    case. *)
Lemma canon_lower (a c : ascii) :
  canon true a = canon true c -> lower_char c = lower_char a.
Proof. unfold canon. congruence. Qed.

Lemma derives_str (lit : string) :
  forall st st', derives true (Str lit) st st' ->
  exists w, rest st = w ++ rest st' /\ toLowerCase w = toLowerCase lit.
Proof.
  induction lit as [|a lit IH]; intros st st' D; cbn [Str] in D.
  - inversion D; subst. now exists "".
  - inversion D as [| | |x y s1 s2 s3 Da Db| | | | | | | |]; subst.
    inversion Da as [| |x c s' s0 E Hc| | | | | | | | |]; subst.
    destruct (IH _ _ Db) as [w [Ew El]]. cbn [step rest] in Ew.
    exists (String c w). split.
    + rewrite E, Ew. reflexivity.
    + cbn [toLowerCase]. now rewrite El, (canon_lower _ _ Hc).
Qed.

(** A pattern with a literal word in its sequence matches only where the
    subject has the word, whatever the case. *)
Lemma match_needs_literal (l : list regex) (lit : string) (q : nat)
    (l0 : option ascii) (s : string) (st' : mstate) :
  In (Str lit) l -> match_at true (cat l) q l0 s = Some st' ->
  contains (toLowerCase lit) (toLowerCase s).
Proof.
  intros Hin H. apply match_at_consumed in H. destruct H as [D _].
  destruct (derives_cat_mem true _ _ Hin _ _ D) as [st1 [st2 [u [Dr Eu]]]].
  apply derives_str in Dr. destruct Dr as [w [Ew El]].
  cbn [rest] in Eu. exists (toLowerCase u), (toLowerCase (rest st2)).
  now rewrite Eu, Ew, !toLowerCase_app, El.
Qed.

Lemma find_needs_literal (l : list regex) (lit : string) (s : string) :
  In (Str lit) l -> includes (toLowerCase lit) (toLowerCase s) = false ->
  forall q l0, find true (cat l) q l0 s = None.
Proof.
  intros Hin H q l0.
  destruct (find true (cat l) q l0 s) as [[start st']|] eqn:E; [|reflexivity].
  exfalso. apply find_match in E. destruct E as [u [v [l' [Es [_ Em]]]]].
  apply (match_needs_literal _ _ _ _ _ _ Hin) in Em.
  assert (C : contains (toLowerCase lit) (toLowerCase s)).
  { rewrite Es, toLowerCase_app. now apply contains_app_l. }
  apply includes_spec in C. congruence.
Qed.

End MatcherProps.

(** ** The special-block extractor, further properties *)

Module ExtractorProps.
Import Spec StringFacts Regex RegexSem SpecialBlocks MatcherProps.
Local Open Scope string_scope.

Lemma parse_fields (markdown : string) :
  let after := snd (extractExecutiveInsights markdown) in
  let narrative := replaceAll true takeawaysPattern nl after in
  executiveInsights (parseSpecialSections markdown)
    = fst (extractExecutiveInsights markdown) /\
  keyTakeaways (parseSpecialSections markdown)
    = block_items takeawaysPattern takeawayItem takeawayMarker after /\
  questions (parseSpecialSections markdown)
    = block_items questionsPattern questionItem questionMarker narrative /\
  content (parseSpecialSections markdown)
    = trim (replaceAll true questionsPattern nl narrative).
Proof.
  unfold parseSpecialSections.
  destruct (extractExecutiveInsights markdown) as [ins after].
  cbn [fst snd executiveInsights keyTakeaways questions content].
  repeat split.
Qed.

Lemma nonempty_spec (s : string) : nonempty s = true <-> s <> "".
Proof.
  unfold nonempty. rewrite negb_true_iff. split.
  - intros H ->. discriminate.
  - intros H. apply not_true_is_false. intros E. apply eqb_true in E.
    contradiction.
Qed.

Lemma block_items_clean (block item marker : regex) (text : string) :
  Forall (fun t => t <> "" /\ trim t = t) (block_items block item marker text).
Proof.
  apply Forall_forall. intros t Ht. unfold block_items in Ht.
  apply in_flat_map in Ht. destruct Ht as [m [_ Ht]].
  apply filter_In in Ht. destruct Ht as [Ht Hn].
  apply in_map_iff in Ht. destruct Ht as [x [<- _]].
  split; [now apply nonempty_spec | apply trim_idem].
Qed.

Lemma insights_clean (text : string) :
  Forall (fun t => t <> "" /\ trim t = t /\ isExecutiveInsightsHeader t = false)
         (fst (extractExecutiveInsights text)).
Proof.
  unfold extractExecutiveInsights.
  destruct (exec true sectionPattern text) as [[matched group]|];
    [|constructor].
  cbn [fst]. apply Forall_forall. intros t Ht.
  apply filter_In in Ht. destruct Ht as [Ht Hn].
  apply andb_true_iff in Hn. destruct Hn as [Hn Hh].
  apply in_map_iff in Ht. destruct Ht as [x [<- _]].
  split; [now apply nonempty_spec|]. split; [apply trim_idem|].
  now apply negb_true_iff.
Qed.

(** X21.  Every item the extractor returns is clean: it is not empty and
    has no white space around it, and no executive insight is one of the
    insight headers.  The narrative that is left is trimmed. *)
Theorem items_clean (markdown : string) :
  let r := parseSpecialSections markdown in
  Forall (fun t => t <> "" /\ trim t = t) (keyTakeaways r) /\
  Forall (fun t => t <> "" /\ trim t = t) (questions r) /\
  Forall (fun t => t <> "" /\ trim t = t /\ isExecutiveInsightsHeader t = false)
         (executiveInsights r) /\
  trim (content r) = content r.
Proof.
  intros r. subst r.
  destruct (parse_fields markdown) as [Ei [Ek [Eq Ec]]].
  rewrite Ei, Ek, Eq, Ec.
  split; [apply block_items_clean|]. split; [apply block_items_clean|].
  split; [apply insights_clean | apply trim_idem].
Qed.

(** *** Text without the words of the blocks *)

Lemma scan_none (r : regex) (s : string) (fuel : nat) (q : nat) (l : option ascii) :
  find true r q l s = None -> scan true fuel r q l s = ([], s).
Proof. intros H. destruct fuel; cbn [scan]; [reflexivity | now rewrite H]. Qed.

Lemma matchAll_none (r : regex) (s : string) :
  find true r 0 None s = None -> matchAll true r s = [].
Proof. intros H. unfold matchAll. now rewrite scan_none. Qed.

Lemma replaceAll_none (r : regex) (rep s : string) :
  find true r 0 None s = None -> replaceAll true r rep s = s.
Proof. intros H. unfold replaceAll. now rewrite scan_none. Qed.

Lemma insights_word :
  In (Str "Executive")
     [ Opt (Seq hashes (Star ws)); Opt (Str "**");
       Opt (cat [Plus digit; Opt (is_char "."); Star digit; Plus ws]);
       Opt (cat [Str "Top"; Plus ws]);
       Str "Executive"; Plus ws;
       Alt (cat [Str "Insight"; Opt (Str "s")]) (Str "Summary");
       Opt (Str "**"); colons; qualifier0; Star ws; newline;
       Group (Plus (cat [Alt (cat [Plus digit; is_char "."]) bullet;
                         Plus ws; Plus dot; line_end])) ].
Proof. do 4 right. left. reflexivity. Qed.

Lemma takeaways_word :
  In (Str "Takeaways")
     [ Opt (Seq hashes (Star ws)); Opt (Str "**");
       Str "Key"; Plus ws; Str "Takeaways";
       Opt (Str "**"); colons; qualifier1; Star ws; newline;
       Group (Plus (cat [bullet; Star ws; Plus dot; line_end])) ].
Proof. do 4 right. left. reflexivity. Qed.

Lemma questions_word :
  In (Str "Management")
     [ Opt (Seq hashes (Star ws)); Opt (Str "**");
       Str "Question"; Opt (Str "s"); Plus ws;
       Opt (cat [Str "for"; Plus ws]); Str "Management";
       Opt (Str "**"); colons; qualifier1; Star ws; newline;
       Group (Plus (cat [bullet_or_mark; Star ws; Plus dot; line_end])) ].
Proof. do 6 right. left. reflexivity. Qed.

Lemma no_insights (text : string) :
  includes "executive" (toLowerCase text) = false ->
  find true sectionPattern 0 None text = None.
Proof. intros H. exact (find_needs_literal _ _ _ insights_word H 0%nat None). Qed.

Lemma no_takeaways (text : string) :
  includes "takeaways" (toLowerCase text) = false ->
  find true takeawaysPattern 0 None text = None.
Proof. intros H. exact (find_needs_literal _ _ _ takeaways_word H 0%nat None). Qed.

Lemma no_questions (text : string) :
  includes "management" (toLowerCase text) = false ->
  find true questionsPattern 0 None text = None.
Proof. intros H. exact (find_needs_literal _ _ _ questions_word H 0%nat None). Qed.

(** X22.  Text without the words of the blocks passes through: when the
    lower-cased markdown has none of "executive", "takeaways" and
    "management", nothing is extracted and the narrative is the markdown,
    trimmed. *)
Theorem plain_passthrough (markdown : string) :
  includes "executive" (toLowerCase markdown) = false ->
  includes "takeaways" (toLowerCase markdown) = false ->
  includes "management" (toLowerCase markdown) = false ->
  parseSpecialSections markdown = mkSpecial (trim markdown) [] [] [].
Proof.
  intros He Ht Hq.
  apply no_insights in He. apply no_takeaways in Ht. apply no_questions in Hq.
  unfold parseSpecialSections.
  assert (Ee : extractExecutiveInsights markdown = ([], markdown)).
  { unfold extractExecutiveInsights, exec. now rewrite He. }
  rewrite Ee. unfold block_items.
  rewrite (matchAll_none _ _ Ht), (replaceAll_none _ _ _ Ht).
  rewrite (matchAll_none _ _ Hq), (replaceAll_none _ _ _ Hq).
  reflexivity.
Qed.

Lemma plain_passthrough_witness :
  parseSpecialSections "  Revenue grew 4% on the month. "
  = mkSpecial (trim "  Revenue grew 4% on the month. ") [] [] [].
Proof.
  apply (plain_passthrough "  Revenue grew 4% on the month. ");
    vm_compute; reflexivity.
Defined.

(** *** Where the insights come from *)

Lemma contains_trans (a b c : string) : contains a b -> contains b c -> contains a c.
Proof.
  intros [x [y E]] [u [v F]]. exists (u ++ x), (y ++ v).
  rewrite F, E, !append_assoc. reflexivity.
Qed.

Lemma contains_refl (a : string) : contains a a.
Proof. exists "", "". cbn. now rewrite append_nil_r. Qed.

Lemma take_drop (n : nat) (s : string) : s = take n s ++ drop n s.
Proof.
  revert s. induction n as [|n IH]; intros s.
  - destruct s; reflexivity.
  - destruct s as [|c s]; [reflexivity|]. cbn [take drop append]. f_equal.
    apply IH.
Qed.

Lemma contains_drop (n : nat) (s : string) : contains (drop n s) s.
Proof.
  exists (take n s), "". rewrite append_nil_r. apply take_drop.
Qed.

Lemma contains_take (n : nat) (s : string) : contains (take n s) s.
Proof. exists "", (drop n s). cbn [append]. apply take_drop. Qed.

Lemma split_lines_cons (text : string) :
  exists l ls r, split_lines text = l :: ls /\ text = l ++ r.
Proof.
  induction text as [|c text [l [ls [r [E F]]]]].
  - exists "", [], "". split; reflexivity.
  - cbn [split_lines]. destruct (Ascii.eqb c (ascii_of_nat 10)).
    + exists "", (split_lines text), (String c text). split; reflexivity.
    + rewrite E. exists (String c l), ls, r. split; [reflexivity|].
      cbn [append]. now rewrite F.
Qed.

Lemma contains_line (text line : string) :
  In line (split_lines text) -> contains line text.
Proof.
  revert line. induction text as [|c text IH]; intros line H.
  - destruct H as [<-|[]]. apply contains_refl.
  - cbn [split_lines] in H.
    destruct (Ascii.eqb c (ascii_of_nat 10)).
    + destruct H as [<-|H].
      * exists "", (String c text). reflexivity.
      * apply (contains_app_l _ (String c "")), IH, H.
    + destruct (split_lines_cons text) as [l [ls [r [E F]]]].
      rewrite E in H. destruct H as [<-|H].
      * exists "", r. cbn [append]. now rewrite F.
      * apply (contains_app_l _ (String c "")), IH. rewrite E. now right.
Qed.

Lemma contains_replaceFirst (r : regex) (s : string) :
  contains (replaceFirst false (Seq Bos r) "" s) s.
Proof.
  destruct (replaceFirst_bos false r s) as [p E].
  exists p, "". now rewrite append_nil_r.
Qed.

Lemma insight_inside (text t : string) :
  In t (fst (extractExecutiveInsights text)) -> contains t text.
Proof.
  unfold extractExecutiveInsights, exec.
  destruct (find true sectionPattern 0 None text) as [[start st']|];
    [|contradiction].
  cbn [fst]. intros H. apply filter_In in H. destruct H as [H _].
  apply in_map_iff in H. destruct H as [line [<- Hl]].
  apply contains_line in Hl.
  assert (Hb : contains line text).
  { apply (contains_trans _ _ _ Hl). destruct (cap st') as [[a b]|].
    - apply (contains_trans _ (drop a text)); [apply contains_take | apply contains_drop].
    - exists "", text. reflexivity. }
  apply (contains_trans _ line); [|exact Hb].
  destruct (trim_inside
              (replaceFirst false takeawayMarker ""
                 (replaceFirst false numberMarker "" line))) as [x [y E]].
  apply (contains_trans _ (replaceFirst false takeawayMarker ""
                             (replaceFirst false numberMarker "" line))).
  - now exists x, y.
  - apply (contains_trans _ (replaceFirst false numberMarker "" line)).
    + apply contains_replaceFirst.
    + apply contains_replaceFirst.
Qed.

(** X23.  No insight is made up: every executive insight is a piece of the
    markdown it was extracted from, character for character. *)
Theorem insights_from_text (markdown t : string) :
  In t (executiveInsights (parseSpecialSections markdown)) ->
  contains t markdown.
Proof.
  rewrite (proj1 (parse_fields markdown)). apply insight_inside.
Qed.

Lemma insights_from_text_witness :
  contains "Cash is tight"
    ("## Executive Insights" ++ nl ++ "1. Cash is tight" ++ nl).
Proof.
  apply (insights_from_text
           ("## Executive Insights" ++ nl ++ "1. Cash is tight" ++ nl)).
  vm_compute. left. reflexivity.
Defined.

End ExtractorProps.

(** ** The redundant-title filter *)

Module TitleProps.
Import Spec StringFacts Regex RegexSem Title Notions MatcherProps.
Local Open Scope string_scope.

Lemma syntax_backslash (c : ascii) :
  syntax_char c = false -> Ascii.eqb c "\" = false.
Proof.
  intros H. destruct (Ascii.eqb c "\") eqn:E; [|reflexivity].
  apply Ascii.eqb_eq in E. subst c. discriminate.
Qed.

(** The class of [escapeRegex] is the class of syntax characters of the
    pattern grammar: the same fourteen characters, and no other. *)
Lemma syntax_class (c : ascii) : SyntaxCharacter c = syntax_char c.
Proof. destruct c as [[] [] [] [] [] [] [] []]; reflexivity. Qed.

Lemma escapeRegex_literal (str : string) :
  read_literal (escapeRegex str) = Some (Str str).
Proof.
  induction str as [|c str IH]; [reflexivity|].
  cbn [escapeRegex]. destruct (syntax_char c) eqn:E.
  - cbn [read_literal]. rewrite Ascii.eqb_refl, syntax_class, E, IH. reflexivity.
  - cbn [read_literal]. rewrite (syntax_backslash c E), syntax_class, E, IH.
    reflexivity.
Qed.

(** X24.  Escaping makes a name a literal of the pattern grammar.  The
    grammar is read by [read_literal]: a character that is no
    [SyntaxCharacter] stands for itself, a backslash before a
    [SyntaxCharacter] stands for that character, and nothing else is a
    literal.  For every name, the escaped name is read, and it reads as the
    pattern that matches the name character by character: [escapeRegex]
    escapes every syntax character of the grammar and no character whose
    escape would mean something else. *)
Theorem escaped_name_literal (str : string) :
  read_literal (escapeRegex str) = Some (Str str).
Proof.
  induction str as [|c str IH]; [reflexivity|].
  cbn [escapeRegex]. destruct (syntax_char c) eqn:E.
  - cbn [read_literal]. rewrite Ascii.eqb_refl, syntax_class, E, IH. reflexivity.
  - cbn [read_literal]. rewrite (syntax_backslash c E), syntax_class, E, IH.
    reflexivity.
Qed.

(** What the reader refuses: a bare syntax character, and a backslash
    before a letter (a class escape of the grammar, not a literal). *)
Example not_literals :
  read_literal "a|b" = None /\ read_literal "\d" = None /\
  read_literal "(" = None /\ read_literal "\" = None.
Proof. repeat split; reflexivity. Qed.

Lemma removeRedundantTitle_eq (content sectionName : string) :
  sectionName <> "" ->
  removeRedundantTitle content (Some sectionName)
  = fold_left (fun result pattern => replaceFirst true pattern "" result)
              (patterns (Str sectionName)) content.
Proof.
  intros H. unfold removeRedundantTitle.
  destruct (String.eqb sectionName "") eqn:E;
    [apply eqb_true in E; contradiction|].
  now rewrite escapeRegex_literal.
Qed.

Lemma removeRedundantTitle_steps (content : string) (sectionName : option string) :
  removeRedundantTitle content sectionName = content \/
  exists p1 p2 p3,
    removeRedundantTitle content sectionName
    = replaceFirst true (Seq Bos p3) ""
        (replaceFirst true (Seq Bos p2) ""
           (replaceFirst true (Seq Bos p1) "" content)).
Proof.
  destruct sectionName as [n|]; [|now left].
  destruct (String.eqb n "") eqn:E.
  - left. unfold removeRedundantTitle. now rewrite E.
  - right. rewrite removeRedundantTitle_eq
      by (intros ->; discriminate).
    unfold patterns. cbn [fold_left cat fold_right].
    do 3 eexists. reflexivity.
Qed.

(** X25.  The filter only ever removes text from the front: the content is
    the result with something, possibly nothing, before it. *)
Theorem title_prefix_only (content : string) (sectionName : option string) :
  exists p, content = p ++ removeRedundantTitle content sectionName.
Proof.
  destruct (removeRedundantTitle_steps content sectionName)
    as [E|[p1 [p2 [p3 E]]]]; rewrite E.
  - now exists "".
  - destruct (replaceFirst_bos true p1 content) as [a Ea].
    destruct (replaceFirst_bos true p2 (replaceFirst true (Seq Bos p1) "" content))
      as [b Eb].
    destruct (replaceFirst_bos true p3
                (replaceFirst true (Seq Bos p2) ""
                   (replaceFirst true (Seq Bos p1) "" content))) as [c Ec].
    exists (a ++ b ++ c). rewrite !append_assoc.
    rewrite <- Ec, <- Eb. exact Ea.
Qed.

(** *** One step of the matcher on an explicit state *)

Section Steps.

Variable i : bool.
Variables (q : nat) (l : option ascii) (cp : option (nat * nat)).

Lemma R_seq (a b : regex) (st : mstate) (k : mstate -> option mstate) :
  rmatch i (Seq a b) st k = rmatch i a st (fun st' => rmatch i b st' k).
Proof. reflexivity. Qed.



Lemma R_bos (s : string) (k : mstate -> option mstate) :
  rmatch i Bos (mkState 0 l s cp) k = k (mkState 0 l s cp).
Proof. reflexivity. Qed.


Lemma R_char_miss (p : ascii -> bool) (c : ascii) (s : string)
    (k : mstate -> option mstate) :
  p c = false ->
  rmatch i (Char p) (mkState q l (String c s) cp) k = None.
Proof. intros H. cbn [rmatch rest]. now rewrite H. Qed.

Lemma R_char_end (p : ascii -> bool) (k : mstate -> option mstate) :
  rmatch i (Char p) (mkState q l "" cp) k = None.
Proof. reflexivity. Qed.


Lemma R_lit_miss (a c : ascii) (s : string) (k : mstate -> option mstate) :
  Ascii.eqb (canon i a) (canon i c) = false ->
  rmatch i (Lit a) (mkState q l (String c s) cp) k = None.
Proof. intros H. cbn [rmatch rest]. now rewrite H. Qed.

Lemma R_lit_end (a : ascii) (k : mstate -> option mstate) :
  rmatch i (Lit a) (mkState q l "" cp) k = None.
Proof. reflexivity. Qed.




End Steps.


(** The first character of a text, as [startsWith] sees it. *)
Lemma first_char (a c : ascii) (s : string) :
  startsWith (String a "") (String c s) = Ascii.eqb a c.
Proof.
  unfold startsWith. cbn [String.prefix].
  destruct (ascii_dec a c) as [->|n].
  - now rewrite prefix_nil, Ascii.eqb_refl.
  - symmetry. now apply Ascii.eqb_neq.
Qed.

Lemma lower_star (c : ascii) :
  Ascii.eqb "*" (lower_char c) = Ascii.eqb "*" c.
Proof. destruct c as [[] [] [] [] [] [] [] []]; reflexivity. Qed.


Lemma hash_pattern_fails (x y : regex) (s : string) :
  startsWith "#" s = false ->
  match_at true (Seq Bos (Seq (Seq (Char (Ascii.eqb "#")) x) y)) 0 None s = None.
Proof.
  intros H. unfold match_at. destruct s as [|c s].
  - rewrite R_seq, R_bos. cbn beta. rewrite !R_seq, R_char_end. reflexivity.
  - rewrite first_char in H.
    rewrite R_seq, R_bos. cbn beta. rewrite !R_seq, R_char_miss by exact H.
    reflexivity.
Qed.

Lemma star_pattern_fails (x y : regex) (s : string) :
  startsWith "*" s = false ->
  match_at true (Seq Bos (Seq (Seq (Lit "*") x) y)) 0 None s = None.
Proof.
  intros H. unfold match_at. destruct s as [|c s].
  - rewrite R_seq, R_bos. cbn beta. rewrite !R_seq, R_lit_end. reflexivity.
  - rewrite first_char in H.
    rewrite R_seq, R_bos. cbn beta. rewrite !R_seq.
    rewrite R_lit_miss; [reflexivity|].
    unfold canon. change (lower_char "*") with "*"%char.
    now rewrite lower_star.
Qed.

Lemma replaceFirst_none (r : regex) (s : string) :
  match_at true (Seq Bos r) 0 None s = None ->
  replaceFirst true (Seq Bos r) "" s = s.
Proof. intros H. unfold replaceFirst. now rewrite find_bos, H. Qed.


(** X26.  Content that does not open with a hash sign or a star is never
    altered, whatever the section name. *)
Theorem title_untouched (content : string) (sectionName : option string) :
  startsWith "#" content = false -> startsWith "*" content = false ->
  removeRedundantTitle content sectionName = content.
Proof.
  intros Hh Hs. destruct sectionName as [n|]; [|reflexivity].
  destruct (String.eqb n "") eqn:E.
  - unfold removeRedundantTitle. now rewrite E.
  - rewrite removeRedundantTitle_eq by (intros ->; discriminate).
    unfold patterns, Plus, is_char. cbn [fold_left cat fold_right Str].
    rewrite (replaceFirst_none _ content) by (apply hash_pattern_fails, Hh).
    rewrite (replaceFirst_none _ content) by (apply hash_pattern_fails, Hh).
    apply replaceFirst_none. apply star_pattern_fails, Hs.
Qed.

Lemma title_untouched_witness :
  removeRedundantTitle "Revenue grew 4%." (Some "2. Revenue Performance")
  = "Revenue grew 4%.".
Proof.
  apply (title_untouched "Revenue grew 4%." (Some "2. Revenue Performance"));
    reflexivity.
Defined.

(** *** Numbered and unnumbered headings *)








Section Headings.

Variables (d c0 : ascii).
Hypothesis Hd : is_digit d = true.
Hypothesis Hc : is_digit c0 = false.
Hypothesis Hs : is_space c0 = false.




End Headings.




End TitleProps.

(** ** The narrative the renderer shows *)

Module NarrativeProps.
Import Spec StringFacts Regex RegexSem SpecialBlocks Notions.
Import MatcherProps ExtractorProps.
Local Open Scope string_scope.






(** *** Trimming a text that ends, or starts, with a trimmed one *)



End NarrativeProps.

(** ** From the parser to the renderer *)

Module PipelineProps.
Import Spec StringFacts Regex Sections Title Notions.
Import MatcherProps ParserProps TitleProps NarrativeProps.
Local Open Scope string_scope.














(** Without a body the numbered heading stays: the trimmed content has no
    line end left for the patterns; and a heading that opens a takeaways
    block goes with the block, whatever the patterns. *)
Example heading_alone_kept :
  narrative ("## 4. Operating Expenses" ++ nl ++ nl) (Some "4. Operating Expenses")
  = "## 4. Operating Expenses" /\
  narrative ("## Key Takeaways (Revenue Performance)" ++ nl ++ nl
             ++ "- Revenue up 12%" ++ nl ++ "- Margin stable")
            (Some "2. Key Takeaways (Revenue Performance)")
  = "".
Proof. split; vm_compute; reflexivity. Qed.



End PipelineProps.

(** ** The viewer *)

Module ViewerProps.
Import StringFacts Viewer.
Local Open Scope string_scope.

Lemma find_first (sections : list StoredSection) (k : string) (s : StoredSection) :
  In s sections -> sectionKey s = k ->
  exists l1 s' l2,
    sections = (l1 ++ s' :: l2)%list /\ sectionKey s' = k /\
    Forall (fun x => sectionKey x <> k) l1 /\
    currentSection sections k = Some s'.
Proof.
  unfold currentSection.
  induction sections as [|x sections IH]; intros Hin Hk; [contradiction|].
  cbn [find]. destruct (String.eqb (sectionKey x) k) eqn:E.
  - apply eqb_true in E. exists [], x, sections.
    split; [reflexivity|]. split; [exact E|]. split; [constructor | reflexivity].
  - assert (Hx : sectionKey x <> k).
    { intros F. apply eqb_true in F. congruence. }
    destruct Hin as [->|Hin]; [contradiction|].
    destruct (IH Hin Hk) as [l1 [s' [l2 [El [Ek [Hf Ec]]]]]].
    exists (x :: l1), s', l2. split; [now rewrite El|]. split; [exact Ek|].
    split; [now constructor | exact Ec].
Qed.

(** X29.  The viewer opens on the first section of the list, and choosing
    the entry of a section shows the first section of the list that has
    its key: of two sections with one key, the later one is never shown. *)
Theorem viewer_first_of_key (sections : list StoredSection) :
  (forall s rest, sections = s :: rest ->
     currentSection sections (initialSection sections) = Some s) /\
  (forall s, In s sections ->
     exists l1 s' l2,
       sections = (l1 ++ s' :: l2)%list /\ sectionKey s' = sectionKey s /\
       Forall (fun x => sectionKey x <> sectionKey s) l1 /\
       currentSection sections (select s) = Some s').
Proof.
  split.
  - intros s rest ->. unfold currentSection. cbn [initialSection find].
    now rewrite String.eqb_refl.
  - intros s Hs. exact (find_first sections (sectionKey s) s Hs eq_refl).
Qed.

Example repeated_key_shadowed :
  currentSection Cases.repeated_rows
    (select (mkView "b" "revenue_performance" "2. Revenue Performance (detail)" 2
               (Some "## Revenue Performance (detail)")))
  = Some (mkView "a" "revenue_performance" "2. Revenue Performance" 2
            (Some "## Revenue Performance")).
Proof. reflexivity. Qed.

(** X30.  When no two sections have the same key, choosing the entry of a
    section shows that section. *)
Theorem viewer_distinct_keys (sections : list StoredSection) (s : StoredSection) :
  NoDup (map sectionKey sections) -> In s sections ->
  currentSection sections (select s) = Some s.
Proof.
  intros N Hs.
  destruct (find_first sections (sectionKey s) s Hs eq_refl)
    as [l1 [s' [l2 [El [Ek [Hf Ec]]]]]].
  unfold select. rewrite Ec. f_equal.
  rewrite El in Hs, N. rewrite map_app in N. cbn [map] in N.
  apply in_app_or in Hs. destruct Hs as [Hs|[Hs|Hs]].
  - rewrite Forall_forall in Hf. exfalso. exact (Hf s Hs eq_refl).
  - exact Hs.
  - exfalso. apply NoDup_remove_2 in N. apply N. apply in_or_app. right.
    rewrite Ek. now apply in_map.
Qed.

Lemma viewer_distinct_keys_witness :
  currentSection
    [ mkView "a" "executive_snapshot" "1. Executive Snapshot" 1 None;
      mkView "b" "risk_controls" "9. Risk & Controls" 9 None ]
    (select (mkView "b" "risk_controls" "9. Risk & Controls" 9 None))
  = Some (mkView "b" "risk_controls" "9. Risk & Controls" 9 None).
Proof.
  apply (viewer_distinct_keys
           [ mkView "a" "executive_snapshot" "1. Executive Snapshot" 1 None;
             mkView "b" "risk_controls" "9. Risk & Controls" 9 None ]).
  - repeat constructor; simpl; intuition discriminate.
  - right. left. reflexivity.
Defined.

End ViewerProps.
